(** * btc-data-feed: the data-aggregation and indicator pipeline of
    [fetch_data.py], embedded in Rocq.

    Conventions of the embedding.
    - A Python [float] is modelled twice.  The pipeline as a whole is
      written over exact rationals ([Q]): every formula of the source is
      evaluated without rounding error, overflow or NaN, and equality of
      numbers is [Qeq] ([==]); what is proved of it holds of the formulas,
      in exact arithmetic and for finite numbers.  Where rounding changes
      what the code does (the division guard of [calculate_rsi], the
      loops of [main] that call the indicators, the comparisons of the
      volatility regime, the guard of the order-book imbalance) the same
      source lines are also written over IEEE 754 binary64 numbers, in
      [Binary64], with the operations of the Standard Library's
      [SpecFloat].
    - A Python exception is a value of [exn]; a computation that can raise
      has type [result A].  [try: ... except Exception:] is [try_except].
    - Data decoded from JSON is a [value]; the operators the source applies
      to it ([in], [x[k]], [x[:2]], iteration, [float(x)]) are written out
      with the exception each raises on the wrong kind of value.
    - The network and the clock are inputs: a [world] holds what each HTTP
      request answers; the file system is an explicit state, and it is
      assumed to accept the write of the report (the directory can be
      created, the file opened, the text encoded). *)

From Stdlib Require Import ZArith QArith Qround Qabs Lqa Lia SpecFloat.
From Stdlib Require Import String Ascii DecimalString Bool List.
Import ListNotations.

Local Open Scope Z_scope.
Local Open Scope Q_scope.

#[local] Set Warnings "-register-all".

(** ** Exceptions *)

Inductive exn : Set :=
| ZeroDivisionError
| IndexError
| KeyError
| TypeError
| ValueError
| ConnectionError
| HTTPError
| JSONDecodeError
| OverflowError.

Inductive result (A : Type) : Type :=
| Ok (a : A)
| Raise (e : exn).

Arguments Ok {A} a.
Arguments Raise {A} e.

Definition bind {A B : Type} (c : result A) (k : A -> result B) : result B :=
  match c with
  | Ok a => k a
  | Raise e => Raise e
  end.

Notation "x <- c ;; k" := (bind c (fun x => k))
  (at level 61, c at next level, right associativity).

(** [mapM f l]: a comprehension [[f(x) for x in l]] whose body can raise;
    elements are evaluated left to right and the first exception wins. *)
Fixpoint mapM {A B : Type} (f : A -> result B) (l : list A) : result (list B) :=
  match l with
  | [] => Ok []
  | x :: t => y <- f x ;; ys <- mapM f t ;; Ok (y :: ys)
  end.

(** [try: body except Exception: handler] *)
Definition try_except {A : Type} (body : result A) (handler : A) : A :=
  match body with
  | Ok a => a
  | Raise _ => handler
  end.

(** ** Numbers *)

Definition Qltb (x y : Q) : bool := negb (Qle_bool y x).

(** [x / y] on Python numbers: a zero divisor raises. *)
Definition py_div (x y : Q) : result Q :=
  if Qeq_bool y 0 then Raise ZeroDivisionError else Ok (x / y).

(** [sum(l)]: starts from 0 and adds from the left. *)
Definition py_sum (l : list Q) : Q := fold_left Qplus l 0.

Definition py_max (x y : Q) : Q := if Qltb x y then y else x.
Definition py_min (x y : Q) : Q := if Qltb y x then y else x.

Definition pow10 (n : nat) : Z := (10 ^ Z.of_nat n)%Z.

(** Nearest integer, ties to the even one. *)
Definition round_half_even (x : Q) : Z :=
  let f := Qfloor x in
  match Qcompare (x - inject_Z f) (1 # 2) with
  | Lt => f
  | Gt => (f + 1)%Z
  | Eq => if Z.even f then f else (f + 1)%Z
  end.

(** [round(x, n)] *)
Definition py_round (x : Q) (n : nat) : Q :=
  inject_Z (round_half_even (x * inject_Z (pow10 n))) / inject_Z (pow10 n).

(** The first integer that [float] refuses: [2^1024 - 2^970]. *)
Definition max_float_int : Z := (2 ^ 1024 - 2 ^ 970)%Z.

(** ** Lists, the Python way *)

(** [l[-1]] *)
Definition py_last {A : Type} (l : list A) : result A :=
  match rev l with
  | [] => Raise IndexError
  | x :: _ => Ok x
  end.

(** [l[0]] *)
Definition py_first {A : Type} (l : list A) : result A :=
  match l with
  | [] => Raise IndexError
  | x :: _ => Ok x
  end.

(** [l[-n:]]: the last [n] elements, all of [l] when it is shorter; and
    [l[-0:]] is [l[0:]], the whole list. *)
Definition py_tail_slice {A : Type} (n : nat) (l : list A) : list A :=
  match n with
  | O => l
  | _ => skipn (length l - n) l
  end.

(** [range(a, b)] *)
Definition py_range (a b : nat) : list nat := seq a (b - a).

(** ** Indicator engine *)

(** [calculate_ema(prices, period)] *)
Definition calculate_ema (prices : list Q) (period : Z) : result (list Q) :=
  p0 <- py_first prices ;;
  multiplier <- py_div 2 (inject_Z period + 1) ;;
  Ok (fold_left
        (fun ema price =>
           ema ++ [price * multiplier + last ema 0 * (1 - multiplier)])
        (tl prices) [p0]).

(** [calculate_macd(prices)] *)
Definition calculate_macd (prices : list Q) : result Q :=
  e12 <- calculate_ema prices 12 ;;
  ema12 <- py_last e12 ;;
  e26 <- calculate_ema prices 26 ;;
  ema26 <- py_last e26 ;;
  Ok (ema12 - ema26).

(** [[prices[i] - prices[i-1] for i in range(1, len(prices))]] *)
Definition deltas_of (prices : list Q) : list Q :=
  map (fun i => nth i prices 0 - nth (i - 1) prices 0)
      (py_range 1 (length prices)).

(** [calculate_rsi(prices, period)] *)
Definition calculate_rsi (prices : list Q) (period : nat) : result Q :=
  if (length prices <? period + 1)%nat then Ok 50
  else
    let deltas := deltas_of prices in
    let gains := map (fun d => if Qltb 0 d then d else 0)
                     (py_tail_slice period deltas) in
    let losses := map (fun d => if Qltb d 0 then - d else 0)
                      (py_tail_slice period deltas) in
    avg_gain <- py_div (py_sum gains) (inject_Z (Z.of_nat period)) ;;
    avg_loss <- (if Qltb 0 (py_sum losses)
                 then py_div (py_sum losses) (inject_Z (Z.of_nat period))
                 else Ok 1) ;;
    rs <- py_div avg_gain avg_loss ;;
    q <- py_div 100 (1 + rs) ;;
    Ok (100 - q).

(** ** Volatility regime (lines 162-171 of [main]) *)

Inductive regime : Set := High | Low | Normal.

Definition regime_label (r : regime) : string :=
  match r with
  | High => "high"
  | Low => "low"
  | Normal => "normal"
  end.

(** [[max(p[i], p[i-1]) - min(p[i], p[i-1]) for i in range(1, len(p))]] *)
Definition high_low_of (prices : list Q) : list Q :=
  map (fun i => py_max (nth i prices 0) (nth (i - 1) prices 0)
                - py_min (nth i prices 0) (nth (i - 1) prices 0))
      (py_range 1 (length prices)).

(** [sum(high_low[-14:]) / 14 if len(high_low) >= 14 else 0] *)
Definition atr14_of (prices : list Q) : result Q :=
  let high_low := high_low_of prices in
  if (14 <=? length high_low)%nat
  then py_div (py_sum (py_tail_slice 14 high_low)) 14
  else Ok 0.

(** The [if]/[elif]/[else] on [vol_pct]. *)
Definition classify_regime (vol_pct : Q) : regime :=
  if Qltb (5 # 1000) vol_pct then High
  else if Qltb vol_pct (2 # 1000) then Low
  else Normal.

(** ** Decoded JSON and the operators the source applies to it *)

Inductive value : Type :=
| VNone
| VBool (b : bool)
| VInt (z : Z)
| VFloat (q : Q)
| VStr (s : string)
| VList (l : list value)
| VDict (d : list (string * value)).

(** The one-character strings of [s], in order: what iterating over a
    [str] yields. *)
Fixpoint chars_of (s : string) : list string :=
  match s with
  | EmptyString => []
  | String c t => String c EmptyString :: chars_of t
  end.

Fixpoint is_substring (p s : string) : bool :=
  prefix p s
  || match s with
     | EmptyString => false
     | String _ t => is_substring p t
     end.

(** A decoded JSON object keeps one binding per key: lookup takes the
    first pair with that key. *)
Fixpoint dict_get (d : list (string * value)) (key : string) : option value :=
  match d with
  | [] => None
  | (k, v) :: t => if String.eqb k key then Some v else dict_get t key
  end.

Definition is_str (key : string) (v : value) : bool :=
  match v with
  | VStr s => String.eqb s key
  | _ => false
  end.

(** [key in v], for a string [key] *)
Definition py_contains (key : string) (v : value) : result bool :=
  match v with
  | VDict d => Ok (match dict_get d key with Some _ => true | None => false end)
  | VList l => Ok (existsb (is_str key) l)
  | VStr s => Ok (is_substring key s)
  | _ => Raise TypeError
  end.

(** [v[key]], for a string [key] *)
Definition py_getitem (v : value) (key : string) : result value :=
  match v with
  | VDict d => match dict_get d key with
               | Some x => Ok x
               | None => Raise KeyError
               end
  | _ => Raise TypeError
  end.

(** [v[i]], for a non-negative integer [i]; the keys of a decoded JSON
    object are strings, so an integer key is never found. *)
Definition py_index (v : value) (i : nat) : result value :=
  match v with
  | VList l => match nth_error l i with
               | Some x => Ok x
               | None => Raise IndexError
               end
  | VStr s => match nth_error (chars_of s) i with
              | Some c => Ok (VStr c)
              | None => Raise IndexError
              end
  | VDict _ => Raise KeyError
  | _ => Raise TypeError
  end.

(** [v[:2]] *)
Definition py_slice2 (v : value) : result value :=
  match v with
  | VList l => Ok (VList (firstn 2 l))
  | VStr s => Ok (VStr (substring 0 2 s))
  | _ => Raise TypeError
  end.

(** [for x in v]: the elements of a list, the characters of a string, the
    keys of a dict. *)
Definition py_iter (v : value) : result (list value) :=
  match v with
  | VList l => Ok l
  | VStr s => Ok (map VStr (chars_of s))
  | VDict d => Ok (map (fun kv => VStr (fst kv)) d)
  | _ => Raise TypeError
  end.

(** Truth value of a list result ([longs or [0, 0]]). *)
Definition py_or {A : Type} (l dflt : list A) : list A :=
  match l with
  | [] => dflt
  | _ => l
  end.

(** ** The network, as the source sees it *)

(** What [requests.get] hands back: a status code and what [.json()]
    yields on the body (it raises on a body that is not JSON). *)
Record response : Type := {
  status_code : Z;
  json : result value
}.

(** [requests.get(...)] itself raises on a transport failure or timeout. *)
Definition http : Type := result response.

(** [response.raise_for_status()] of the [requests] library: it raises
    for the client-error and server-error classes, 400 to 599. *)
Definition raise_for_status (r : response) : result unit :=
  if ((400 <=? status_code r) && (status_code r <? 600))%Z
  then Raise HTTPError
  else Ok tt.

Record world : Type := {
  w_klines_1m : http;
  w_depth : http;
  w_open_interest : http;
  w_funding : http;
  w_api_key : option string;
  w_liquidation : http;
  w_klines_4h : http;
  w_now : string
}.

(** ** Source adapters *)

Record binance_bag : Type := {
  mid_prices : list Q;
  volumes : list Q;
  taker_buy_volumes : list Q;
  order_book_imbalance : Q;
  bid_vol_top5 : Q;
  ask_vol_top5 : Q
}.

Record bybit_bag : Type := {
  oi_latest : Q;
  funding_rate : Q
}.

Definition binance_fallback : binance_bag := {|
  mid_prices := repeat 60000 10;
  volumes := repeat 1 10;
  taker_buy_volumes := repeat (5 # 10) 10;
  order_book_imbalance := 0;
  bid_vol_top5 := 10;
  ask_vol_top5 := 10
|}.

Definition bybit_fallback : bybit_bag := {|
  oi_latest := 29000;
  funding_rate := 1 # 100000
|}.

Definition liquidation_fallback : list value * list value :=
  ([VInt 0; VInt 0], [VInt 0; VInt 0]).

(** Line 37: the imbalance before rounding. *)
Definition raw_imbalance (bid_vol ask_vol : Q) : result Q :=
  if Qltb 0 (bid_vol + ask_vol)
  then py_div (bid_vol - ask_vol) (bid_vol + ask_vol)
  else Ok 0.

(** Lines 37 and 43: the value stored under ['order_book_imbalance']. *)
Definition imbalance_of (bid_vol ask_vol : Q) : result Q :=
  i <- raw_imbalance bid_vol ask_vol ;;
  Ok (py_round i 4).

Section Pipeline.

(** [float(s)] on a string: Python's parser of decimal literals, which
    raises [ValueError] on text that is no number. *)
Variable float_of_str : string -> result Q.

(** [float(v)].  An [int] that rounds to a magnitude beyond the largest
    binary64 number raises [OverflowError]: that is every [z] with
    [|z| >= 2^1024 - 2^970], the midpoint above the largest one. *)
Definition py_float (v : value) : result Q :=
  match v with
  | VFloat q => Ok q
  | VInt z => if (Z.abs z <? max_float_int)%Z
              then Ok (inject_Z z)
              else Raise OverflowError
  | VBool b => Ok (if b then 1 else 0)
  | VStr s => float_of_str s
  | _ => Raise TypeError
  end.

(** [[float(k[i]) for k in rows]] *)
Definition column (i : nat) (rows : list value) : result (list Q) :=
  mapM (fun k => x <- py_index k i ;; py_float x) rows.

(** [sum(float(e[1]) for e in side)] *)
Definition side_volume (side : value) : result Q :=
  entries <- py_iter side ;;
  vols <- column 1 entries ;;
  Ok (py_sum vols).

(** The body of the [try] of [get_binance_data], lines 13-46. *)
Definition binance_body (klines_resp depth_resp : http) : result binance_bag :=
  response <- klines_resp ;;
  _ <- raise_for_status response ;;
  klines <- json response ;;
  rows <- match klines with
          | VList [] => Raise ValueError
          | VList rows => Ok rows
          | _ => Raise ValueError
          end ;;
  closes <- column 4 rows ;;
  vols <- column 5 rows ;;
  taker <- column 9 rows ;;
  depth_response <- depth_resp ;;
  _ <- raise_for_status depth_response ;;
  depth <- json depth_response ;;
  has_bids <- py_contains "bids" depth ;;
  has_asks <- (if has_bids then py_contains "asks" depth else Ok false) ;;
  _ <- (if has_bids && has_asks then Ok tt else Raise ValueError) ;;
  bids <- py_getitem depth "bids" ;;
  bid_vol <- side_volume bids ;;
  asks <- py_getitem depth "asks" ;;
  ask_vol <- side_volume asks ;;
  imbalance <- imbalance_of bid_vol ask_vol ;;
  Ok {| mid_prices := closes;
        volumes := vols;
        taker_buy_volumes := taker;
        order_book_imbalance := imbalance;
        bid_vol_top5 := bid_vol;
        ask_vol_top5 := ask_vol |}.

(** [get_binance_data()] *)
Definition get_binance_data (w : world) : binance_bag :=
  try_except (binance_body (w_klines_1m w) (w_depth w)) binance_fallback.

(** What a successful body has read: every field of the bag comes from the
    two responses. *)
Definition real_bag (klines_resp depth_resp : http) (bag : binance_bag) : Prop :=
  exists response rows depth_response depth bids asks,
    klines_resp = Ok response
    /\ raise_for_status response = Ok tt
    /\ json response = Ok (VList rows)
    /\ rows <> []
    /\ column 4 rows = Ok (mid_prices bag)
    /\ column 5 rows = Ok (volumes bag)
    /\ column 9 rows = Ok (taker_buy_volumes bag)
    /\ depth_resp = Ok depth_response
    /\ raise_for_status depth_response = Ok tt
    /\ json depth_response = Ok depth
    /\ py_contains "bids" depth = Ok true
    /\ py_contains "asks" depth = Ok true
    /\ py_getitem depth "bids" = Ok bids
    /\ side_volume bids = Ok (bid_vol_top5 bag)
    /\ py_getitem depth "asks" = Ok asks
    /\ side_volume asks = Ok (ask_vol_top5 bag)
    /\ imbalance_of (bid_vol_top5 bag) (ask_vol_top5 bag)
       = Ok (order_book_imbalance bag).

(** The body of the [try] of [get_bybit_data], lines 62-74. *)
Definition bybit_body (oi_resp funding_resp : http) : result bybit_bag :=
  oi_response <- oi_resp ;;
  oi <- json oi_response ;;
  funding_response <- funding_resp ;;
  funding <- json funding_response ;;
  has_oi <- py_contains "result" oi ;;
  has_funding <- (if has_oi then py_contains "result" funding else Ok false) ;;
  _ <- (if has_oi && has_funding then Ok tt else Raise ValueError) ;;
  oi_result <- py_getitem oi "result" ;;
  oi_field <- py_getitem oi_result "open_interest" ;;
  oi_value <- py_float oi_field ;;
  funding_result <- py_getitem funding "result" ;;
  funding_field <- py_getitem funding_result "funding_rate" ;;
  funding_value <- py_float funding_field ;;
  Ok {| oi_latest := oi_value; funding_rate := funding_value |}.

(** [get_bybit_data()] *)
Definition get_bybit_data (w : world) : bybit_bag :=
  try_except (bybit_body (w_open_interest w) (w_funding w)) bybit_fallback.

(** [[item['price'] for item in data['data'][name][:2]]] when
    ['data' in data and name in data['data']], the empty list otherwise
    (lines 93-98). *)
Definition liquidation_side (data : value) (name : string) : result (list value) :=
  has_data <- py_contains "data" data ;;
  has_list <- (if has_data
               then (inner <- py_getitem data "data" ;; py_contains name inner)
               else Ok false) ;;
  if has_data && has_list
  then
    inner <- py_getitem data "data" ;;
    all <- py_getitem inner name ;;
    top <- py_slice2 all ;;
    items <- py_iter top ;;
    mapM (fun item => py_getitem item "price") items
  else Ok [].

(** [not COINGLASS_API_KEY] *)
Definition key_missing (k : option string) : bool :=
  match k with
  | None => true
  | Some EmptyString => true
  | Some _ => false
  end.

(** The body of the [try] of [get_coinglass_liquidations], lines 88-102. *)
Definition coinglass_body (api_key : option string) (resp : http)
  : result (list value * list value) :=
  _ <- (if key_missing api_key then Raise ValueError else Ok tt) ;;
  res <- resp ;;
  if (status_code res =? 200)%Z
  then
    data <- json res ;;
    longs <- liquidation_side data "longLiquidationList" ;;
    shorts <- liquidation_side data "shortLiquidationList" ;;
    Ok (py_or longs [VInt 0; VInt 0], py_or shorts [VInt 0; VInt 0])
  else Ok ([VInt 0; VInt 0], [VInt 0; VInt 0]).

(** [get_coinglass_liquidations()] *)
Definition get_coinglass_liquidations (w : world) : list value * list value :=
  try_except (coinglass_body (w_api_key w) (w_liquidation w)) liquidation_fallback.

(** ** [main]: the indicators (lines 135-171) *)

Record indicators : Type := {
  current_price : Q;
  ema20_list : list Q;
  ema20 : Q;
  macd_list : list Q;
  current_macd : Q;
  rsi7_list : list Q;
  current_rsi7 : Q;
  ema20_4h : Q;
  ema50_4h : Q;
  atr14 : Q;
  vol_pct : Q;
  vol_regime : regime
}.

(** Lines 140-143: one value per prefix length from 10 up. *)
Definition rolling_macd (prices : list Q) : result (list Q) :=
  mapM (fun i => macd_val <- calculate_macd (firstn i prices) ;;
                 Ok (py_round macd_val 3))
       (py_range 10 (length prices + 1)).

(** Lines 146-149: one value per prefix length from 8 up. *)
Definition rolling_rsi7 (prices : list Q) : result (list Q) :=
  mapM (fun i => rsi_val <- calculate_rsi (firstn i prices) 7 ;;
                 Ok (py_round rsi_val 3))
       (py_range 8 (length prices + 1)).

(** [l[-1] if l else dflt] *)
Definition last_or (l : list Q) (dflt : Q) : Q :=
  match l with
  | [] => dflt
  | _ => last l dflt
  end.

(** The body of the [try] of lines 153-157. *)
Definition long_horizon_body (resp : http) : result (Q * Q) :=
  r <- resp ;;
  klines_4h <- json r ;;
  rows <- py_iter klines_4h ;;
  closes_4h <- column 4 rows ;;
  e20 <- calculate_ema closes_4h 20 ;;
  v20 <- py_last e20 ;;
  e50 <- calculate_ema closes_4h 50 ;;
  v50 <- py_last e50 ;;
  Ok (v20, v50).

Definition long_horizon (resp : http) : Q * Q :=
  try_except (long_horizon_body resp) (60000, 59000).

Definition compute_indicators (binance : binance_bag) (resp_4h : http)
  : result indicators :=
  let prices := mid_prices binance in
  price <- py_last prices ;;
  e <- calculate_ema prices 20 ;;
  let ema_tail := py_tail_slice 10 e in
  ema_now <- py_last ema_tail ;;
  macds <- rolling_macd prices ;;
  rsis <- rolling_rsi7 prices ;;
  let lh := long_horizon resp_4h in
  atr <- atr14_of prices ;;
  pct <- py_div atr price ;;
  Ok {| current_price := price;
        ema20_list := ema_tail;
        ema20 := ema_now;
        macd_list := macds;
        current_macd := last_or macds 0;
        rsi7_list := rsis;
        current_rsi7 := last_or rsis 50;
        ema20_4h := fst lh;
        ema50_4h := snd lh;
        atr14 := atr;
        vol_pct := pct;
        vol_regime := classify_regime pct |}.

(** ** [main]: the report (lines 175-204)

    The f-string is kept as what it is, a sequence of literal parts and
    formatted values, line by line; [render_report] below turns it into
    text. *)

Inductive piece : Type :=
| Lit (s : string)
| Fixed (n : nat) (x : Q)
| Plain (v : value).

Definition line : Type := list piece.
Definition report : Type := list line.

Definition dquote : string := String "034"%char EmptyString.

Definition floats (l : list Q) : value := VList (map VFloat l).

(** The four values of the template whose expressions can raise, in the
    order in which the f-string evaluates them (lines 195 and 201). *)
Record volume_fields : Type := {
  cur_vol : Q;
  avg_vol : Q;
  taker_now : Q;
  taker_share : Q
}.

Definition volume_fields_of (binance : binance_bag) : result volume_fields :=
  v_last <- py_last (volumes binance) ;;
  v_avg <- py_div (py_sum (volumes binance))
                  (inject_Z (Z.of_nat (length (volumes binance)))) ;;
  t_last <- py_last (taker_buy_volumes binance) ;;
  t_num <- py_last (taker_buy_volumes binance) ;;
  v_den <- py_last (volumes binance) ;;
  ratio <- py_div t_num v_den ;;
  Ok {| cur_vol := v_last;
        avg_vol := v_avg;
        taker_now := t_last;
        taker_share := ratio * 100 |}.

Definition template (timestamp : string) (binance : binance_bag)
        (bybit : bybit_bag) (long_liq short_liq : list value)
        (ind : indicators) (vf : volume_fields) : report :=
  [ [Lit "# BTC Data Feed - Updated: "; Plain (VStr timestamp)];
    [Lit "current_price = "; Plain (VFloat (current_price ind))];
    [Lit "current_ema20 = "; Fixed 3 (ema20 ind)];
    [Lit "current_macd = "; Fixed 3 (current_macd ind)];
    [Lit "current_rsi (7 period) = "; Fixed 3 (current_rsi7 ind)];
    [];
    [Lit "In addition, here is the latest BTC open interest and funding rate for perps (the instrument you are trading):"];
    [Lit "Open Interest: Latest: "; Fixed 2 (oi_latest bybit);
     Lit " Average: "; Fixed 2 (oi_latest bybit * (999 # 1000))];
    [Lit "Funding Rate: "; Fixed 8 (funding_rate bybit)];
    [];
    [Lit "Intraday series (by minute, oldest → latest):"];
    [Lit "Mid prices: "; Plain (floats (mid_prices binance))];
    [Lit "EMA indicators (20‑period): ";
     Plain (floats (map (fun x => py_round x 3) (ema20_list ind)))];
    [Lit "MACD indicators: "; Plain (floats (macd_list ind))];
    [Lit "RSI indicators (7‑Period): "; Plain (floats (rsi7_list ind))];
    [Lit "RSI indicators (14‑Period): "; Plain (floats (repeat 60 10))];
    [];
    [Lit "Longer‑term context (4‑hour timeframe):"];
    [Lit "20‑Period EMA: "; Fixed 3 (ema20_4h ind);
     Lit " vs. 50‑Period EMA: "; Fixed 3 (ema50_4h ind)];
    [Lit "3‑Period ATR: "; Fixed 3 (atr14 ind);
     Lit " vs. 14‑Period ATR: "; Fixed 3 (atr14 ind)];
    [Lit "Current Volume: "; Fixed 3 (cur_vol vf);
     Lit " vs. Average Volume: "; Fixed 3 (avg_vol vf)];
    [Lit "MACD indicators: "; Plain (floats (repeat 100 10))];
    [Lit "RSI indicators (14‑Period): "; Plain (floats (repeat 60 10))];
    [];
    [Lit "# HIGH-IMPACT ADDITIONS:"];
    [Lit "Order Book Imbalance (top 5 levels): bid_vol = ";
     Fixed 1 (bid_vol_top5 binance);
     Lit ", ask_vol = "; Fixed 1 (ask_vol_top5 binance);
     Lit " → imbalance = "; Fixed 3 (order_book_imbalance binance)];
    [Lit "1H Aggressive Buy Volume: "; Fixed 1 (taker_now vf);
     Lit " BTC ("; Fixed 1 (taker_share vf); Lit "% of total)"];
    [Lit "Major Liquidation Zones: Longs = "; Plain (VList long_liq);
     Lit ", Shorts = "; Plain (VList short_liq)];
    [Lit ("Volatility Regime: " ++ dquote);
     Plain (VStr (regime_label (vol_regime ind)));
     Lit (dquote ++ " (1H ATR = "); Fixed 1 (atr14 ind); Lit ")"];
    [] ].

Definition build_report (timestamp : string) (binance : binance_bag)
           (bybit : bybit_bag) (long_liq short_liq : list value)
           (ind : indicators) : result report :=
  vf <- volume_fields_of binance ;;
  Ok (template timestamp binance bybit long_liq short_liq ind vf).

(** ** [main]: the sink (lines 206-209) and the whole run *)

Record fs_state : Type := {
  public_dir : bool;
  btc_data_txt : option report
}.

(** [os.makedirs("public", exist_ok=True)] then [open(..., "w")] and
    [write]: the directory exists afterwards and the file holds exactly
    the new report.  The three calls are taken to succeed; a directory
    that cannot be created, a file that cannot be opened and a text the
    locale cannot encode are outside the model. *)
Definition write_report (fs : fs_state) (out : report) : fs_state :=
  {| public_dir := true; btc_data_txt := Some out |}.

(** [main] from line 135 on, given what the three adapters returned. *)
Definition run (binance : binance_bag) (bybit : bybit_bag)
           (liq : list value * list value) (resp_4h : http)
           (timestamp : string) (fs : fs_state) : fs_state * result unit :=
  match (ind <- compute_indicators binance resp_4h ;;
         build_report timestamp binance bybit (fst liq) (snd liq) ind) with
  | Ok out => (write_report fs out, Ok tt)
  | Raise e => (fs, Raise e)
  end.

(** [main()] *)
Definition main (w : world) (fs : fs_state) : fs_state * result unit :=
  run (get_binance_data w) (get_bybit_data w) (get_coinglass_liquidations w)
      (w_klines_4h w) (w_now w) fs.

End Pipeline.

(** ** Rendering *)

Definition digit_char (d : Z) : ascii := ascii_of_nat (48 + Z.to_nat d).

(** The [n] lowest decimal digits of [v], most significant first, in front
    of [acc]. *)
Fixpoint low_digits (n : nat) (v : Z) (acc : string) : string :=
  match n with
  | O => acc
  | S n' => low_digits n' (v / 10)%Z (String (digit_char (v mod 10)%Z) acc)
  end.

(** Decimal text of a non-negative integer. *)
Definition nat_text (v : Z) : string :=
  NilZero.string_of_uint (N.to_uint (Z.to_N v)).

(** Decimal text of an integer ([str] of an [int]). *)
Definition int_text (v : Z) : string :=
  if (v <? 0)%Z then ("-" ++ nat_text (- v))%string else nat_text v.

(** [format(x, ".nf")]: sign, integer part, and [n] decimals of [x] rounded
    to the nearest, ties to even; the sign of a negative [x] is kept even
    when it rounds to zero. *)
Definition format_fixed (n : nat) (x : Q) : string :=
  let scaled := round_half_even (Qabs x * inject_Z (pow10 n)) in
  ((if Qltb x 0 then "-" else "")
   ++ nat_text (scaled / pow10 n)
   ++ match n with
      | O => ""
      | _ => String "."%char (low_digits n (scaled mod pow10 n) "")
      end)%string.

(** The text after the first ['.'] of [s], if any. *)
Fixpoint after_point (s : string) : option string :=
  match s with
  | EmptyString => None
  | String c t => if Ascii.eqb c "."%char then Some t else after_point t
  end.

Definition is_digit (c : ascii) : bool :=
  (48 <=? nat_of_ascii c)%nat && (nat_of_ascii c <=? 57)%nat.

Fixpoint all_digits (s : string) : bool :=
  match s with
  | EmptyString => true
  | String c t => is_digit c && all_digits t
  end.

(** [s] ends in a decimal point followed by exactly [n] digits. *)
Definition has_decimals (n : nat) (s : string) : Prop :=
  exists d, after_point s = Some d /\ String.length d = n /\ all_digits d = true.

Fixpoint join (sep : string) (l : list string) : string :=
  match l with
  | [] => ""
  | [x] => x
  | x :: t => (x ++ sep ++ join sep t)%string
  end.

Section Render.

(** [repr] of a [float] (the shortest decimal that reads back as the same
    binary64 number) and of a [str] (quoted, with escapes): both belong to
    the interpreter and are taken as given. *)
Variable repr_float : Q -> string.
Variable repr_str : string -> string.

(** [repr(v)] *)
Fixpoint py_repr (v : value) : string :=
  match v with
  | VNone => "None"
  | VBool true => "True"
  | VBool false => "False"
  | VInt z => int_text z
  | VFloat q => repr_float q
  | VStr s => repr_str s
  | VList l => ("[" ++ join ", " (map py_repr l) ++ "]")%string
  | VDict d =>
      ("{" ++ join ", " (map (fun kv => (repr_str (fst kv) ++ ": "
                                          ++ py_repr (snd kv))%string) d)
           ++ "}")%string
  end.

(** [str(v)] *)
Definition py_str (v : value) : string :=
  match v with
  | VStr s => s
  | _ => py_repr v
  end.

Definition render_piece (p : piece) : string :=
  match p with
  | Lit s => s
  | Fixed n x => format_fixed n x
  | Plain v => py_str v
  end.

Definition render_line (l : line) : string :=
  String.concat "" (map render_piece l).

Definition newline : string := String "010"%char EmptyString.

(** The text written to [public/btc-data.txt]. *)
Definition render_report (r : report) : string :=
  join newline (map render_line r).

End Render.

(** ** Inputs of the scenarios *)

(** A reader of plain decimal literals (["60000.5"], ["-3"], ["0.25"]),
    the form in which the exchange sends its numbers: an instance of
    [float_of_str] to run the scenarios with. *)
Fixpoint digits_value (s : string) (acc : Z) : option Z :=
  match s with
  | EmptyString => Some acc
  | String c t =>
      if is_digit c
      then digits_value t (10 * acc + Z.of_nat (nat_of_ascii c - 48))%Z
      else None
  end.

Fixpoint split_point (s : string) : string * option string :=
  match s with
  | EmptyString => (EmptyString, None)
  | String c t =>
      if Ascii.eqb c "."%char then (EmptyString, Some t)
      else let (a, b) := split_point t in (String c a, b)
  end.

Definition unsigned_literal (s : string) : result Q :=
  let (whole, rest) := split_point s in
  let frac := match rest with Some f => f | None => EmptyString end in
  match String.length (whole ++ frac), digits_value (whole ++ frac) 0 with
  | S _, Some v => Ok (inject_Z v / inject_Z (pow10 (String.length frac)))
  | _, _ => Raise ValueError
  end.

Definition decimal_literal (s : string) : result Q :=
  match s with
  | String "-"%char t => v <- unsigned_literal t ;; Ok (- v)
  | _ => unsigned_literal s
  end.

(** The primary series of the end-to-end scenario. *)
Definition scenario_prices : list Q :=
  [100; 101; 102; 103; 104; 105; 106; 107; 108; 109].

Definition scenario_bag : binance_bag := {|
  mid_prices := scenario_prices;
  volumes := repeat 1 10;
  taker_buy_volumes := repeat (5 # 10) 10;
  order_book_imbalance := 0;
  bid_vol_top5 := 10;
  ask_vol_top5 := 10
|}.

Definition fs_empty : fs_state := {| public_dir := false; btc_data_txt := None |}.

(** The line of the report that carries the volatility regime (the last
    but one: the template ends with a line break). *)
Definition regime_line (r : report) : line := nth 28 r [].

(** The regime line of a report with ATR 0 and the regime "low". *)
Definition low_regime_text : string :=
  ("Volatility Regime: " ++ dquote ++ "low" ++ dquote ++ " (1H ATR = 0.0)")%string.

(** A one-minute candle as the exchange sends it: twelve fields, the close
    at index 4, the volume at index 5, the taker-buy volume at index 9. *)
Definition kline (close volume taker : string) : value :=
  VList [VInt 1700000000000; VStr "0"; VStr "0"; VStr "0"; VStr close;
         VStr volume; VInt 1700000059999; VStr "0"; VInt 0; VStr taker;
         VStr "0"; VStr "0"].

(** An order book with one level on each side. *)
Definition book (bid ask : string) : value :=
  VDict [("lastUpdateId"%string, VInt 1);
         ("bids"%string, VList [VList [VStr "60000.0"; VStr bid]]);
         ("asks"%string, VList [VList [VStr "60001.0"; VStr ask]])].

Definition answer (status : Z) (body : value) : http :=
  Ok {| status_code := status; json := Ok body |}.

(** A world in which only exchange A answers, with the given status code
    for the candles. *)
Definition exchange_a_world (status : Z) (klines depth : value) : world := {|
  w_klines_1m := answer status klines;
  w_depth := answer 200 depth;
  w_open_interest := Raise ConnectionError;
  w_funding := Raise ConnectionError;
  w_api_key := None;
  w_liquidation := Raise ConnectionError;
  w_klines_4h := Raise ConnectionError;
  w_now := "2026-01-01 00:00:00 UTC"
|}.

(** The last minute saw no trade: its candle has volume 0. *)
Definition quiet_minute_world : world :=
  exchange_a_world 200
    (VList [kline "60000.0" "2.5" "1.0"; kline "60000.0" "0" "0"])
    (book "1.5" "0.5").

(** The two constant lines of the template. *)
Definition rsi14_line : line :=
  [Lit "RSI indicators (14‑Period): "; Plain (floats (repeat 60 10))].

Definition macd_long_line : line :=
  [Lit "MACD indicators: "; Plain (floats (repeat 100 10))].

(** How a value of the template is formatted: with a fixed number of
    decimals ([{x:.nf}]) or by Python's default ([{x}]). *)
Inductive fmt : Set :=
| Decimals (n : nat)
| Unformatted.

(** The formatted values of a line, each with the literal text in front of
    it. *)
Fixpoint labelled (label : string) (l : line) : list (string * fmt) :=
  match l with
  | [] => []
  | Lit s :: t => labelled s t
  | Fixed n _ :: t => (label, Decimals n) :: labelled label t
  | Plain _ :: t => (label, Unformatted) :: labelled label t
  end.

Definition precisions (r : report) : list (string * fmt) :=
  flat_map (labelled "") r.

(** The precision of every value of the template, in the order of the
    report. *)
Definition report_precisions : list (string * fmt) :=
  [ ("# BTC Data Feed - Updated: ", Unformatted);
    ("current_price = ", Unformatted);
    ("current_ema20 = ", Decimals 3);
    ("current_macd = ", Decimals 3);
    ("current_rsi (7 period) = ", Decimals 3);
    ("Open Interest: Latest: ", Decimals 2);
    (" Average: ", Decimals 2);
    ("Funding Rate: ", Decimals 8);
    ("Mid prices: ", Unformatted);
    ("EMA indicators (20‑period): ", Unformatted);
    ("MACD indicators: ", Unformatted);
    ("RSI indicators (7‑Period): ", Unformatted);
    ("RSI indicators (14‑Period): ", Unformatted);
    ("20‑Period EMA: ", Decimals 3);
    (" vs. 50‑Period EMA: ", Decimals 3);
    ("3‑Period ATR: ", Decimals 3);
    (" vs. 14‑Period ATR: ", Decimals 3);
    ("Current Volume: ", Decimals 3);
    (" vs. Average Volume: ", Decimals 3);
    ("MACD indicators: ", Unformatted);
    ("RSI indicators (14‑Period): ", Unformatted);
    ("Order Book Imbalance (top 5 levels): bid_vol = ", Decimals 1);
    (", ask_vol = ", Decimals 1);
    (" → imbalance = ", Decimals 3);
    ("1H Aggressive Buy Volume: ", Decimals 1);
    (" BTC (", Decimals 1);
    ("Major Liquidation Zones: Longs = ", Unformatted);
    (", Shorts = ", Unformatted);
    ("Volatility Regime: " ++ dquote, Unformatted);
    (dquote ++ " (1H ATR = ", Decimals 1) ]%string.

(** The candle endpoint answers 300 (a status that is neither a success
    nor an HTTP error) with a well-formed body. *)
Definition status_300_world : world :=
  exchange_a_world 300 (VList [kline "61000.5" "2.5" "1.0"]) (book "1.5" "0.5").

(** The candle endpoint answers 503. *)
Definition status_503_world : world :=
  exchange_a_world 503 (VList [kline "61000.5" "2.5" "1.0"]) (book "1.5" "0.5").

(** The liquidation endpoint reports a single long liquidation and no
    short one. *)
Definition single_liquidation_world : world := {|
  w_klines_1m := Raise ConnectionError;
  w_depth := Raise ConnectionError;
  w_open_interest := Raise ConnectionError;
  w_funding := Raise ConnectionError;
  w_api_key := Some "secret"%string;
  w_liquidation :=
    answer 200
      (VDict [("data"%string,
               VDict [("longLiquidationList"%string,
                       VList [VDict [("price"%string, VInt 61000)]]);
                      ("shortLiquidationList"%string, VList [])])]);
  w_klines_4h := Raise ConnectionError;
  w_now := "2026-01-01 00:00:00 UTC"
|}.

(** ** Shapes of series *)

(** Every price lies between [lo] and [hi]. *)
Definition within (lo hi : Q) (l : list Q) : Prop :=
  Forall (fun x => lo <= x <= hi) l.

(** No price is lower than the one before it. *)
Fixpoint nondecreasing (l : list Q) : Prop :=
  match l with
  | a :: (b :: _) as t => a <= b /\ nondecreasing t
  | _ => True
  end.

(** No price is higher than the one before it. *)
Fixpoint nonincreasing (l : list Q) : Prop :=
  match l with
  | a :: (b :: _) as t => b <= a /\ nonincreasing t
  | _ => True
  end.

(** The smoothing factor of [calculate_ema]. *)
Definition ema_multiplier (period : Z) : Q := 2 / (inject_Z period + 1).

(** One step of the loop of [calculate_ema] on the last value alone, and
    the last value after a run of steps. *)
Definition ema_step (m prev price : Q) : Q := price * m + prev * (1 - m).

Definition ema_run (m prev : Q) (l : list Q) : Q := fold_left (ema_step m) l prev.

(** The [gains] and [losses] of [calculate_rsi] (lines 123-124). *)
Definition rsi_gains (prices : list Q) (period : nat) : list Q :=
  map (fun d => if Qltb 0 d then d else 0)
      (py_tail_slice period (deltas_of prices)).

Definition rsi_losses (prices : list Q) (period : nat) : list Q :=
  map (fun d => if Qltb d 0 then - d else 0)
      (py_tail_slice period (deltas_of prices)).

(** Two outcomes of a request that differ at most in the status code (and,
    when the request raises, in the exception). *)
Definition same_body (a b : http) : Prop :=
  match a, b with
  | Ok r, Ok r' => json r = json r'
  | Raise _, Raise _ => True
  | _, _ => False
  end.

(** A world in which exchange B answers both requests with the given
    status code and well-formed bodies. *)
Definition exchange_b_world (status : Z) : world := {|
  w_klines_1m := Raise ConnectionError;
  w_depth := Raise ConnectionError;
  w_open_interest :=
    answer status
      (VDict [("result"%string,
               VDict [("open_interest"%string, VInt 29500)])]);
  w_funding :=
    answer status
      (VDict [("result"%string,
               VDict [("funding_rate"%string, VStr "0.0001")])]);
  w_api_key := None;
  w_liquidation := Raise ConnectionError;
  w_klines_4h := Raise ConnectionError;
  w_now := "2026-01-01 00:00:00 UTC"
|}.

(** A liquidation payload with the given two lists. *)
Definition liquidation_payload (longs shorts : value) : value :=
  VDict [("data"%string,
          VDict [("longLiquidationList"%string, longs);
                 ("shortLiquidationList"%string, shorts)])].

Definition priced (p : Z) : value := VDict [("price"%string, VInt p)].

(** A world in which only the liquidation source answers. *)
Definition liquidation_world (payload : value) : world := {|
  w_klines_1m := Raise ConnectionError;
  w_depth := Raise ConnectionError;
  w_open_interest := Raise ConnectionError;
  w_funding := Raise ConnectionError;
  w_api_key := Some "secret"%string;
  w_liquidation := answer 200 payload;
  w_klines_4h := Raise ConnectionError;
  w_now := "2026-01-01 00:00:00 UTC"
|}.

(** A world in which every request fails. *)
Definition outage_world : world := {|
  w_klines_1m := Raise ConnectionError;
  w_depth := Raise ConnectionError;
  w_open_interest := Raise ConnectionError;
  w_funding := Raise ConnectionError;
  w_api_key := Some "secret"%string;
  w_liquidation := Raise ConnectionError;
  w_klines_4h := Raise ConnectionError;
  w_now := "2026-01-01 00:00:00 UTC"
|}.

(** ** Rounding to decimals *)


(** ** Binary64 arithmetic

    The indicator code on the numbers the interpreter computes with: IEEE
    754 binary64, every operation rounded to nearest, ties to even.  An
    [int] of the source that meets a float is converted first, a division
    raises on a divisor equal to zero, and no other operation raises:
    overflow gives an infinity and an undefined result gives NaN. *)
Module Binary64.

Definition float : Type := spec_float.

Definition prec : Z := 53%Z.
Definition emax : Z := 1024%Z.

(** An [int] where a float is expected: the nearest binary64 number.  It
    is used on the constants of the source and on [period]. *)
Definition of_int (z : Z) : float := binary_normalize prec emax z 0%Z false.

(** The decimal literal [m / 10^k] of the source text, correctly rounded. *)
Definition literal (m : Z) (k : nat) : float :=
  SFdiv prec emax (of_int m) (of_int (pow10 k)).

Definition zero : float := of_int 0.
Definition is_nan (x : float) : bool :=
  match x with
  | S754_nan => true
  | _ => false
  end.

(** [x == 0]: true of both signed zeros, false of NaN. *)
Definition is_zero (x : float) : bool := SFeqb x zero.

Definition add : float -> float -> float := SFadd prec emax.
Definition sub : float -> float -> float := SFsub prec emax.
Definition mul : float -> float -> float := SFmul prec emax.

(** [x < y]; a comparison with NaN is false. *)
Definition lt : float -> float -> bool := SFltb.

(** [x / y] *)
Definition py_div (x y : float) : result float :=
  if is_zero y then Raise ZeroDivisionError else Ok (SFdiv prec emax x y).

(** [sum(l)]: starts from 0 and adds from the left.  (Interpreters from
    version 3.12 on also add up the rounding errors of these additions and
    correct the total by them; on the series evaluated in this file that
    correction is zero or is dropped as not finite.) *)
Definition py_sum (l : list float) : float := fold_left add l zero.

(** [max(x, y)] and [min(x, y)]: the first argument unless the second is
    strictly beyond it. *)
Definition py_max (x y : float) : float := if lt x y then y else x.
Definition py_min (x y : float) : float := if lt y x then y else x.

(** [[prices[i] - prices[i-1] for i in range(1, len(prices))]] *)
Definition deltas_of (prices : list float) : list float :=
  map (fun i => sub (nth i prices zero) (nth (i - 1) prices zero))
      (py_range 1 (length prices)).

(** The two comprehensions of lines 123 and 124. *)
Definition gains_of (deltas : list float) : list float :=
  map (fun d => if lt zero d then d else zero) deltas.

Definition losses_of (deltas : list float) : list float :=
  map (fun d => if lt d zero then SFopp d else zero) deltas.

(** [calculate_rsi(prices, period)] *)
Definition calculate_rsi (prices : list float) (period : nat) : result float :=
  if (length prices <? period + 1)%nat then Ok (of_int 50)
  else
    let deltas := deltas_of prices in
    let gains := gains_of (py_tail_slice period deltas) in
    let losses := losses_of (py_tail_slice period deltas) in
    avg_gain <- py_div (py_sum gains) (of_int (Z.of_nat period)) ;;
    avg_loss <- (if lt zero (py_sum losses)
                 then py_div (py_sum losses) (of_int (Z.of_nat period))
                 else Ok (of_int 1)) ;;
    rs <- py_div avg_gain avg_loss ;;
    q <- py_div (of_int 100) (add (of_int 1) rs) ;;
    Ok (sub (of_int 100) q).

(** [calculate_ema(prices, period)] *)
Definition calculate_ema (prices : list float) (period : Z)
  : result (list float) :=
  p0 <- py_first prices ;;
  multiplier <- py_div (of_int 2) (of_int (period + 1)) ;;
  Ok (fold_left
        (fun ema price =>
           ema ++ [add (mul price multiplier)
                       (mul (last ema zero) (sub (of_int 1) multiplier))])
        (tl prices) [p0]).

(** [calculate_macd(prices)] *)
Definition calculate_macd (prices : list float) : result float :=
  e12 <- calculate_ema prices 12 ;;
  ema12 <- py_last e12 ;;
  e26 <- calculate_ema prices 26 ;;
  ema26 <- py_last e26 ;;
  Ok (sub ema12 ema26).

Section Rolling.

(** [round(x, 3)] on a float: it returns a float for every argument, NaN
    and the infinities included. *)
Variable round3 : float -> float.

(** Lines 140-143 *)
Definition rolling_macd (prices : list float) : result (list float) :=
  mapM (fun i => macd_val <- calculate_macd (firstn i prices) ;;
                 Ok (round3 macd_val))
       (py_range 10 (length prices + 1)).

(** Lines 146-149 *)
Definition rolling_rsi7 (prices : list float) : result (list float) :=
  mapM (fun i => rsi_val <- calculate_rsi (firstn i prices) 7 ;;
                 Ok (round3 rsi_val))
       (py_range 8 (length prices + 1)).

End Rolling.

(** Lines 162-163 *)
Definition high_low_of (prices : list float) : list float :=
  map (fun i => sub (py_max (nth i prices zero) (nth (i - 1) prices zero))
                    (py_min (nth i prices zero) (nth (i - 1) prices zero)))
      (py_range 1 (length prices)).

Definition atr14_of (prices : list float) : result float :=
  let high_low := high_low_of prices in
  if (14 <=? length high_low)%nat
  then py_div (py_sum (py_tail_slice 14 high_low)) (of_int 14)
  else Ok zero.

(** Lines 166-171: the [if]/[elif]/[else] on [vol_pct], with the labels
    the source assigns. *)
Definition classify_regime (vol_pct : float) : string :=
  if lt (literal 5 3) vol_pct then "high"
  else if lt vol_pct (literal 2 3) then "low"
  else "normal".

(** Lines 165-171 *)
Definition vol_regime_of (atr14 current_price : float) : result string :=
  vol_pct <- py_div atr14 current_price ;;
  Ok (classify_regime vol_pct).

(** Lines 135 and 162-171, from the primary series to the label. *)
Definition regime_of_series (prices : list float) : result string :=
  current_price <- py_last prices ;;
  atr14 <- atr14_of prices ;;
  vol_regime_of atr14 current_price.

Section Imbalance.

(** [round(x, 4)] on a float. *)
Variable round4 : float -> float.

(** Lines 37 and 43: the value stored under ['order_book_imbalance'].
    Without a positive sum it is the [int] 0, which [round] leaves as it
    is. *)
Definition imbalance_of (bid_vol ask_vol : float) : result float :=
  if lt zero (add bid_vol ask_vol)
  then (imbalance <- py_div (sub bid_vol ask_vol) (add bid_vol ask_vol) ;;
        Ok (round4 imbalance))
  else Ok zero.

End Imbalance.



(** The smallest positive binary64 number, 5e-324, and its double. *)
Definition min_subnormal : float := S754_finite false 1 (-1074).
Definition two_min_subnormal : float := S754_finite false 2 (-1074).

(** The largest finite one, about 1.8e308. *)
Definition max_float : float := S754_finite false 9007199254740991 971.


(** Ten prices: nine times 1e-323, then 5e-324. *)
Definition underflow_feed : list float :=
  repeat two_min_subnormal 9 ++ [min_subnormal].


End Binary64.

(** * Properties *)

(** ** Numbers *)

Lemma Qltb_true (x y : Q) : Qltb x y = true <-> x < y.
Proof.
  unfold Qltb. rewrite negb_true_iff, <- not_true_iff_false, Qle_bool_iff.
  split; intro H; [apply Qnot_le_lt | apply Qlt_not_le]; exact H.
Qed.

Lemma Qltb_false (x y : Q) : Qltb x y = false <-> y <= x.
Proof.
  unfold Qltb. rewrite negb_false_iff. apply Qle_bool_iff.
Qed.

Lemma bind_Ok {A B : Type} (a : A) (k : A -> result B) : bind (Ok a) k = k a.
Proof. reflexivity. Qed.

Lemma py_div_ok (x y : Q) : ~ y == 0 -> py_div x y = Ok (x / y).
Proof.
  intro H. unfold py_div.
  destruct (Qeq_bool y 0) eqn:E; [| reflexivity].
  apply Qeq_bool_iff in E. contradiction.
Qed.

Lemma py_div_zero (x y : Q) : y == 0 -> py_div x y = Raise ZeroDivisionError.
Proof.
  intro H. unfold py_div. apply Qeq_bool_iff in H. now rewrite H.
Qed.

Lemma fold_plus_shift (l : list Q) (a : Q) :
  fold_left Qplus l a == a + fold_left Qplus l 0.
Proof.
  revert a. induction l as [| x l IH]; intro a; simpl.
  - lra.
  - rewrite (IH (a + x)), (IH (0 + x)). lra.
Qed.

Lemma py_sum_cons (x : Q) (l : list Q) : py_sum (x :: l) == x + py_sum l.
Proof.
  unfold py_sum. simpl. rewrite fold_plus_shift. lra.
Qed.

Lemma py_sum_nonneg (l : list Q) :
  Forall (fun x => 0 <= x) l -> 0 <= py_sum l.
Proof.
  induction 1 as [| x l Hx _ IH].
  - unfold py_sum. simpl. lra.
  - rewrite py_sum_cons. lra.
Qed.

(** ** Volatility regime *)

Lemma classify_regime_high (r : Q) : classify_regime r = High <-> (5 # 1000) < r.
Proof.
  unfold classify_regime.
  destruct (Qltb (5 # 1000) r) eqn:E1.
  - apply Qltb_true in E1. tauto.
  - apply Qltb_false in E1.
    destruct (Qltb r (2 # 1000)); split; intro H; try discriminate; lra.
Qed.

Lemma classify_regime_low (r : Q) : classify_regime r = Low <-> r < (2 # 1000).
Proof.
  unfold classify_regime.
  destruct (Qltb (5 # 1000) r) eqn:E1.
  - apply Qltb_true in E1. split; intro H; [discriminate | lra].
  - destruct (Qltb r (2 # 1000)) eqn:E2.
    + apply Qltb_true in E2. tauto.
    + apply Qltb_false in E2. split; intro H; [discriminate | lra].
Qed.

Lemma classify_regime_normal (r : Q) :
  classify_regime r = Normal <-> (2 # 1000) <= r <= (5 # 1000).
Proof.
  unfold classify_regime.
  destruct (Qltb (5 # 1000) r) eqn:E1.
  - apply Qltb_true in E1. split; intro H; [discriminate | lra].
  - apply Qltb_false in E1.
    destruct (Qltb r (2 # 1000)) eqn:E2.
    + apply Qltb_true in E2. split; intro H; [discriminate | lra].
    + apply Qltb_false in E2. tauto.
Qed.

(** ** Relative strength index *)

Lemma gains_nonneg (l : list Q) :
  Forall (fun x => 0 <= x) (map (fun d => if Qltb 0 d then d else 0) l).
Proof.
  induction l as [| d l IH]; simpl; constructor; [| exact IH].
  destruct (Qltb 0 d) eqn:E; [apply Qltb_true in E |]; lra.
Qed.

Lemma rsi_tail_bounds (avg_gain avg_loss : Q) :
  0 <= avg_gain -> 0 < avg_loss ->
  exists r,
    (rs <- py_div avg_gain avg_loss ;;
     q <- py_div 100 (1 + rs) ;;
     Ok (100 - q)) = Ok r
    /\ 0 <= r <= 100.
Proof.
  intros Hg Hl.
  assert (Hrs : 0 <= avg_gain / avg_loss).
  { apply Qle_shift_div_l; [exact Hl | lra]. }
  rewrite py_div_ok by lra. rewrite bind_Ok.
  rewrite py_div_ok by lra. rewrite bind_Ok.
  eexists. split; [reflexivity |].
  assert (Hq0 : 0 <= 100 / (1 + avg_gain / avg_loss)).
  { apply Qle_shift_div_l; lra. }
  assert (Hq1 : 100 / (1 + avg_gain / avg_loss) <= 100).
  { apply Qle_shift_div_r; lra. }
  lra.
Qed.

Lemma calculate_rsi_short (prices : list Q) (period : nat) :
  (length prices < period + 1)%nat -> calculate_rsi prices period = Ok 50.
Proof.
  intro H. unfold calculate_rsi.
  apply Nat.ltb_lt in H. now rewrite H.
Qed.

Lemma calculate_rsi_bounds (prices : list Q) (period : nat) :
  (0 < period)%nat ->
  exists r, calculate_rsi prices period = Ok r /\ 0 <= r <= 100.
Proof.
  intro Hp. unfold calculate_rsi.
  destruct (length prices <? period + 1)%nat.
  - exists 50. split; [reflexivity | lra].
  - cbv zeta.
    set (tail := py_tail_slice period (deltas_of prices)).
    set (gains := map (fun d => if Qltb 0 d then d else 0) tail).
    set (losses := map (fun d => if Qltb d 0 then - d else 0) tail).
    assert (Hper : 0 < inject_Z (Z.of_nat period)).
    { change 0 with (inject_Z 0). rewrite <- Zlt_Qlt. lia. }
    assert (Hg : 0 <= py_sum gains) by (apply py_sum_nonneg, gains_nonneg).
    rewrite py_div_ok by lra. rewrite bind_Ok.
    assert (Havg : 0 <= py_sum gains / inject_Z (Z.of_nat period)).
    { apply Qle_shift_div_l; lra. }
    destruct (Qltb 0 (py_sum losses)) eqn:El.
    + apply Qltb_true in El.
      rewrite py_div_ok by lra. rewrite bind_Ok.
      apply rsi_tail_bounds; [exact Havg |].
      apply Qlt_shift_div_l; lra.
    + rewrite bind_Ok. apply rsi_tail_bounds; [exact Havg | lra].
Qed.


Lemma binary64_div_raises (x y : Binary64.float) (e : exn) :
  Binary64.py_div x y = Raise e -> e = ZeroDivisionError.
Proof.
  unfold Binary64.py_div.
  destruct (Binary64.is_zero y); intro H; [now injection H | discriminate].
Qed.

(** The only exception [calculate_rsi] can raise is the one of a division. *)
Lemma binary64_rsi_raises (prices : list Binary64.float) (period : nat) (e : exn) :
  Binary64.calculate_rsi prices period = Raise e -> e = ZeroDivisionError.
Proof.
  unfold Binary64.calculate_rsi, Binary64.py_div.
  destruct (length prices <? period + 1)%nat; [discriminate |].
  cbv zeta.
  repeat (match goal with
          | |- context [if ?c then _ else _] => destruct c
          end; cbn [bind]);
    intro H; try discriminate; now injection H.
Qed.




(** ** Comprehensions and rolling lists *)

Lemma mapM_ok {A B : Type} (f : A -> result B) (l : list A) :
  (forall x, In x l -> exists y, f x = Ok y) ->
  exists ys, mapM f l = Ok ys /\ length ys = length l.
Proof.
  induction l as [| x l IH]; intro H; simpl.
  - exists []. split; reflexivity.
  - destruct (H x (or_introl eq_refl)) as [y Hy].
    destruct IH as [ys [Hys Hlen]].
    { intros z Hz. apply H. right. exact Hz. }
    rewrite Hy, bind_Ok, Hys, bind_Ok.
    exists (y :: ys). split; [reflexivity | simpl; now rewrite Hlen].
Qed.

Lemma mapM_length {A B : Type} (f : A -> result B) (l : list A) (ys : list B) :
  mapM f l = Ok ys -> length ys = length l.
Proof.
  revert ys. induction l as [| x l IH]; intros ys H; simpl in H.
  - injection H as <-. reflexivity.
  - destruct (f x) as [y |]; [| discriminate].
    rewrite bind_Ok in H.
    destruct (mapM f l) as [zs |]; [| discriminate].
    rewrite bind_Ok in H. injection H as <-.
    simpl. now rewrite (IH zs eq_refl).
Qed.

Lemma mapM_nth {A B : Type} (f : A -> result B) (l : list A) (ys : list B) :
  mapM f l = Ok ys ->
  forall k y, nth_error ys k = Some y ->
              exists x, nth_error l k = Some x /\ f x = Ok y.
Proof.
  revert ys. induction l as [| x l IH]; intros ys H k y Hk; simpl in H.
  - injection H as <-. destruct k; discriminate.
  - destruct (f x) as [y0 |] eqn:Ex; [| discriminate].
    rewrite bind_Ok in H.
    destruct (mapM f l) as [zs |]; [| discriminate].
    rewrite bind_Ok in H. injection H as <-.
    destruct k as [| k]; simpl in Hk.
    + injection Hk as <-. exists x. split; [reflexivity | exact Ex].
    + apply (IH zs eq_refl k y Hk).
Qed.

Lemma py_last_ok {A : Type} (l : list A) :
  l <> [] -> exists x, py_last l = Ok x.
Proof.
  intro H. unfold py_last.
  destruct (rev l) as [| x r] eqn:E.
  - apply (f_equal (@rev A)) in E. rewrite rev_involutive in E. contradiction.
  - exists x. reflexivity.
Qed.

Lemma ema_loop_length (m : Q) (l acc : list Q) :
  length (fold_left
            (fun ema price => ema ++ [price * m + last ema 0 * (1 - m)])
            l acc)
  = (length acc + length l)%nat.
Proof.
  revert acc. induction l as [| p l IH]; intro acc; simpl.
  - lia.
  - rewrite IH, length_app. simpl. lia.
Qed.

(** The EMA of a non-empty series is defined and as long as the series. *)
Lemma calculate_ema_ok (prices : list Q) (period : Z) :
  prices <> [] -> (period <> -1)%Z ->
  exists e, calculate_ema prices period = Ok e /\ length e = length prices.
Proof.
  intros Hne Hp. unfold calculate_ema.
  destruct prices as [| p0 rest]; [contradiction |].
  simpl py_first. rewrite bind_Ok.
  rewrite py_div_ok.
  - rewrite bind_Ok. eexists. split; [reflexivity |].
    rewrite ema_loop_length. reflexivity.
  - intro H. apply Hp.
    rewrite <- (inject_Z_injective period (-1)).
    change (inject_Z (-1)) with (-(1)). lra.
Qed.

Lemma calculate_ema_last_ok (prices : list Q) (period : Z) :
  prices <> [] -> (period <> -1)%Z ->
  exists e x, calculate_ema prices period = Ok e /\ py_last e = Ok x.
Proof.
  intros Hne Hp.
  destruct (calculate_ema_ok prices period Hne Hp) as [e [He Hlen]].
  destruct (py_last_ok e) as [x Hx].
  - intro E. rewrite E in Hlen. destruct prices; [contradiction | discriminate].
  - exists e, x. split; assumption.
Qed.

Lemma calculate_macd_ok (prices : list Q) :
  prices <> [] -> exists m, calculate_macd prices = Ok m.
Proof.
  intro Hne. unfold calculate_macd.
  destruct (calculate_ema_last_ok prices 12 Hne) as [e12 [x12 [H12 L12]]]; [lia |].
  destruct (calculate_ema_last_ok prices 26 Hne) as [e26 [x26 [H26 L26]]]; [lia |].
  rewrite H12, bind_Ok, L12, bind_Ok, H26, bind_Ok, L26, bind_Ok.
  eexists. reflexivity.
Qed.

Lemma firstn_nonempty {A : Type} (i : nat) (l : list A) :
  (0 < i)%nat -> l <> [] -> firstn i l <> [].
Proof.
  intros Hi Hl. destruct i; [lia |]. destruct l; [contradiction | discriminate].
Qed.

Lemma rolling_macd_ok (prices : list Q) :
  exists macds, rolling_macd prices = Ok macds
                /\ length macds = (length prices + 1 - 10)%nat.
Proof.
  unfold rolling_macd.
  destruct (mapM_ok
              (fun i => macd_val <- calculate_macd (firstn i prices) ;;
                        Ok (py_round macd_val 3))
              (py_range 10 (length prices + 1))) as [ys [Hys Hlen]].
  - intros i Hi. unfold py_range in Hi. apply in_seq in Hi.
    destruct (calculate_macd_ok (firstn i prices)) as [m Hm].
    + apply firstn_nonempty; [lia |].
      intro E. rewrite E in Hi. simpl in Hi. lia.
    + rewrite Hm, bind_Ok. eexists. reflexivity.
  - exists ys. split; [exact Hys |].
    rewrite Hlen. unfold py_range. apply length_seq.
Qed.

Lemma rolling_rsi7_ok (prices : list Q) :
  exists rsis, rolling_rsi7 prices = Ok rsis
               /\ length rsis = (length prices + 1 - 8)%nat.
Proof.
  unfold rolling_rsi7.
  destruct (mapM_ok
              (fun i => rsi_val <- calculate_rsi (firstn i prices) 7 ;;
                        Ok (py_round rsi_val 3))
              (py_range 8 (length prices + 1))) as [ys [Hys Hlen]].
  - intros i _.
    destruct (calculate_rsi_bounds (firstn i prices) 7) as [r [Hr _]]; [lia |].
    rewrite Hr, bind_Ok. eexists. reflexivity.
  - exists ys. split; [exact Hys |].
    rewrite Hlen. unfold py_range. apply length_seq.
Qed.

Lemma nth_error_py_range (a b k i : nat) :
  nth_error (py_range a b) k = Some i -> i = (a + k)%nat.
Proof.
  unfold py_range. intro H.
  assert (Hk : (k < length (seq a (b - a)))%nat).
  { apply nth_error_Some. rewrite H. discriminate. }
  rewrite length_seq in Hk.
  rewrite (nth_error_nth' _ 0%nat) in H by (rewrite length_seq; exact Hk).
  rewrite seq_nth in H by exact Hk. now injection H as <-.
Qed.

(** The same on binary64 numbers: the multiplier is a quotient of two
    constants, so the EMA of a non-empty series never raises. *)
Lemma binary64_ema_loop_length (m : Binary64.float) (l acc : list Binary64.float) :
  length (fold_left
            (fun ema price =>
               ema ++ [Binary64.add (Binary64.mul price m)
                         (Binary64.mul (last ema Binary64.zero)
                            (Binary64.sub (Binary64.of_int 1) m))])
            l acc)
  = (length acc + length l)%nat.
Proof.
  revert acc. induction l as [| p l IH]; intro acc; simpl.
  - lia.
  - rewrite IH, length_app. simpl. lia.
Qed.

Lemma binary64_ema_last_ok (prices : list Binary64.float) (period : Z) :
  prices <> [] ->
  Binary64.is_zero (Binary64.of_int (period + 1)) = false ->
  exists e x, Binary64.calculate_ema prices period = Ok e /\ py_last e = Ok x.
Proof.
  intros Hne Hp. unfold Binary64.calculate_ema, Binary64.py_div.
  destruct prices as [| p0 rest]; [contradiction |].
  cbn [py_first]. rewrite bind_Ok, Hp, bind_Ok.
  eexists.
  match goal with
  | |- exists x, Ok ?l = Ok _ /\ _ => destruct (py_last_ok l) as [x Hx]
  end.
  - intro E. apply (f_equal (@length Binary64.float)) in E.
    rewrite binary64_ema_loop_length in E. simpl in E. lia.
  - exists x. split; [reflexivity | exact Hx].
Qed.

Lemma binary64_macd_ok (prices : list Binary64.float) :
  prices <> [] -> exists m, Binary64.calculate_macd prices = Ok m.
Proof.
  intro Hne. unfold Binary64.calculate_macd.
  destruct (binary64_ema_last_ok prices 12 Hne) as [e12 [x12 [H12 L12]]];
    [reflexivity |].
  destruct (binary64_ema_last_ok prices 26 Hne) as [e26 [x26 [H26 L26]]];
    [reflexivity |].
  rewrite H12, bind_Ok, L12, bind_Ok, H26, bind_Ok, L26, bind_Ok.
  eexists. reflexivity.
Qed.

Lemma binary64_rolling_macd_ok (round3 : Binary64.float -> Binary64.float)
      (prices : list Binary64.float) :
  exists macds, Binary64.rolling_macd round3 prices = Ok macds
                /\ length macds = (length prices + 1 - 10)%nat.
Proof.
  unfold Binary64.rolling_macd.
  destruct (mapM_ok
              (fun i => macd_val <- Binary64.calculate_macd (firstn i prices) ;;
                        Ok (round3 macd_val))
              (py_range 10 (length prices + 1))) as [ys [Hys Hlen]].
  - intros i Hi. unfold py_range in Hi. apply in_seq in Hi.
    destruct (binary64_macd_ok (firstn i prices)) as [m Hm].
    + apply firstn_nonempty; [lia |].
      intro E. rewrite E in Hi. simpl in Hi. lia.
    + rewrite Hm, bind_Ok. eexists. reflexivity.
  - exists ys. split; [exact Hys |].
    rewrite Hlen. unfold py_range. apply length_seq.
Qed.

(** The RSI loop builds its list as soon as every call it makes returns. *)
Lemma binary64_rolling_rsi7_ok (round3 : Binary64.float -> Binary64.float)
      (prices : list Binary64.float) :
  (forall i, (8 <= i <= length prices)%nat ->
             exists v, Binary64.calculate_rsi (firstn i prices) 7 = Ok v) ->
  exists rsis, Binary64.rolling_rsi7 round3 prices = Ok rsis
               /\ length rsis = (length prices + 1 - 8)%nat.
Proof.
  intro Hall. unfold Binary64.rolling_rsi7.
  destruct (mapM_ok
              (fun i => rsi_val <- Binary64.calculate_rsi (firstn i prices) 7 ;;
                        Ok (round3 rsi_val))
              (py_range 8 (length prices + 1))) as [ys [Hys Hlen]].
  - intros i Hi. unfold py_range in Hi. apply in_seq in Hi.
    destruct (Hall i) as [v Hv]; [lia |].
    rewrite Hv, bind_Ok. eexists. reflexivity.
  - exists ys. split; [exact Hys |].
    rewrite Hlen. unfold py_range. apply length_seq.
Qed.

(** C7, as the code has it: for a primary series of at least 10 samples
    the rolling MACD list of [main] has [len - 9] entries, the k-th one
    recomputed from the prefix of length [10 + k]; the rolling RSI7 list is
    built whenever every call of [calculate_rsi] on a prefix returns, and
    it then has [len - 7] entries, the k-th one recomputed from the prefix
    of length [8 + k]; a 10-sample series gives 1 MACD value and 3 RSI
    values.  This holds on binary64 numbers, whatever [round] returns; in
    exact arithmetic every call returns and both lists are always built. *)
Theorem C7_rolling_lists_amended (round3 : Binary64.float -> Binary64.float) :
  (forall prices : list Binary64.float,
      (10 <= length prices)%nat ->
      (exists macds,
          Binary64.rolling_macd round3 prices = Ok macds
          /\ length macds = (length prices - 9)%nat
          /\ (forall k m, nth_error macds k = Some m ->
                exists v, Binary64.calculate_macd (firstn (10 + k) prices) = Ok v
                          /\ m = round3 v)
          /\ (length prices = 10%nat -> length macds = 1%nat))
      /\ ((forall i, (8 <= i <= length prices)%nat ->
                     exists v, Binary64.calculate_rsi (firstn i prices) 7 = Ok v) ->
          exists rsis, Binary64.rolling_rsi7 round3 prices = Ok rsis)
      /\ (forall rsis,
            Binary64.rolling_rsi7 round3 prices = Ok rsis ->
            length rsis = (length prices - 7)%nat
            /\ (forall k r, nth_error rsis k = Some r ->
                  exists v, Binary64.calculate_rsi (firstn (8 + k) prices) 7 = Ok v
                            /\ r = round3 v)
            /\ (length prices = 10%nat -> length rsis = 3%nat)))
  /\ (forall prices : list Q,
        (10 <= length prices)%nat ->
        exists macds rsis,
          rolling_macd prices = Ok macds
          /\ rolling_rsi7 prices = Ok rsis
          /\ length macds = (length prices - 9)%nat
          /\ length rsis = (length prices - 7)%nat
          /\ (forall k m, nth_error macds k = Some m ->
                exists v, calculate_macd (firstn (10 + k) prices) = Ok v
                          /\ m = py_round v 3)
          /\ (forall k r, nth_error rsis k = Some r ->
                exists v, calculate_rsi (firstn (8 + k) prices) 7 = Ok v
                          /\ r = py_round v 3)
          /\ (length prices = 10%nat
              -> length macds = 1%nat /\ length rsis = 3%nat)).
Proof.
  split.
  - intros prices Hlen. split; [| split].
    + destruct (binary64_rolling_macd_ok round3 prices) as [macds [Hm Lm]].
      exists macds. split; [exact Hm |]. split; [lia |]. split; [| lia].
      intros k m Hk.
      destruct (mapM_nth _ _ _ Hm k m Hk) as [i [Hi Hf]].
      apply nth_error_py_range in Hi. subst i.
      destruct (Binary64.calculate_macd (firstn (10 + k) prices)) as [v |];
        [| discriminate].
      rewrite bind_Ok in Hf. injection Hf as <-. exists v. split; reflexivity.
    + intro Hall.
      destruct (binary64_rolling_rsi7_ok round3 prices Hall) as [rsis [Hr _]].
      exists rsis. exact Hr.
    + intros rsis Hr.
      pose proof (mapM_length _ _ _ Hr) as Lr.
      unfold py_range in Lr. rewrite length_seq in Lr.
      split; [lia |]. split; [| lia].
      intros k r Hk.
      destruct (mapM_nth _ _ _ Hr k r Hk) as [i [Hi Hf]].
      apply nth_error_py_range in Hi. subst i.
      destruct (Binary64.calculate_rsi (firstn (8 + k) prices) 7) as [v |];
        [| discriminate].
      rewrite bind_Ok in Hf. injection Hf as <-. exists v. split; reflexivity.
  - intros prices Hlen.
    destruct (rolling_macd_ok prices) as [macds [Hm Lm]].
    destruct (rolling_rsi7_ok prices) as [rsis [Hr Lr]].
    exists macds, rsis.
    split; [exact Hm |]. split; [exact Hr |].
    split; [lia |]. split; [lia |].
    split; [| split].
    + intros k m Hk.
      destruct (mapM_nth _ _ _ Hm k m Hk) as [i [Hi Hf]].
      apply nth_error_py_range in Hi. subst i.
      destruct (calculate_macd (firstn (10 + k) prices)) as [v |]; [| discriminate].
      rewrite bind_Ok in Hf. injection Hf as <-. exists v. split; reflexivity.
    + intros k r Hk.
      destruct (mapM_nth _ _ _ Hr k r Hk) as [i [Hi Hf]].
      apply nth_error_py_range in Hi. subst i.
      destruct (calculate_rsi (firstn (8 + k) prices) 7) as [v |]; [| discriminate].
      rewrite bind_Ok in Hf. injection Hf as <-. exists v. split; reflexivity.
    + intro E. lia.
Qed.

Lemma C7_rolling_lists_amended_witness :
  (10 <= length (repeat (Binary64.of_int 60000) 10))%nat
  /\ (exists macds,
         Binary64.rolling_macd (fun x => x) (repeat (Binary64.of_int 60000) 10)
         = Ok macds
         /\ length macds = 1%nat)
  /\ (exists rsis,
         Binary64.rolling_rsi7 (fun x => x) (repeat (Binary64.of_int 60000) 10)
         = Ok rsis
         /\ length rsis = 3%nat)
  /\ (10 <= length (repeat 60000%Q 10))%nat
  /\ (exists macds rsis,
         rolling_macd (repeat 60000 10) = Ok macds
         /\ rolling_rsi7 (repeat 60000 10) = Ok rsis
         /\ length macds = 1%nat /\ length rsis = 3%nat).
Proof.
  assert (H10 : (10 <= length (repeat (Binary64.of_int 60000) 10))%nat)
    by (simpl; lia).
  assert (Q10 : (10 <= length (repeat 60000%Q 10))%nat) by (simpl; lia).
  destruct (proj1 (C7_rolling_lists_amended (fun x => x))
                  (repeat (Binary64.of_int 60000) 10) H10)
    as [[macds [Hm [_ [_ Lm]]]] [Hbuilt Hlen]].
  split; [exact H10 |].
  split; [exists macds; split; [exact Hm | apply Lm; reflexivity] |].
  split.
  { destruct Hbuilt as [rsis Hr].
    - intros i Hi. simpl in Hi.
      assert (Hc : i = 8%nat \/ i = 9%nat \/ i = 10%nat) by lia.
      destruct Hc as [-> | [-> | ->]]; eexists; vm_compute; reflexivity.
    - exists rsis. split; [exact Hr |].
      destruct (Hlen rsis Hr) as [_ [_ L3]]. apply L3. reflexivity. }
  split; [exact Q10 |].
  destruct (proj2 (C7_rolling_lists_amended (fun x => x)) (repeat 60000 10) Q10)
    as [macds' [rsis' [Hm' [Hr' [_ [_ [_ [_ L]]]]]]]].
  exists macds', rsis'. split; [exact Hm' |]. split; [exact Hr' |].
  apply L. reflexivity.
Defined.

(** C7 as stated fails on binary64 numbers.  On the ten prices 1e-323
    (nine times) and 5e-324 the loop of lines 147-149 reaches the prefix of
    length 10, whose one loss of 5e-324 has a seventh that rounds to 0.0:
    [calculate_rsi] raises, and no RSI list of 3 entries is built,
    whatever [round] returns. *)
Lemma C7_rsi_loop_raises_on_underflow :
  Forall (fun x => valid_binary Binary64.prec Binary64.emax x = true)
         Binary64.underflow_feed
  /\ length Binary64.underflow_feed = 10%nat
  /\ (forall round3,
        Binary64.rolling_rsi7 round3 Binary64.underflow_feed
        = Raise ZeroDivisionError)
  /\ (forall round3,
        ~ (exists rsis,
              Binary64.rolling_rsi7 round3 Binary64.underflow_feed = Ok rsis
              /\ length rsis = 3%nat)).
Proof.
  split; [repeat constructor |].
  split; [reflexivity |].
  assert (H : forall round3,
             Binary64.rolling_rsi7 round3 Binary64.underflow_feed
             = Raise ZeroDivisionError)
    by (intro round3; vm_compute; reflexivity).
  split; [exact H |].
  intros round3 [rsis [Hr _]]. rewrite H in Hr. discriminate.
Qed.

(** ** Rounding *)

Lemma round_half_even_floor (x : Q) :
  (Qfloor x <= round_half_even x <= Qfloor x + 1)%Z.
Proof.
  unfold round_half_even.
  destruct (Qcompare (x - inject_Z (Qfloor x)) (1 # 2)); [| lia | lia].
  destruct (Z.even (Qfloor x)); lia.
Qed.

Lemma round_half_even_le (x : Q) (n : Z) :
  x <= inject_Z n -> (round_half_even x <= n)%Z.
Proof.
  intro H.
  pose proof (Qfloor_le x) as Hf.
  assert (Hfn : (Qfloor x <= n)%Z) by (rewrite Zle_Qle; lra).
  unfold round_half_even.
  destruct (Qcompare (x - inject_Z (Qfloor x)) (1 # 2)) eqn:E.
  - apply Qeq_alt in E.
    assert (Hlt : (Qfloor x < n)%Z) by (rewrite Zlt_Qlt; lra).
    destruct (Z.even (Qfloor x)); lia.
  - exact Hfn.
  - apply Qgt_alt in E.
    assert (Hlt : (Qfloor x < n)%Z) by (rewrite Zlt_Qlt; lra).
    lia.
Qed.

Lemma round_half_even_ge (x : Q) (n : Z) :
  inject_Z n <= x -> (n <= round_half_even x)%Z.
Proof.
  intro H.
  pose proof (Qfloor_resp_le _ _ H) as Hf. rewrite Qfloor_Z in Hf.
  pose proof (round_half_even_floor x). lia.
Qed.

Lemma floor_near_zero (x : Q) :
  - (1 # 2) <= x <= 1 # 2 -> Qfloor x = (-1)%Z \/ Qfloor x = 0%Z.
Proof.
  intro H.
  pose proof (Qfloor_le x) as Hlo.
  pose proof (Qlt_floor x) as Hhi.
  assert (H1 : (Qfloor x < 1)%Z).
  { rewrite Zlt_Qlt. change (inject_Z 1) with 1. lra. }
  assert (H2 : (-1 < Qfloor x + 1)%Z).
  { rewrite Zlt_Qlt. change (inject_Z (-1)) with (- (1)). lra. }
  lia.
Qed.

Lemma round_half_even_zero (x : Q) :
  round_half_even x = 0%Z <-> - (1 # 2) <= x <= 1 # 2.
Proof.
  pose proof (Qfloor_le x) as Hlo.
  pose proof (Qlt_floor x) as Hhi.
  rewrite inject_Z_plus in Hhi. change (inject_Z 1) with 1 in Hhi.
  pose proof (floor_near_zero x) as Hnear.
  unfold round_half_even.
  destruct (Qcompare (x - inject_Z (Qfloor x)) (1 # 2)) eqn:E.
  - apply Qeq_alt in E.
    destruct (Z.even (Qfloor x)) eqn:Ev; split; intro H.
    + rewrite H in E. change (inject_Z 0) with 0 in E. lra.
    + destruct (Hnear H) as [Hc | Hc]; [rewrite Hc in Ev; discriminate | exact Hc].
    + assert (Hc : Qfloor x = (-1)%Z) by lia.
      rewrite Hc in E. change (inject_Z (-1)) with (- (1)) in E. lra.
    + destruct (Hnear H) as [Hc | Hc]; [lia | rewrite Hc in Ev; discriminate].
  - apply Qlt_alt in E. split; intro H.
    + rewrite H in E, Hlo. change (inject_Z 0) with 0 in E, Hlo. lra.
    + destruct (Hnear H) as [Hc | Hc]; [| exact Hc].
      rewrite Hc in E. change (inject_Z (-1)) with (- (1)) in E. lra.
  - apply Qgt_alt in E. split; intro H.
    + assert (Hc : Qfloor x = (-1)%Z) by lia.
      rewrite Hc in E, Hhi. change (inject_Z (-1)) with (- (1)) in E, Hhi. lra.
    + destruct (Hnear H) as [Hc | Hc]; [lia |].
      rewrite Hc in E. change (inject_Z 0) with 0 in E. lra.
Qed.

Lemma pow10_pos (n : nat) : 0 < inject_Z (pow10 n).
Proof.
  change 0 with (inject_Z 0). rewrite <- Zlt_Qlt.
  unfold pow10. apply Z.pow_pos_nonneg; lia.
Qed.

Lemma div_le_iff (d s c : Q) : 0 < s -> (d / s <= c <-> d <= c * s).
Proof.
  intro Hs. split; intro H.
  - assert (E : d == d / s * s) by (field; lra).
    rewrite E. apply Qmult_le_compat_r; lra.
  - apply Qle_shift_div_r; assumption.
Qed.

Lemma le_div_iff (d s c : Q) : 0 < s -> (c <= d / s <-> c * s <= d).
Proof.
  intro Hs. split; intro H.
  - assert (E : d == d / s * s) by (field; lra).
    rewrite E. apply Qmult_le_compat_r; lra.
  - apply Qle_shift_div_l; assumption.
Qed.

(** Rounding to [n] decimals never crosses an integer. *)
Lemma py_round_bounds (n : nat) (x : Q) (lo hi : Z) :
  inject_Z lo <= x <= inject_Z hi ->
  inject_Z lo <= py_round x n <= inject_Z hi.
Proof.
  intros [Hlo Hhi]. unfold py_round.
  pose proof (pow10_pos n) as Hp.
  set (P := inject_Z (pow10 n)) in *.
  assert (H1 : (lo * pow10 n <= round_half_even (x * P))%Z).
  { apply round_half_even_ge. rewrite inject_Z_mult. fold P.
    apply Qmult_le_compat_r; lra. }
  assert (H2 : (round_half_even (x * P) <= hi * pow10 n)%Z).
  { apply round_half_even_le. rewrite inject_Z_mult. fold P.
    apply Qmult_le_compat_r; lra. }
  rewrite Zle_Qle, inject_Z_mult in H1, H2. fold P in H1, H2.
  split.
  - apply le_div_iff; assumption.
  - apply div_le_iff; assumption.
Qed.

(** Rounding to [n] decimals gives zero exactly on the values within half
    a unit of the last place (both ends included: ties go to the even
    digit 0). *)
Lemma py_round_zero (n : nat) (x : Q) :
  py_round x n == 0 <-> - (1 # 2) <= x * inject_Z (pow10 n) <= 1 # 2.
Proof.
  rewrite <- round_half_even_zero. unfold py_round.
  pose proof (pow10_pos n) as Hp.
  set (P := inject_Z (pow10 n)) in *.
  set (r := round_half_even (x * P)).
  split; intro H.
  - assert (E : inject_Z r == inject_Z r / P * P) by (field; lra).
    rewrite H in E. apply inject_Z_injective. rewrite E.
    change (inject_Z 0) with 0. lra.
  - rewrite H. change (inject_Z 0) with 0. field. lra.
Qed.

(** ** Order-book imbalance *)








(** ** The indicators of [main] *)

Lemma py_tail_slice_nonempty {A : Type} (n : nat) (l : list A) :
  (0 < n)%nat -> l <> [] -> py_tail_slice n l <> [].
Proof.
  intros Hn Hl. unfold py_tail_slice. destruct n as [| n]; [lia |].
  intro E. apply (f_equal (@length A)) in E.
  rewrite length_skipn in E.
  destruct l; [contradiction |]. cbn [length] in E. lia.
Qed.

Lemma high_low_length (prices : list Q) :
  length (high_low_of prices) = (length prices - 1)%nat.
Proof.
  unfold high_low_of, py_range. now rewrite length_map, length_seq.
Qed.

Lemma atr14_of_ok (prices : list Q) : exists atr, atr14_of prices = Ok atr.
Proof.
  unfold atr14_of. cbv zeta.
  destruct (14 <=? length (high_low_of prices))%nat.
  - rewrite py_div_ok by lra. eexists. reflexivity.
  - exists 0. reflexivity.
Qed.

(** Fewer than 14 consecutive differences: the ATR is the constant 0. *)
Lemma atr14_of_short (prices : list Q) :
  (length prices <= 14)%nat -> atr14_of prices = Ok 0.
Proof.
  intro H. unfold atr14_of. cbv zeta. rewrite high_low_length.
  destruct (14 <=? length prices - 1)%nat eqn:E; [| reflexivity].
  apply Nat.leb_le in E. lia.
Qed.

Section Indicators.

Variable float_of_str : string -> result Q.

(** On a non-empty primary series every step of lines 135-163 succeeds;
    only the division by the current price is left. *)
Lemma compute_indicators_shape (b : binance_bag) (resp : http) :
  mid_prices b <> [] ->
  exists price e ema_now macds rsis atr,
    py_last (mid_prices b) = Ok price
    /\ calculate_ema (mid_prices b) 20 = Ok e
    /\ py_last (py_tail_slice 10 e) = Ok ema_now
    /\ rolling_macd (mid_prices b) = Ok macds
    /\ rolling_rsi7 (mid_prices b) = Ok rsis
    /\ atr14_of (mid_prices b) = Ok atr
    /\ compute_indicators float_of_str b resp
       = (pct <- py_div atr price ;;
          Ok {| current_price := price;
                ema20_list := py_tail_slice 10 e;
                ema20 := ema_now;
                macd_list := macds;
                current_macd := last_or macds 0;
                rsi7_list := rsis;
                current_rsi7 := last_or rsis 50;
                ema20_4h := fst (long_horizon float_of_str resp);
                ema50_4h := snd (long_horizon float_of_str resp);
                atr14 := atr;
                vol_pct := pct;
                vol_regime := classify_regime pct |}).
Proof.
  intro Hne.
  destruct (py_last_ok _ Hne) as [price Hprice].
  destruct (calculate_ema_ok (mid_prices b) 20 Hne) as [e [He Hlen]]; [lia |].
  destruct (py_last_ok (py_tail_slice 10 e)) as [ema_now Hnow].
  { apply py_tail_slice_nonempty; [lia |].
    intro E. rewrite E in Hlen. destruct (mid_prices b); [contradiction | discriminate]. }
  destruct (rolling_macd_ok (mid_prices b)) as [macds [Hm _]].
  destruct (rolling_rsi7_ok (mid_prices b)) as [rsis [Hr _]].
  destruct (atr14_of_ok (mid_prices b)) as [atr Hatr].
  exists price, e, ema_now, macds, rsis, atr.
  repeat (split; [assumption |]).
  unfold compute_indicators. cbv zeta.
  rewrite Hprice, bind_Ok, He, bind_Ok, Hnow, bind_Ok, Hm, bind_Ok, Hr, bind_Ok,
    Hatr, bind_Ok.
  reflexivity.
Qed.

(** The regime of the report is the classification of ATR / price. *)
Lemma compute_indicators_regime (b : binance_bag) (resp : http) (ind : indicators) :
  compute_indicators float_of_str b resp = Ok ind ->
  vol_pct ind = atr14 ind / current_price ind
  /\ vol_regime ind = classify_regime (vol_pct ind)
  /\ ~ current_price ind == 0
  /\ py_last (mid_prices b) = Ok (current_price ind)
  /\ atr14_of (mid_prices b) = Ok (atr14 ind)
  /\ rolling_rsi7 (mid_prices b) = Ok (rsi7_list ind)
  /\ current_rsi7 ind = last_or (rsi7_list ind) 50.
Proof.
  intro H.
  destruct (mid_prices b) as [| p0 rest] eqn:Eb.
  { unfold compute_indicators in H. rewrite Eb in H. discriminate. }
  destruct (compute_indicators_shape b resp) as
    [price [e [ema_now [macds [rsis [atr [H1 [H2 [H3 [H4 [H5 [H6 H7]]]]]]]]]]]].
  { rewrite Eb. discriminate. }
  rewrite Eb in *. rewrite H7 in H. unfold py_div in H.
  destruct (Qeq_bool price 0) eqn:Ez; [discriminate |].
  rewrite bind_Ok in H. injection H as <-. simpl.
  repeat split; try assumption.
  intro Hz. apply Qeq_bool_iff in Hz. congruence.
Qed.

End Indicators.

Lemma classify_regime_zero (r : Q) : r == 0 -> classify_regime r = Low.
Proof.
  intro H. apply classify_regime_low. lra.
Qed.

(** The labels are pairwise distinct, so a label names its branch. *)
Lemma regime_label_inj (r r' : regime) :
  regime_label r = regime_label r' -> r = r'.
Proof.
  destruct r, r'; intro H; try reflexivity; discriminate H.
Qed.

Lemma binary64_literals :
  Binary64.literal 2 3 = S754_finite false 4611686018427388 (-61)
  /\ Binary64.literal 5 3 = S754_finite false 5764607523034235 (-60).
Proof.
  split; vm_compute; reflexivity.
Qed.

(** On binary64 numbers too, nothing is both below 0.002 and above 0.005. *)
Lemma binary64_thresholds_apart (x : Binary64.float) :
  Binary64.lt x (Binary64.literal 2 3) = true ->
  Binary64.lt (Binary64.literal 5 3) x = false.
Proof.
  destruct binary64_literals as [-> ->].
  unfold Binary64.lt, SFltb, SFcompare.
  destruct x as [s | s | | s m e]; try reflexivity.
  - destruct s; [reflexivity | discriminate].
  - destruct s; [reflexivity |].
    destruct (Z.compare_spec e (-61)) as [-> | Hlt | Hgt].
    + reflexivity.
    + intros _.
      destruct (Z.compare_spec (-60) e) as [He | He | He]; try reflexivity; lia.
    + discriminate.
Qed.

Lemma binary64_classify (x : Binary64.float) :
  (Binary64.classify_regime x = "high"%string
   <-> Binary64.lt (Binary64.literal 5 3) x = true)
  /\ (Binary64.classify_regime x = "low"%string
      <-> Binary64.lt x (Binary64.literal 2 3) = true)
  /\ (Binary64.classify_regime x = "normal"%string
      <-> Binary64.lt (Binary64.literal 5 3) x = false
          /\ Binary64.lt x (Binary64.literal 2 3) = false).
Proof.
  pose proof (binary64_thresholds_apart x) as Hapart.
  unfold Binary64.classify_regime.
  destruct (Binary64.lt (Binary64.literal 5 3) x) eqn:E5;
    destruct (Binary64.lt x (Binary64.literal 2 3)) eqn:E2;
    try (specialize (Hapart eq_refl); discriminate Hapart);
    (split; [| split]); (split; intro H);
    try reflexivity; try discriminate H;
    try (destruct H; discriminate);
    split; reflexivity.
Qed.

(** The binary64 definitions on inputs whose results are exact: an EMA of
    period 3 (multiplier 0.5), the MACD of 0, 351 (54 - 26), and three
    series of 16 prices whose ATR / price is about 0.0099, 0.0030 and
    0.0010. *)
Lemma binary64_samples :
  Binary64.calculate_ema (map Binary64.of_int [2; 4; 8]%Z) 3
  = Ok [Binary64.of_int 2; Binary64.of_int 3; Binary64.literal 55 1]
  /\ Binary64.calculate_macd (map Binary64.of_int [0; 351]%Z)
     = Ok (Binary64.of_int 28)
  /\ Binary64.atr14_of
       (map Binary64.of_int
            [1000; 1003; 1000; 1003; 1000; 1003; 1000; 1003;
             1000; 1003; 1000; 1003; 1000; 1003; 1000; 1003]%Z)
     = Ok (Binary64.of_int 3)
  /\ Binary64.regime_of_series
       (map Binary64.of_int
            [100; 101; 100; 101; 100; 101; 100; 101;
             100; 101; 100; 101; 100; 101; 100; 101]%Z)
     = Ok "high"%string
  /\ Binary64.regime_of_series
       (map Binary64.of_int
            [1000; 1003; 1000; 1003; 1000; 1003; 1000; 1003;
             1000; 1003; 1000; 1003; 1000; 1003; 1000; 1003]%Z)
     = Ok "normal"%string
  /\ Binary64.regime_of_series
       (map Binary64.of_int
            [1000; 1001; 1000; 1001; 1000; 1001; 1000; 1001;
             1000; 1001; 1000; 1001; 1000; 1001; 1000; 1001]%Z)
     = Ok "low"%string
  /\ Binary64.regime_of_series [] = Raise IndexError.
Proof.
  repeat split; vm_compute; reflexivity.
Qed.

(** C2: the classification of the ratio ATR / currentPrice is a total
    function of the ratio; it answers "high" exactly for ratios above
    0.005, "low" exactly for ratios below 0.002 and "normal" for all the
    others, the two boundary ratios 0.002 and 0.005 included.  This holds
    of the exact ratio, and of every binary64 ratio compared with the
    binary64 literals 0.005 and 0.002 (NaN, which no comparison accepts, is
    among the others); and the regime of [main] is this classification of
    atr14 / current_price. *)
Theorem C2_regime_classification (float_of_str : string -> result Q) :
  (forall r : Q,
      (regime_label (classify_regime r) = "high"%string <-> (5 # 1000) < r)
      /\ (regime_label (classify_regime r) = "low"%string <-> r < (2 # 1000))
      /\ (regime_label (classify_regime r) = "normal"%string
          <-> ~ (5 # 1000) < r /\ ~ r < (2 # 1000)))
  /\ regime_label (classify_regime (2 # 1000)) = "normal"%string
  /\ regime_label (classify_regime (5 # 1000)) = "normal"%string
  /\ (forall x : Binary64.float,
        (Binary64.classify_regime x = "high"%string
         <-> Binary64.lt (Binary64.literal 5 3) x = true)
        /\ (Binary64.classify_regime x = "low"%string
            <-> Binary64.lt x (Binary64.literal 2 3) = true)
        /\ (Binary64.classify_regime x = "normal"%string
            <-> Binary64.lt (Binary64.literal 5 3) x = false
                /\ Binary64.lt x (Binary64.literal 2 3) = false))
  /\ Binary64.classify_regime (Binary64.literal 2 3) = "normal"%string
  /\ Binary64.classify_regime (Binary64.literal 5 3) = "normal"%string
  /\ (forall b resp ind,
        compute_indicators float_of_str b resp = Ok ind ->
        regime_label (vol_regime ind)
        = regime_label (classify_regime (atr14 ind / current_price ind))).
Proof.
  split.
  { intro r.
    change "high"%string with (regime_label High).
    change "low"%string with (regime_label Low).
    change "normal"%string with (regime_label Normal).
    split; [| split].
    - rewrite <- classify_regime_high.
      split; [apply regime_label_inj | intros ->; reflexivity].
    - rewrite <- classify_regime_low.
      split; [apply regime_label_inj | intros ->; reflexivity].
    - assert (Hn : classify_regime r = Normal
                   <-> ~ (5 # 1000) < r /\ ~ r < (2 # 1000)).
      { rewrite classify_regime_normal. split; intro H.
        - split; apply Qle_not_lt; tauto.
        - split; apply Qnot_lt_le; tauto. }
      rewrite <- Hn.
      split; [apply regime_label_inj | intros ->; reflexivity]. }
  do 2 (split; [reflexivity |]).
  split; [exact binary64_classify |].
  do 2 (split; [vm_compute; reflexivity |]).
  intros b resp ind Hc.
  destruct (compute_indicators_regime float_of_str b resp ind Hc)
    as [Hpct [Hreg _]].
  now rewrite Hreg, Hpct.
Qed.

(** ** The run of [main] *)

Section Run.

Variable float_of_str : string -> result Q.

Lemma run_ok (b : binance_bag) (bybit : bybit_bag) (liq : list value * list value)
      (resp : http) (ts : string) (fs : fs_state)
      (ind : indicators) (vf : volume_fields) :
  compute_indicators float_of_str b resp = Ok ind ->
  volume_fields_of b = Ok vf ->
  run float_of_str b bybit liq resp ts fs
  = (write_report fs (template ts b bybit (fst liq) (snd liq) ind vf), Ok tt).
Proof.
  intros Hc Hv. unfold run, build_report.
  now rewrite Hc, bind_Ok, Hv, bind_Ok.
Qed.

(** A written report comes from indicators and volume fields that were
    all computed. *)
Lemma run_written (b : binance_bag) (bybit : bybit_bag)
      (liq : list value * list value) (resp : http) (ts : string)
      (fs fs' : fs_state) :
  run float_of_str b bybit liq resp ts fs = (fs', Ok tt) ->
  exists ind vf,
    compute_indicators float_of_str b resp = Ok ind
    /\ volume_fields_of b = Ok vf
    /\ fs' = write_report fs (template ts b bybit (fst liq) (snd liq) ind vf).
Proof.
  unfold run, build_report. intro H.
  destruct (compute_indicators float_of_str b resp) as [ind |]; [| discriminate].
  rewrite bind_Ok in H.
  destruct (volume_fields_of b) as [vf |]; [| discriminate].
  rewrite bind_Ok in H. injection H as <-.
  exists ind, vf. repeat split.
Qed.

(** With fewer than 14 consecutive differences the ATR is 0, the ratio
    ATR / price is 0 and the regime is "low". *)
Lemma short_series_regime (b : binance_bag) (resp : http) (ind : indicators) :
  (length (mid_prices b) <= 14)%nat ->
  compute_indicators float_of_str b resp = Ok ind ->
  atr14 ind = 0 /\ vol_regime ind = Low.
Proof.
  intros Hlen Hc.
  destruct (compute_indicators_regime float_of_str b resp ind Hc)
    as [Hpct [Hreg [Hnz [_ [Hatr _]]]]].
  rewrite (atr14_of_short _ Hlen) in Hatr. injection Hatr as Hatr.
  split; [now symmetry |].
  rewrite Hreg, Hpct, <- Hatr. apply classify_regime_zero.
  unfold Qdiv. lra.
Qed.

Lemma short_series_indicators (b : binance_bag) (resp : http) (price : Q) :
  (length (mid_prices b) <= 14)%nat ->
  py_last (mid_prices b) = Ok price ->
  ~ price == 0 ->
  exists ind,
    compute_indicators float_of_str b resp = Ok ind
    /\ current_price ind = price
    /\ atr14 ind = 0
    /\ vol_regime ind = Low
    /\ rolling_rsi7 (mid_prices b) = Ok (rsi7_list ind)
    /\ current_rsi7 ind = last_or (rsi7_list ind) 50.
Proof.
  intros Hlen Hlast Hnz.
  destruct (compute_indicators_shape float_of_str b resp) as
    [price' [e [ema_now [macds [rsis [atr [H1 [H2 [H3 [H4 [H5 [H6 H7]]]]]]]]]]]].
  { intro E. rewrite E in Hlast. discriminate. }
  rewrite Hlast in H1. injection H1 as <-.
  rewrite py_div_ok, bind_Ok in H7 by exact Hnz.
  eexists. split; [exact H7 |].
  destruct (short_series_regime b resp _ Hlen H7) as [Ha Hr].
  simpl in Ha, Hr. simpl. repeat split; assumption.
Qed.

End Run.

Lemma C2_regime_classification_witness :
  (exists ind,
      compute_indicators decimal_literal scenario_bag (Raise ConnectionError) = Ok ind
      /\ regime_label (vol_regime ind)
         = regime_label (classify_regime (atr14 ind / current_price ind)))
  /\ (5 # 1000) < (6 # 1000)
  /\ regime_label (classify_regime (6 # 1000)) = "high"%string
  /\ Binary64.lt (Binary64.literal 5 3) (Binary64.literal 6 3) = true
  /\ Binary64.classify_regime (Binary64.literal 6 3) = "high"%string.
Proof.
  destruct (C2_regime_classification decimal_literal)
    as [HQ [_ [_ [HB [_ [_ H]]]]]].
  split.
  { destruct (short_series_indicators decimal_literal scenario_bag
                (Raise ConnectionError) 109)
      as [ind [Hc _]]; [simpl; lia | reflexivity | lra |].
    exists ind. split; [exact Hc |].
    exact (H scenario_bag (Raise ConnectionError) ind Hc). }
  assert (Hq : (5 # 1000) < (6 # 1000)) by lra.
  assert (Hb : Binary64.lt (Binary64.literal 5 3) (Binary64.literal 6 3) = true)
    by (vm_compute; reflexivity).
  split; [exact Hq |].
  split; [apply (proj1 (HQ (6 # 1000))); exact Hq |].
  split; [exact Hb |].
  apply (proj1 (HB (Binary64.literal 6 3))). exact Hb.
Defined.

(** ** The end-to-end scenarios *)

Lemma short_series_report (float_of_str : string -> result Q)
      (b : binance_bag) (price : Q) (vf : volume_fields)
      (bybit : bybit_bag) (liq : list value * list value) (resp : http)
      (ts : string) (fs : fs_state) :
  (length (mid_prices b) <= 14)%nat ->
  py_last (mid_prices b) = Ok price ->
  ~ price == 0 ->
  volume_fields_of b = Ok vf ->
  exists ind out,
    compute_indicators float_of_str b resp = Ok ind
    /\ current_price ind = price
    /\ atr14 ind = 0
    /\ vol_regime ind = Low
    /\ rolling_rsi7 (mid_prices b) = Ok (rsi7_list ind)
    /\ current_rsi7 ind = last_or (rsi7_list ind) 50
    /\ run float_of_str b bybit liq resp ts fs = (write_report fs out, Ok tt)
    /\ (forall repr_float repr_str,
          render_line repr_float repr_str (regime_line out) = low_regime_text).
Proof.
  intros Hlen Hlast Hnz Hvf.
  destruct (short_series_indicators float_of_str b resp price Hlen Hlast Hnz)
    as [ind [Hc [Hp [Ha [Hr [Hrsi Hcur]]]]]].
  exists ind, (template ts b bybit (fst liq) (snd liq) ind vf).
  repeat (split; [assumption |]).
  split; [apply run_ok; assumption |].
  intros rf rs. unfold regime_line, template. cbn [nth].
  rewrite Hr, Ha. reflexivity.
Qed.

Lemma fallback_run (float_of_str : string -> result Q) (bybit : bybit_bag)
      (liq : list value * list value) (resp : http) (ts : string)
      (fs : fs_state) :
  exists ind out,
    compute_indicators float_of_str binance_fallback resp = Ok ind
    /\ current_price ind == 60000
    /\ atr14 ind == 0
    /\ current_rsi7 ind == 0
    /\ vol_regime ind = Low
    /\ run float_of_str binance_fallback bybit liq resp ts fs
       = (write_report fs out, Ok tt)
    /\ (forall repr_float repr_str,
          render_line repr_float repr_str (regime_line out) = low_regime_text).
Proof.
  destruct (short_series_report float_of_str binance_fallback 60000
              {| cur_vol := 1; avg_vol := py_sum (repeat 1 10) / 10;
                 taker_now := 5 # 10; taker_share := (5 # 10) / 1 * 100 |}
              bybit liq resp ts fs)
    as [ind [out [Hc [Hp [Ha [Hr [Hrsi [Hcur [Hrun Hline]]]]]]]]];
    try reflexivity; [simpl; lia | lra |].
  exists ind, out.
  split; [exact Hc |]. split; [rewrite Hp; reflexivity |].
  split; [rewrite Ha; reflexivity |].
  split.
  { rewrite Hcur.
    assert (E : rolling_rsi7 (mid_prices binance_fallback)
                = Ok [py_round 0 3; py_round 0 3; py_round 0 3])
      by (vm_compute; reflexivity).
    rewrite E in Hrsi. injection Hrsi as <-. reflexivity. }
  split; [exact Hr |]. split; [exact Hrun | exact Hline].
Qed.

(** An empty list of candles makes the adapter fall back. *)
Lemma empty_klines_fallback (float_of_str : string -> result Q) (w : world)
      (r : response) :
  w_klines_1m w = Ok r -> json r = Ok (VList []) ->
  get_binance_data float_of_str w = binance_fallback.
Proof.
  intros Hr Hj. unfold get_binance_data, binance_body.
  rewrite Hr, bind_Ok.
  destruct (raise_for_status r) as [u |]; [| reflexivity].
  rewrite bind_Ok, Hj. reflexivity.
Qed.

Lemma binary64_atr14_short (prices : list Binary64.float) :
  (length prices <= 14)%nat -> Binary64.atr14_of prices = Ok Binary64.zero.
Proof.
  intro H. unfold Binary64.atr14_of, Binary64.high_low_of, py_range. cbv zeta.
  rewrite length_map, length_seq.
  destruct (14 <=? length prices - 1)%nat eqn:E; [| reflexivity].
  apply Nat.leb_le in E. lia.
Qed.

(** With an ATR of 0 the division of line 165 leaves three cases: a last
    price equal to zero raises, a NaN gives a NaN ratio that fails both
    comparisons, and every other last price gives a zero ratio, which is
    below 0.002. *)
Lemma binary64_short_series_regime (prices : list Binary64.float)
      (price : Binary64.float) :
  (length prices <= 14)%nat ->
  py_last prices = Ok price ->
  Binary64.regime_of_series prices
  = if Binary64.is_zero price then Raise ZeroDivisionError
    else if Binary64.is_nan price then Ok "normal"%string
         else Ok "low"%string.
Proof.
  intros Hlen Hlast. unfold Binary64.regime_of_series.
  rewrite Hlast, bind_Ok, (binary64_atr14_short prices Hlen), bind_Ok.
  unfold Binary64.vol_regime_of, Binary64.py_div.
  destruct price as [s | s | | s m e].
  - reflexivity.
  - destruct s; vm_compute; reflexivity.
  - vm_compute. reflexivity.
  - destruct s; vm_compute; reflexivity.
Qed.

(** C1, as the code has it: on the primary series 100, 101, ..., 109 the
    pipeline produces current_price = 109, ATR = 0 and RSI7 = 50, and the
    report is written with the regime "low" (the ratio 0 is below 0.002).
    Every series with fewer than 14 consecutive differences has ATR = 0;
    its regime is "low" whenever the indicators are computed, which in
    exact arithmetic is whenever the last price is not 0, and a last price
    of 0 raises at the division ATR / price; on binary64 numbers the three
    cases of that division are a zero price, which raises, a NaN price,
    which gives "normal", and every other price, which gives "low".  The
    constant fallback series gives current_price = 60000, ATR = 0,
    RSI7 = 0 and the regime "low", and that is the report of a run in
    which the candle endpoint answers an empty list.  The two RSI values
    are the same on binary64 numbers. *)
Theorem C1_scenario_amended (float_of_str : string -> result Q) :
  (forall bybit liq resp ts fs,
      exists ind out,
        compute_indicators float_of_str scenario_bag resp = Ok ind
        /\ current_price ind == 109
        /\ atr14 ind == 0
        /\ current_rsi7 ind == 50
        /\ vol_regime ind = Low
        /\ run float_of_str scenario_bag bybit liq resp ts fs
           = (write_report fs out, Ok tt)
        /\ (forall repr_float repr_str,
              render_line repr_float repr_str (regime_line out)
              = low_regime_text))
  /\ (forall b resp,
        (length (mid_prices b) <= 14)%nat ->
        atr14_of (mid_prices b) = Ok 0
        /\ (forall ind,
              compute_indicators float_of_str b resp = Ok ind ->
              atr14 ind = 0
              /\ vol_regime ind = Low
              /\ regime_label (vol_regime ind) = "low"%string)
        /\ (forall price,
              py_last (mid_prices b) = Ok price ->
              (price == 0 ->
               compute_indicators float_of_str b resp = Raise ZeroDivisionError)
              /\ (~ price == 0 ->
                  exists ind, compute_indicators float_of_str b resp = Ok ind)))
  /\ (forall (prices : list Binary64.float) (price : Binary64.float),
        (length prices <= 14)%nat ->
        py_last prices = Ok price ->
        Binary64.atr14_of prices = Ok Binary64.zero
        /\ Binary64.regime_of_series prices
           = if Binary64.is_zero price then Raise ZeroDivisionError
             else if Binary64.is_nan price then Ok "normal"%string
                  else Ok "low"%string)
  /\ (forall bybit liq resp ts fs,
        exists ind out,
          compute_indicators float_of_str binance_fallback resp = Ok ind
          /\ current_price ind == 60000
          /\ atr14 ind == 0
          /\ current_rsi7 ind == 0
          /\ vol_regime ind = Low
          /\ run float_of_str binance_fallback bybit liq resp ts fs
             = (write_report fs out, Ok tt)
          /\ (forall repr_float repr_str,
                render_line repr_float repr_str (regime_line out)
                = low_regime_text))
  /\ (forall w r fs,
        w_klines_1m w = Ok r -> json r = Ok (VList []) ->
        get_binance_data float_of_str w = binance_fallback
        /\ exists out,
            main float_of_str w fs = (write_report fs out, Ok tt)
            /\ (forall repr_float repr_str,
                  render_line repr_float repr_str (regime_line out)
                  = low_regime_text))
  /\ Binary64.calculate_rsi
       (map Binary64.of_int [100; 101; 102; 103; 104; 105; 106; 107; 108; 109]%Z) 7
     = Ok (Binary64.of_int 50)
  /\ Binary64.calculate_rsi (repeat (Binary64.of_int 60000) 10) 7
     = Ok Binary64.zero.
Proof.
  split; [| split; [| split; [| split; [| split; [| split]]]]].
  - intros bybit liq resp ts fs.
    destruct (short_series_report float_of_str scenario_bag 109
                {| cur_vol := 1; avg_vol := py_sum (repeat 1 10) / 10;
                   taker_now := 5 # 10; taker_share := (5 # 10) / 1 * 100 |}
                bybit liq resp ts fs)
      as [ind [out [Hc [Hp [Ha [Hr [Hrsi [Hcur [Hrun Hline]]]]]]]]];
      try reflexivity; [simpl; lia | lra |].
    exists ind, out.
    split; [exact Hc |]. split; [rewrite Hp; reflexivity |].
    split; [rewrite Ha; reflexivity |].
    split.
    { rewrite Hcur.
      assert (E : rolling_rsi7 (mid_prices scenario_bag)
                  = Ok [py_round 50 3; py_round 50 3; py_round 50 3])
        by (vm_compute; reflexivity).
      rewrite E in Hrsi. injection Hrsi as <-. reflexivity. }
    split; [exact Hr |]. split; [exact Hrun | exact Hline].
  - intros b resp Hlen.
    split; [apply atr14_of_short; exact Hlen |].
    split.
    + intros ind Hc.
      destruct (short_series_regime float_of_str b resp ind Hlen Hc) as [Ha Hr].
      split; [exact Ha |]. split; [exact Hr |]. now rewrite Hr.
    + intros price Hlast. split.
      * intro Hz.
        destruct (compute_indicators_shape float_of_str b resp) as
          [price' [e [ema_now [macds [rsis [atr [H1 [_ [_ [_ [_ [_ H]]]]]]]]]]]].
        { intro E. rewrite E in Hlast. discriminate. }
        rewrite Hlast in H1. injection H1 as <-.
        now rewrite H, (py_div_zero atr price Hz).
      * intro Hnz.
        destruct (short_series_indicators float_of_str b resp price Hlen Hlast Hnz)
          as [ind [Hc _]].
        exists ind. exact Hc.
  - intros prices price Hlen Hlast.
    split; [apply binary64_atr14_short; exact Hlen |].
    apply binary64_short_series_regime; assumption.
  - apply fallback_run.
  - intros w r fs Hr Hj.
    pose proof (empty_klines_fallback float_of_str w r Hr Hj) as Hb.
    split; [exact Hb |].
    unfold main. rewrite Hb.
    destruct (fallback_run float_of_str (get_bybit_data float_of_str w)
                (get_coinglass_liquidations w) (w_klines_4h w) (w_now w) fs)
      as [ind [out [_ [_ [_ [_ [_ [Hrun Hline]]]]]]]].
    exists out. split; assumption.
  - vm_compute. reflexivity.
  - vm_compute. reflexivity.
Qed.

Lemma C1_scenario_amended_witness :
  (length (mid_prices scenario_bag) <= 14)%nat
  /\ (exists ind,
         compute_indicators decimal_literal scenario_bag (Raise ConnectionError) = Ok ind
         /\ atr14 ind = 0
         /\ regime_label (vol_regime ind) = "low"%string)
  /\ (length [Binary64.of_int 100; Binary64.of_int 109] <= 14)%nat
  /\ py_last [Binary64.of_int 100; Binary64.of_int 109] = Ok (Binary64.of_int 109)
  /\ Binary64.regime_of_series [Binary64.of_int 100; Binary64.of_int 109]
     = Ok "low"%string.
Proof.
  destruct (C1_scenario_amended decimal_literal) as [H1 [H2 [H3 _]]].
  assert (Hlen : (length (mid_prices scenario_bag) <= 14)%nat) by (simpl; lia).
  split; [exact Hlen |].
  split.
  { destruct (H1 bybit_fallback liquidation_fallback (Raise ConnectionError)
                 EmptyString fs_empty) as [ind [out [Hc _]]].
    exists ind. split; [exact Hc |].
    destruct (H2 scenario_bag (Raise ConnectionError) Hlen) as [_ [Hreg _]].
    destruct (Hreg ind Hc) as [Ha [_ Hl]].
    split; assumption. }
  assert (Hlen' : (length [Binary64.of_int 100; Binary64.of_int 109] <= 14)%nat)
    by (simpl; lia).
  split; [exact Hlen' |].
  split; [reflexivity |].
  destruct (H3 [Binary64.of_int 100; Binary64.of_int 109] (Binary64.of_int 109)
               Hlen' eq_refl) as [_ Hreg].
  rewrite Hreg. reflexivity.
Defined.

(** C1 as stated fails: on the series 100, ..., 109 the price is 109 and
    the ATR is 0, but the regime computed and rendered is "low", not
    "normal". *)
Lemma C1_scenario_regime_is_low :
  exists ind,
    compute_indicators decimal_literal scenario_bag (Raise ConnectionError) = Ok ind
    /\ current_price ind == 109
    /\ atr14 ind == 0
    /\ regime_label (vol_regime ind) = "low"%string
    /\ regime_label (vol_regime ind) <> "normal"%string.
Proof.
  destruct (short_series_indicators decimal_literal scenario_bag
              (Raise ConnectionError) 109)
    as [ind [Hc [Hp [Ha [Hr _]]]]]; [simpl; lia | reflexivity | lra |].
  exists ind. split; [exact Hc |].
  split; [rewrite Hp; reflexivity |].
  split; [rewrite Ha; reflexivity |].
  rewrite Hr. split; [reflexivity | discriminate].
Qed.

(** ** The exchange-A adapter *)

(** One step of a successful body: the bound computation succeeded. *)
Tactic Notation "bind_ok" hyp(H) ident(x) ident(E) :=
  match type of H with
  | bind ?c _ = Ok _ =>
      destruct c as [x |] eqn:E; [rewrite bind_Ok in H | discriminate H]
  end.

Section Binance.

Variable float_of_str : string -> result Q.

Lemma column_length (i : nat) (rows : list value) (l : list Q) :
  column float_of_str i rows = Ok l -> length l = length rows.
Proof.
  apply mapM_length.
Qed.

Lemma binance_body_inv (klines_resp depth_resp : http) (bag : binance_bag) :
  binance_body float_of_str klines_resp depth_resp = Ok bag ->
  real_bag float_of_str klines_resp depth_resp bag.
Proof.
  unfold binance_body. intro H.
  bind_ok H response E1. bind_ok H u1 E2. destruct u1.
  bind_ok H klines E3. bind_ok H rows E4.
  bind_ok H closes E5. bind_ok H vols E6. bind_ok H taker E7.
  bind_ok H depth_response E8. bind_ok H u2 E9. destruct u2.
  bind_ok H depth E10. bind_ok H has_bids E11. bind_ok H has_asks E12.
  bind_ok H u3 E13. bind_ok H bids E14. bind_ok H bid_vol E15.
  bind_ok H asks E16. bind_ok H ask_vol E17. bind_ok H imbalance E18.
  injection H as <-.
  destruct has_bids; [| discriminate E13]. simpl in E13.
  destruct has_asks; [| discriminate E13].
  assert (Hk : klines = VList rows /\ rows <> []).
  { destruct klines as [| | | | | l |]; try discriminate E4.
    destruct l; [discriminate E4 |]. injection E4 as <-.
    split; [reflexivity | discriminate]. }
  destruct Hk as [-> Hrows].
  exists response, rows, depth_response, depth, bids, asks. simpl.
  repeat (split; [first [assumption | reflexivity] |]). assumption.
Qed.

(** All or nothing. *)
Lemma get_binance_data_cases (w : world) :
  (exists e, binance_body float_of_str (w_klines_1m w) (w_depth w) = Raise e
             /\ get_binance_data float_of_str w = binance_fallback)
  \/ (binance_body float_of_str (w_klines_1m w) (w_depth w)
      = Ok (get_binance_data float_of_str w)
      /\ real_bag float_of_str (w_klines_1m w) (w_depth w)
                  (get_binance_data float_of_str w)).
Proof.
  unfold get_binance_data.
  destruct (binance_body float_of_str (w_klines_1m w) (w_depth w)) as [bag | e] eqn:E.
  - right. split; [reflexivity |]. simpl. apply binance_body_inv. exact E.
  - left. exists e. split; reflexivity.
Qed.

(** Whatever the exchange answered, the three series the adapter returns
    are non-empty and of one length. *)
Lemma get_binance_data_series (w : world) :
  mid_prices (get_binance_data float_of_str w) <> []
  /\ length (volumes (get_binance_data float_of_str w))
     = length (mid_prices (get_binance_data float_of_str w))
  /\ length (taker_buy_volumes (get_binance_data float_of_str w))
     = length (mid_prices (get_binance_data float_of_str w)).
Proof.
  destruct (get_binance_data_cases w) as [[e [_ ->]] | [_ Hreal]].
  - split; [discriminate | split; reflexivity].
  - destruct Hreal as [response [rows [dr [depth [bids [asks
      [_ [_ [_ [Hrows [Hc [Hv [Ht _]]]]]]]]]]]]].
    apply column_length in Hc, Hv, Ht.
    split; [| split; congruence].
    intro E. rewrite E in Hc. destruct rows; [contradiction | discriminate].
Qed.

End Binance.

(** ** A zero-volume candle *)

Lemma length_pos_inject (n : nat) : (0 < n)%nat -> ~ inject_Z (Z.of_nat n) == 0.
Proof.
  intros Hn H.
  assert (E : Z.of_nat n = 0%Z) by (apply inject_Z_injective; exact H).
  lia.
Qed.

Lemma volume_fields_zero (b : binance_bag) (v : Q) :
  taker_buy_volumes b <> [] ->
  py_last (volumes b) = Ok v ->
  v == 0 ->
  volume_fields_of b = Raise ZeroDivisionError.
Proof.
  intros Ht Hv Hz. unfold volume_fields_of.
  destruct (py_last_ok _ Ht) as [t Hlast].
  rewrite Hv, bind_Ok, py_div_ok, bind_Ok.
  - rewrite Hlast, !bind_Ok. now rewrite (py_div_zero t v Hz).
  - apply length_pos_inject.
    destruct (volumes b); [discriminate Hv | simpl; lia].
Qed.

Section ZeroVolume.

Variable float_of_str : string -> result Q.

Lemma compute_indicators_outcome (b : binance_bag) (resp : http) :
  mid_prices b <> [] ->
  (exists ind, compute_indicators float_of_str b resp = Ok ind)
  \/ compute_indicators float_of_str b resp = Raise ZeroDivisionError.
Proof.
  intro Hne.
  destruct (compute_indicators_shape float_of_str b resp Hne) as
    [price [e [ema_now [macds [rsis [atr [_ [_ [_ [_ [_ [_ H]]]]]]]]]]]].
  rewrite H. unfold py_div.
  destruct (Qeq_bool price 0); [right; reflexivity | left].
  rewrite bind_Ok. eexists. reflexivity.
Qed.

Lemma compute_indicators_nonzero (b : binance_bag) (resp : http) (price : Q) :
  py_last (mid_prices b) = Ok price -> ~ price == 0 ->
  exists ind, compute_indicators float_of_str b resp = Ok ind.
Proof.
  intros Hlast Hnz.
  destruct (compute_indicators_shape float_of_str b resp) as
    [price' [e [ema_now [macds [rsis [atr [H1 [_ [_ [_ [_ [_ H]]]]]]]]]]]].
  { intro E. rewrite E in Hlast. discriminate. }
  rewrite Hlast in H1. injection H1 as <-.
  rewrite H, py_div_ok, bind_Ok by exact Hnz. eexists. reflexivity.
Qed.

End ZeroVolume.

(** C9: whenever the last volume the exchange-A adapter returned is 0,
    building the report raises [ZeroDivisionError] (the taker-buy share
    divides by that volume, unguarded), [main] ends with that exception and
    the file system is left as it was: no report is written.  The
    indicators before it are all computed as soon as the latest price is
    not 0, so the exception is then the one of the report. *)
Theorem C9_zero_volume_aborts_run (float_of_str : string -> result Q)
        (w : world) (fs : fs_state) (v : Q) :
  py_last (volumes (get_binance_data float_of_str w)) = Ok v ->
  v == 0 ->
  main float_of_str w fs = (fs, Raise ZeroDivisionError)
  /\ (forall ts bybit long_liq short_liq ind,
        build_report ts (get_binance_data float_of_str w) bybit
                     long_liq short_liq ind
        = Raise ZeroDivisionError)
  /\ (forall price,
        py_last (mid_prices (get_binance_data float_of_str w)) = Ok price ->
        ~ price == 0 ->
        exists ind,
          compute_indicators float_of_str (get_binance_data float_of_str w)
                             (w_klines_4h w) = Ok ind).
Proof.
  intros Hv Hz.
  destruct (get_binance_data_series float_of_str w) as [Hp [Hlv Hlt]].
  set (b := get_binance_data float_of_str w) in *.
  assert (Ht : taker_buy_volumes b <> []).
  { intro E. rewrite E in Hlt. destruct (mid_prices b); [contradiction | discriminate]. }
  pose proof (volume_fields_zero b v Ht Hv Hz) as Hvf.
  split; [| split].
  - unfold main, run. fold b. unfold build_report. rewrite Hvf.
    destruct (compute_indicators_outcome float_of_str b (w_klines_4h w) Hp)
      as [[ind ->] | ->]; reflexivity.
  - intros ts bybit ll sl ind. unfold build_report. now rewrite Hvf.
  - intros price Hlast Hnz.
    apply (compute_indicators_nonzero float_of_str b _ price Hlast Hnz).
Qed.

Lemma C9_zero_volume_aborts_run_witness :
  py_last (volumes (get_binance_data decimal_literal quiet_minute_world)) = Ok (0 / 1)
  /\ 0 / 1 == 0
  /\ main decimal_literal quiet_minute_world fs_empty
     = (fs_empty, Raise ZeroDivisionError).
Proof.
  split; [reflexivity |]. split; [reflexivity |].
  apply (C9_zero_volume_aborts_run decimal_literal quiet_minute_world
                                   fs_empty (0 / 1)); reflexivity.
Defined.

(** ** The text of a formatted number *)

Lemma after_point_digits (u : Decimal.uint) (rest : string) :
  after_point (NilEmpty.string_of_uint u ++ String "."%char rest) = Some rest.
Proof.
  induction u; simpl; try exact IHu. reflexivity.
Qed.

Lemma after_point_nat_text (v : Z) (rest : string) :
  after_point (nat_text v ++ String "."%char rest) = Some rest.
Proof.
  unfold nat_text, NilZero.string_of_uint.
  destruct (N.to_uint (Z.to_N v)) eqn:E;
    try (rewrite <- E; apply after_point_digits).
  reflexivity.
Qed.

Lemma is_digit_char (d : Z) : (0 <= d < 10)%Z -> is_digit (digit_char d) = true.
Proof.
  intro H. unfold is_digit, digit_char.
  rewrite nat_ascii_embedding by lia.
  apply andb_true_intro. split; apply Nat.leb_le; lia.
Qed.

Lemma low_digits_spec (n : nat) (v : Z) (acc : string) :
  String.length (low_digits n v acc) = (n + String.length acc)%nat
  /\ all_digits (low_digits n v acc) = all_digits acc.
Proof.
  revert v acc. induction n as [| n IH]; intros v acc; cbn [low_digits].
  - split; reflexivity.
  - destruct (IH (v / 10)%Z (String (digit_char (v mod 10)) acc)) as [Hl Hd].
    rewrite Hl, Hd. cbn [String.length all_digits]. split; [lia |].
    rewrite is_digit_char; [reflexivity |].
    apply Z.mod_pos_bound. lia.
Qed.

(** [format(x, ".nf")] with [n > 0] ends in a point and exactly [n]
    digits. *)
Lemma format_fixed_decimals (n : nat) (x : Q) :
  (0 < n)%nat -> has_decimals n (format_fixed n x).
Proof.
  intro Hn. unfold has_decimals, format_fixed.
  destruct n as [| n]; [lia |].
  set (scaled := round_half_even (Qabs x * inject_Z (pow10 (S n)))).
  exists (low_digits (S n) (scaled mod pow10 (S n)) "").
  destruct (low_digits_spec (S n) (scaled mod pow10 (S n)) "") as [Hl Hd].
  split; [| split].
  - destruct (Qltb x 0); simpl append.
    + cbn [after_point]. simpl Ascii.eqb. apply after_point_nat_text.
    + apply after_point_nat_text.
  - rewrite Hl. simpl. lia.
  - rewrite Hd. reflexivity.
Qed.

Lemma has_decimals_unique (n m : nat) (s : string) :
  has_decimals n s -> has_decimals m s -> n = m.
Proof.
  intros [d [Hd [Hl _]]] [d' [Hd' [Hl' _]]].
  rewrite Hd in Hd'. injection Hd' as <-. congruence.
Qed.

(** ** The lines of the report *)

(** C10: whenever a report is written, whatever the inputs, its two
    14-period RSI lines are the constant list of ten 60.0, its longer-term
    MACD line is the constant list of ten 100.0, and the fields labelled
    3-period ATR and 14-period ATR are both the same value [atr14], in the
    same format. *)
Theorem C10_constant_lines (float_of_str : string -> result Q)
        (b : binance_bag) (bybit : bybit_bag) (liq : list value * list value)
        (resp : http) (ts : string) (fs fs' : fs_state) :
  run float_of_str b bybit liq resp ts fs = (fs', Ok tt) ->
  exists out ind,
    btc_data_txt fs' = Some out
    /\ compute_indicators float_of_str b resp = Ok ind
    /\ nth 15 out [] = rsi14_line
    /\ nth 22 out [] = rsi14_line
    /\ nth 21 out [] = macd_long_line
    /\ nth 19 out [] = [Lit "3‑Period ATR: "; Fixed 3 (atr14 ind);
                        Lit " vs. 14‑Period ATR: "; Fixed 3 (atr14 ind)]
    /\ (forall repr_float repr_str,
          render_line repr_float repr_str (nth 15 out [])
          = ("RSI indicators (14‑Period): ["
               ++ join ", " (repeat (repr_float 60) 10) ++ "]")%string
          /\ render_line repr_float repr_str (nth 22 out [])
             = render_line repr_float repr_str (nth 15 out [])
          /\ render_line repr_float repr_str (nth 21 out [])
             = ("MACD indicators: ["
                  ++ join ", " (repeat (repr_float 100) 10) ++ "]")%string
          /\ render_line repr_float repr_str (nth 19 out [])
             = ("3‑Period ATR: " ++ format_fixed 3 (atr14 ind)
                  ++ " vs. 14‑Period ATR: " ++ format_fixed 3 (atr14 ind))%string).
Proof.
  intro H.
  destruct (run_written float_of_str b bybit liq resp ts fs fs' H)
    as [ind [vf [Hc [_ ->]]]].
  exists (template ts b bybit (fst liq) (snd liq) ind vf), ind.
  split; [reflexivity |]. split; [exact Hc |].
  do 4 (split; [reflexivity |]).
  intros rf rs. unfold template. cbn [nth].
  split; [reflexivity |]. split; [reflexivity |]. split; [reflexivity |].
  unfold render_line. cbn [map render_piece String.concat].
  reflexivity.
Qed.

Lemma C10_constant_lines_witness :
  exists fs' out,
    run decimal_literal scenario_bag bybit_fallback liquidation_fallback
        (Raise ConnectionError) EmptyString fs_empty = (fs', Ok tt)
    /\ btc_data_txt fs' = Some out
    /\ nth 15 out [] = rsi14_line
    /\ nth 21 out [] = macd_long_line.
Proof.
  destruct (short_series_report decimal_literal scenario_bag 109
              {| cur_vol := 1; avg_vol := py_sum (repeat 1 10) / 10;
                 taker_now := 5 # 10; taker_share := (5 # 10) / 1 * 100 |}
              bybit_fallback liquidation_fallback (Raise ConnectionError)
              EmptyString fs_empty)
    as [ind [out [_ [_ [_ [_ [_ [_ [Hrun _]]]]]]]]];
    try reflexivity; [simpl; lia | lra |].
  destruct (C10_constant_lines decimal_literal scenario_bag bybit_fallback
              liquidation_fallback (Raise ConnectionError) EmptyString
              fs_empty _ Hrun)
    as [out' [ind' [Hf [_ [H15 [_ [H21 _]]]]]]].
  exists (write_report fs_empty out), out'.
  repeat split; assumption.
Defined.

Lemma template_fixed_positive (ts : string) (b : binance_bag) (bybit : bybit_bag)
      (ll sl : list value) (ind : indicators) (vf : volume_fields)
      (l : line) (n : nat) (x : Q) :
  In l (template ts b bybit ll sl ind vf) -> In (Fixed n x) l -> (0 < n)%nat.
Proof.
  unfold template. intros Hl Hp. cbn [In] in Hl.
  repeat (destruct Hl as [<- | Hl];
          [cbn [In] in Hp;
           repeat (destruct Hp as [Hp | Hp];
                   [try discriminate Hp; injection Hp as <- _; lia |]);
           contradiction |]).
  contradiction.
Qed.

(** C3, as the code has it: each value of the report that carries a format
    specifier is rendered with a fixed number of decimals, namely 3 for
    current_ema20, current_macd, current_rsi, the two 4-hour EMAs, the two
    ATR fields, the current and the average volume and the order-book
    imbalance; 2 for the open interest and its average; 8 for the funding
    rate; 1 for the bid and ask volumes, the taker-buy volume, its share
    and the ATR of the regime line.  current_price, the intraday series,
    the constant lists, the liquidation levels and the regime label carry
    no format specifier. *)
Theorem C3_precisions_amended (float_of_str : string -> result Q)
        (b : binance_bag) (bybit : bybit_bag) (liq : list value * list value)
        (resp : http) (ts : string) (fs fs' : fs_state) :
  run float_of_str b bybit liq resp ts fs = (fs', Ok tt) ->
  exists out,
    btc_data_txt fs' = Some out
    /\ precisions out = report_precisions
    /\ (forall l n x,
          In l out -> In (Fixed n x) l ->
          forall repr_float repr_str,
            has_decimals n (render_piece repr_float repr_str (Fixed n x))).
Proof.
  intro H.
  destruct (run_written float_of_str b bybit liq resp ts fs fs' H)
    as [ind [vf [_ [_ ->]]]].
  exists (template ts b bybit (fst liq) (snd liq) ind vf).
  split; [reflexivity |]. split; [reflexivity |].
  intros l n x Hl Hp rf rs. cbn [render_piece].
  apply format_fixed_decimals.
  exact (template_fixed_positive _ _ _ _ _ _ _ l n x Hl Hp).
Qed.

Lemma scenario_run (bybit : bybit_bag) (liq : list value * list value) :
  exists ind vf,
    run decimal_literal scenario_bag bybit liq (Raise ConnectionError)
        EmptyString fs_empty
    = (write_report fs_empty
         (template EmptyString scenario_bag bybit (fst liq) (snd liq) ind vf),
       Ok tt).
Proof.
  destruct (short_series_indicators decimal_literal scenario_bag
              (Raise ConnectionError) 109)
    as [ind [Hc _]]; [simpl; lia | reflexivity | lra |].
  exists ind. eexists. apply run_ok; [exact Hc | reflexivity].
Qed.

Lemma C3_precisions_amended_witness :
  exists fs' out,
    run decimal_literal scenario_bag bybit_fallback liquidation_fallback
        (Raise ConnectionError) EmptyString fs_empty = (fs', Ok tt)
    /\ btc_data_txt fs' = Some out
    /\ precisions out = report_precisions.
Proof.
  destruct (scenario_run bybit_fallback liquidation_fallback) as [ind [vf Hrun]].
  destruct (C3_precisions_amended decimal_literal scenario_bag bybit_fallback
              liquidation_fallback (Raise ConnectionError) EmptyString
              fs_empty _ Hrun)
    as [out [Hf [Hp _]]].
  eexists. exists out. split; [exact Hrun |]. split; assumption.
Defined.

(** C3 as stated fails: in the report of the scenario the order-book
    imbalance is printed with 3 decimals, not 4, and the current volume
    with 3 decimals, not 1. *)
Lemma C3_imbalance_and_volume_have_three_decimals :
  exists out,
    run decimal_literal scenario_bag bybit_fallback liquidation_fallback
        (Raise ConnectionError) EmptyString fs_empty
    = (write_report fs_empty out, Ok tt)
    /\ nth 25 out []
       = [Lit "Order Book Imbalance (top 5 levels): bid_vol = "; Fixed 1 10;
          Lit ", ask_vol = "; Fixed 1 10;
          Lit " → imbalance = "; Fixed 3 0]
    /\ format_fixed 3 0 = "0.000"%string
    /\ ~ has_decimals 4 (format_fixed 3 0)
    /\ nth 20 out []
       = [Lit "Current Volume: "; Fixed 3 1;
          Lit " vs. Average Volume: "; Fixed 3 (py_sum (repeat 1 10) / 10)]
    /\ format_fixed 3 1 = "1.000"%string
    /\ ~ has_decimals 1 (format_fixed 3 1).
Proof.
  destruct (short_series_indicators decimal_literal scenario_bag
              (Raise ConnectionError) 109)
    as [ind [Hc _]]; [simpl; lia | reflexivity | lra |].
  exists (template EmptyString scenario_bag bybit_fallback
                   (fst liquidation_fallback) (snd liquidation_fallback) ind
                   {| cur_vol := 1; avg_vol := py_sum (repeat 1 10) / 10;
                      taker_now := 5 # 10;
                      taker_share := (5 # 10) / 1 * 100 |}).
  split; [apply run_ok; [exact Hc | reflexivity] |].
  split; [reflexivity |]. split; [reflexivity |].
  split.
  { intro Hd.
    assert (E : 4%nat = 3%nat);
      [apply (has_decimals_unique 4 3 _ Hd), format_fixed_decimals; lia
      | discriminate E]. }
  split; [reflexivity |]. split; [reflexivity |].
  intro Hd.
  assert (E : 1%nat = 3%nat);
    [apply (has_decimals_unique 1 3 _ Hd), format_fixed_decimals; lia
    | discriminate E].
Qed.

(** ** All or nothing in the exchange-A adapter *)

Lemma raise_for_status_error (r : response) :
  (400 <= status_code r < 600)%Z -> raise_for_status r <> Ok tt.
Proof.
  intro H. unfold raise_for_status.
  destruct (400 <=? status_code r)%Z eqn:E1; [| apply Z.leb_gt in E1; lia].
  destruct (status_code r <? 600)%Z eqn:E2; [| apply Z.ltb_ge in E2; lia].
  discriminate.
Qed.

(** C4, as the code has it: the adapter always returns a bag, which is
    either the complete fallback bag (ten prices 60000.0, ten volumes 1.0,
    ten taker-buy volumes 0.5, imbalance 0.0, bid and ask volume 10.0) or a
    bag whose six fields were all read from the two responses; it is the
    fallback bag whenever a step fails: a request that raises, a status
    from 400 to 599 (the ones [raise_for_status] rejects), a body that is
    not JSON, a klines body that is not a non-empty list, a depth body that
    lacks a book side, or any exception later in the body. *)
Theorem C4_all_or_nothing_amended (float_of_str : string -> result Q) (w : world) :
  (get_binance_data float_of_str w = binance_fallback
   \/ real_bag float_of_str (w_klines_1m w) (w_depth w)
               (get_binance_data float_of_str w))
  /\ (forall e,
        binance_body float_of_str (w_klines_1m w) (w_depth w) = Raise e ->
        get_binance_data float_of_str w = binance_fallback)
  /\ (forall e, w_klines_1m w = Raise e ->
                get_binance_data float_of_str w = binance_fallback)
  /\ (forall e, w_depth w = Raise e ->
                get_binance_data float_of_str w = binance_fallback)
  /\ (forall r, (w_klines_1m w = Ok r \/ w_depth w = Ok r) ->
                (400 <= status_code r < 600)%Z ->
                get_binance_data float_of_str w = binance_fallback)
  /\ (forall r e, (w_klines_1m w = Ok r \/ w_depth w = Ok r) ->
                  json r = Raise e ->
                  get_binance_data float_of_str w = binance_fallback)
  /\ (forall r v, w_klines_1m w = Ok r -> json r = Ok v ->
                  (forall rows, v = VList rows -> rows = []) ->
                  get_binance_data float_of_str w = binance_fallback)
  /\ (forall r d, w_depth w = Ok r -> json r = Ok d ->
                  (py_contains "bids" d <> Ok true
                   \/ py_contains "asks" d <> Ok true) ->
                  get_binance_data float_of_str w = binance_fallback)
  /\ binance_fallback
     = {| mid_prices := repeat 60000 10;
          volumes := repeat 1 10;
          taker_buy_volumes := repeat (5 # 10) 10;
          order_book_imbalance := 0;
          bid_vol_top5 := 10;
          ask_vol_top5 := 10 |}.
Proof.
  pose proof (get_binance_data_cases float_of_str w) as Hcases.
  assert (Hreal :
            (real_bag float_of_str (w_klines_1m w) (w_depth w)
                      (get_binance_data float_of_str w) -> False) ->
            get_binance_data float_of_str w = binance_fallback).
  { intro Hno. destruct Hcases as [[e [_ Hf]] | [_ Hr]];
      [exact Hf | destruct (Hno Hr)]. }
  split.
  { destruct Hcases as [[e [_ Hf]] | [_ Hr]]; [left | right]; assumption. }
  split.
  { intros e He. unfold get_binance_data. now rewrite He. }
  repeat split.
  - intros e He. apply Hreal.
    intros [r [rows [dr [d [bids [asks [H1 _]]]]]]]. congruence.
  - intros e He. apply Hreal.
    intros [r [rows [dr [d [bids [asks [_ [_ [_ [_ [_ [_ [_ [H8 _]]]]]]]]]]]]]].
    congruence.
  - intros r0 Hr0 Hs. apply Hreal.
    intros [r [rows [dr [d [bids [asks
      [H1 [H2 [_ [_ [_ [_ [_ [H8 [H9 _]]]]]]]]]]]]]]].
    destruct Hr0 as [Hr0 | Hr0].
    + rewrite Hr0 in H1. injection H1 as <-.
      exact (raise_for_status_error r0 Hs H2).
    + rewrite Hr0 in H8. injection H8 as <-.
      exact (raise_for_status_error r0 Hs H9).
  - intros r0 e Hr0 Hj. apply Hreal.
    intros [r [rows [dr [d [bids [asks
      [H1 [_ [H3 [_ [_ [_ [_ [H8 [_ [H10 _]]]]]]]]]]]]]]]].
    destruct Hr0 as [Hr0 | Hr0].
    + rewrite Hr0 in H1. injection H1 as <-. congruence.
    + rewrite Hr0 in H8. injection H8 as <-. congruence.
  - intros r0 v Hr0 Hj Hv. apply Hreal.
    intros [r [rows [dr [d [bids [asks [H1 [_ [H3 [H4 _]]]]]]]]]].
    rewrite Hr0 in H1. injection H1 as <-.
    rewrite Hj in H3. injection H3 as ->.
    exact (H4 (Hv rows eq_refl)).
  - intros r0 d0 Hr0 Hj Hside. apply Hreal.
    intros [r [rows [dr [d [bids [asks
      [_ [_ [_ [_ [_ [_ [_ [H8 [_ [H10 [H11 [H12 _]]]]]]]]]]]]]]]]]].
    rewrite Hr0 in H8. injection H8 as <-.
    rewrite Hj in H10. injection H10 as <-.
    destruct Hside as [Hs | Hs]; contradiction.
Qed.

Lemma C4_all_or_nothing_amended_witness :
  w_klines_1m status_503_world
  = Ok {| status_code := 503;
          json := Ok (VList [kline "61000.5" "2.5" "1.0"]) |}
  /\ (400 <= 503 < 600)%Z
  /\ get_binance_data decimal_literal status_503_world = binance_fallback.
Proof.
  split; [reflexivity |]. split; [lia |].
  destruct (C4_all_or_nothing_amended decimal_literal status_503_world)
    as [_ [_ [_ [_ [H _]]]]].
  apply (H {| status_code := 503;
              json := Ok (VList [kline "61000.5" "2.5" "1.0"]) |}).
  - left. reflexivity.
  - simpl. lia.
Defined.

(** C4 as stated fails: a candle response with the non-2xx status 300 and
    a well-formed body is not treated as a failure; the adapter returns the
    data read from it, not the fallback bag. *)
Lemma C4_status_300_returns_real_data :
  w_klines_1m status_300_world
  = Ok {| status_code := 300;
          json := Ok (VList [kline "61000.5" "2.5" "1.0"]) |}
  /\ ~ (200 <= 300 < 300)%Z
  /\ mid_prices (get_binance_data decimal_literal status_300_world)
     = [610005 / 10]
  /\ bid_vol_top5 (get_binance_data decimal_literal status_300_world) == 15 # 10
  /\ get_binance_data decimal_literal status_300_world <> binance_fallback.
Proof.
  split; [reflexivity |]. split; [lia |]. split; [reflexivity |].
  split; [reflexivity |].
  intro H. apply (f_equal mid_prices) in H. discriminate H.
Qed.

(** ** The liquidation adapter *)

Lemma mapM_price_on_chars (cs : list string) (ls : list value) :
  mapM (fun item => py_getitem item "price") (map VStr cs) = Ok ls -> cs = [].
Proof.
  destruct cs as [| c cs]; [reflexivity | discriminate].
Qed.

(** A side read from the response has at most two levels. *)
Lemma liquidation_side_length (data : value) (name : string) (ls : list value) :
  liquidation_side data name = Ok ls -> (length ls <= 2)%nat.
Proof.
  unfold liquidation_side. intro H.
  bind_ok H has_data E1. bind_ok H has_list E2.
  destruct (has_data && has_list).
  - bind_ok H inner E3. bind_ok H all E4. bind_ok H top E5. bind_ok H items E6.
    apply mapM_length in H as Hlen. rewrite Hlen.
    destruct all; try discriminate E5; injection E5 as <-;
      injection E6 as <-.
    + apply mapM_price_on_chars in H. rewrite length_map, H. simpl. lia.
    + destruct l as [| a [| a0 l0]]; simpl; lia.
  - injection H as <-. simpl. lia.
Qed.

(** No ["data"] entry, no list under the name, or an empty list: the side
    is empty. *)
Lemma liquidation_side_absent (d : list (string * value)) (name : string) :
  dict_get d "data" = None -> liquidation_side (VDict d) name = Ok [].
Proof.
  intro H. unfold liquidation_side. simpl. now rewrite H.
Qed.

Lemma liquidation_side_missing (d inner : list (string * value)) (name : string) :
  dict_get d "data" = Some (VDict inner) ->
  dict_get inner name = None \/ dict_get inner name = Some (VList []) ->
  liquidation_side (VDict d) name = Ok [].
Proof.
  intros Hd Hi. unfold liquidation_side. simpl. rewrite Hd. simpl.
  destruct Hi as [Hi | Hi]; rewrite Hi; reflexivity.
Qed.

Lemma py_or_length (ls : list value) :
  (length ls <= 2)%nat ->
  (1 <= length (py_or ls [VInt 0; VInt 0]) <= 2)%nat.
Proof.
  intro H. destruct ls; simpl in *; lia.
Qed.

Lemma coinglass_body_inv (k : option string) (resp : http)
      (out : list value * list value) :
  coinglass_body k resp = Ok out ->
  key_missing k = false
  /\ exists res, resp = Ok res
       /\ ((status_code res <> 200%Z /\ out = liquidation_fallback)
           \/ (status_code res = 200%Z
               /\ exists data ls ss,
                   json res = Ok data
                   /\ liquidation_side data "longLiquidationList" = Ok ls
                   /\ liquidation_side data "shortLiquidationList" = Ok ss
                   /\ out = (py_or ls [VInt 0; VInt 0],
                             py_or ss [VInt 0; VInt 0]))).
Proof.
  unfold coinglass_body. intro H.
  destruct (key_missing k); [discriminate H |]. rewrite bind_Ok in H.
  split; [reflexivity |].
  bind_ok H res E1. exists res. split; [reflexivity |].
  destruct (status_code res =? 200)%Z eqn:Es.
  - right. apply Z.eqb_eq in Es. split; [exact Es |].
    bind_ok H data E2. bind_ok H ls E3. bind_ok H ss E4.
    injection H as <-. exists data, ls, ss. repeat split; assumption.
  - left. apply Z.eqb_neq in Es. injection H as <-. split; [exact Es | reflexivity].
Qed.

(** C5, as the code has it: the adapter always returns two sequences of
    one or two levels each (a side is exactly as long as the up-to-two
    entries read, and is the pair [0, 0] when none was read); both sides
    are [0, 0] when the credential is missing, the status is not 200 or any
    exception occurs; on a 200 response whose sides are both read, each
    side falls back to [0, 0] on its own, and a side is empty when its
    list is absent or empty. *)
Theorem C5_liquidation_levels_amended (w : world) :
  (1 <= length (fst (get_coinglass_liquidations w)) <= 2)%nat
  /\ (1 <= length (snd (get_coinglass_liquidations w)) <= 2)%nat
  /\ (key_missing (w_api_key w) = true ->
      get_coinglass_liquidations w = ([VInt 0; VInt 0], [VInt 0; VInt 0]))
  /\ (forall res, w_liquidation w = Ok res -> status_code res <> 200%Z ->
                  get_coinglass_liquidations w
                  = ([VInt 0; VInt 0], [VInt 0; VInt 0]))
  /\ (forall e, coinglass_body (w_api_key w) (w_liquidation w) = Raise e ->
                get_coinglass_liquidations w
                = ([VInt 0; VInt 0], [VInt 0; VInt 0]))
  /\ (forall res data ls ss,
        key_missing (w_api_key w) = false ->
        w_liquidation w = Ok res -> status_code res = 200%Z ->
        json res = Ok data ->
        liquidation_side data "longLiquidationList" = Ok ls ->
        liquidation_side data "shortLiquidationList" = Ok ss ->
        get_coinglass_liquidations w
        = (py_or ls [VInt 0; VInt 0], py_or ss [VInt 0; VInt 0])
        /\ (ls = [] -> fst (get_coinglass_liquidations w) = [VInt 0; VInt 0])
        /\ (ss = [] -> snd (get_coinglass_liquidations w) = [VInt 0; VInt 0]))
  /\ (forall d inner name,
        dict_get d "data" = Some (VDict inner) ->
        dict_get inner name = None \/ dict_get inner name = Some (VList []) ->
        liquidation_side (VDict d) name = Ok [])
  /\ (forall d name,
        dict_get d "data" = None -> liquidation_side (VDict d) name = Ok []).
Proof.
  assert (Hlen : (1 <= length (fst (get_coinglass_liquidations w)) <= 2)%nat
                 /\ (1 <= length (snd (get_coinglass_liquidations w)) <= 2)%nat).
  { unfold get_coinglass_liquidations.
    destruct (coinglass_body (w_api_key w) (w_liquidation w)) as [out |] eqn:E;
      simpl; [| lia].
    destruct (coinglass_body_inv _ _ _ E) as [_ [res [_ [[_ ->] | [_ Hok]]]]];
      [simpl; lia |].
    destruct Hok as [data [ls [ss [_ [Hl [Hs ->]]]]]]. simpl.
    split; apply py_or_length; eapply liquidation_side_length; eassumption. }
  destruct Hlen as [Hl1 Hl2].
  split; [exact Hl1 |]. split; [exact Hl2 |].
  split.
  { intro Hk. unfold get_coinglass_liquidations, coinglass_body.
    now rewrite Hk. }
  split.
  { intros res Hr Hs. unfold get_coinglass_liquidations, coinglass_body.
    rewrite Hr. apply Z.eqb_neq in Hs.
    destruct (key_missing (w_api_key w)); [reflexivity |].
    rewrite !bind_Ok, Hs. reflexivity. }
  split.
  { intros e He. unfold get_coinglass_liquidations. now rewrite He. }
  split.
  { intros res data ls ss Hk Hr Hs Hj Hls Hss.
    assert (E : get_coinglass_liquidations w
                = (py_or ls [VInt 0; VInt 0], py_or ss [VInt 0; VInt 0])).
    { unfold get_coinglass_liquidations, coinglass_body.
      apply Z.eqb_eq in Hs.
      rewrite Hk, bind_Ok, Hr, bind_Ok, Hs, Hj, bind_Ok, Hls, bind_Ok, Hss,
        bind_Ok.
      reflexivity. }
    rewrite E. split; [reflexivity |].
    split; intros ->; reflexivity. }
  split.
  { intros d inner name. apply liquidation_side_missing. }
  intros d name. apply liquidation_side_absent.
Qed.

Lemma C5_liquidation_levels_amended_witness :
  key_missing (w_api_key quiet_minute_world) = true
  /\ get_coinglass_liquidations quiet_minute_world
     = ([VInt 0; VInt 0], [VInt 0; VInt 0]).
Proof.
  split; [reflexivity |].
  destruct (C5_liquidation_levels_amended quiet_minute_world)
    as [_ [_ [H _]]].
  apply H. reflexivity.
Defined.

(** C5 as stated fails: when the response lists a single long liquidation,
    the long side returned has one level, not two. *)
Lemma C5_single_liquidation_gives_one_level :
  get_coinglass_liquidations single_liquidation_world
  = ([VInt 61000], [VInt 0; VInt 0])
  /\ length (fst (get_coinglass_liquidations single_liquidation_world)) = 1%nat
  /\ length (fst (get_coinglass_liquidations single_liquidation_world)) <> 2%nat.
Proof.
  split; [reflexivity |]. split; [reflexivity | discriminate].
Qed.

(** * Further properties *)

(** ** Exponential moving average *)

Lemma last_in {A : Type} (l : list A) (d : A) : l <> [] -> In (last l d) l.
Proof.
  intro H. destruct (exists_last H) as [l' [a ->]].
  rewrite last_last. apply in_or_app. right. left. reflexivity.
Qed.

Lemma last_as_nth {A : Type} (l : list A) (d : A) :
  last l d = nth (length l - 1) l d.
Proof.
  destruct l as [| x l]; [reflexivity |].
  destruct (@exists_last A (x :: l)) as [l' [a E]]; [discriminate |].
  rewrite E, last_last, length_app. simpl.
  replace (length l' + 1 - 1)%nat with (length l') by lia.
  now rewrite nth_middle.
Qed.

Lemma py_last_last (l : list Q) (x : Q) : py_last l = Ok x -> x = last l 0.
Proof.
  unfold py_last. intro H.
  destruct (rev l) as [| y r] eqn:E; [discriminate |]. injection H as <-.
  apply (f_equal (@rev Q)) in E. rewrite rev_involutive in E. subst l.
  simpl. now rewrite last_last.
Qed.

(** The loop of [calculate_ema] only appends: what it returns starts with
    what it was given. *)
Lemma ema_loop_prefix (m : Q) (l acc : list Q) :
  exists t,
    fold_left (fun ema price => ema ++ [price * m + last ema 0 * (1 - m)]) l acc
    = acc ++ t
    /\ length t = length l.
Proof.
  revert acc. induction l as [| p l IH]; intro acc; simpl.
  - exists []. split; [now rewrite app_nil_r | reflexivity].
  - destruct (IH (acc ++ [p * m + last acc 0 * (1 - m)])) as [t [Ht Hl]].
    exists ((p * m + last acc 0 * (1 - m)) :: t).
    split; [now rewrite Ht, <- app_assoc | simpl; now rewrite Hl].
Qed.

(** Each value is the price of its step weighted by the factor plus the
    value before it weighted by the rest. *)
Lemma ema_loop_recurrence (m : Q) (l seen acc : list Q) :
  length acc = length seen -> acc <> [] ->
  (forall k, (S k < length seen)%nat ->
             nth (S k) acc 0 = nth (S k) seen 0 * m + nth k acc 0 * (1 - m)) ->
  forall k,
    (S k < length (seen ++ l))%nat ->
    nth (S k)
        (fold_left (fun ema price => ema ++ [price * m + last ema 0 * (1 - m)])
                   l acc) 0
    = nth (S k) (seen ++ l) 0 * m
      + nth k (fold_left
                 (fun ema price => ema ++ [price * m + last ema 0 * (1 - m)])
                 l acc) 0 * (1 - m).
Proof.
  revert seen acc. induction l as [| p l IH]; intros seen acc Hlen Hne Hrec k Hk.
  - simpl. rewrite app_nil_r in *. apply Hrec. exact Hk.
  - simpl fold_left.
    replace (seen ++ p :: l) with ((seen ++ [p]) ++ l) in *
      by (now rewrite <- app_assoc).
    apply IH; try exact Hk.
    + rewrite !length_app. simpl. lia.
    + intro E. apply app_eq_nil in E. destruct E as [_ E]. discriminate.
    + intros j Hj. rewrite length_app in Hj. simpl in Hj.
      destruct (Nat.eq_dec (S j) (length seen)) as [E | E].
      * rewrite (app_nth2 acc) by lia. rewrite (app_nth2 seen) by lia.
        rewrite (app_nth1 acc) by lia.
        replace (S j - length acc)%nat with 0%nat by lia.
        replace (S j - length seen)%nat with 0%nat by lia.
        simpl. rewrite last_as_nth.
        replace (length acc - 1)%nat with j by lia. reflexivity.
      * rewrite !(app_nth1 acc) by lia. rewrite (app_nth1 seen) by lia.
        apply Hrec. lia.
Qed.

(** A weighted mean of values of a range stays in the range. *)
Lemma ema_loop_within (m lo hi : Q) (l acc : list Q) :
  0 <= m <= 1 -> acc <> [] -> within lo hi acc -> within lo hi l ->
  within lo hi
    (fold_left (fun ema price => ema ++ [price * m + last ema 0 * (1 - m)])
               l acc).
Proof.
  intro Hm. revert acc. induction l as [| p l IH]; intros acc Hne Hacc Hl; simpl.
  - exact Hacc.
  - inversion Hl as [| p' l' Hp Hl']; subst.
    apply IH; [| | exact Hl'].
    + intro E. apply app_eq_nil in E. destruct E as [_ E]. discriminate.
    + apply Forall_app. split; [exact Hacc |].
      constructor; [| constructor].
      assert (Hlast : lo <= last acc 0 <= hi).
      { unfold within in Hacc. rewrite Forall_forall in Hacc.
        apply Hacc. apply last_in. exact Hne. }
      assert (H1 : 0 <= (p - lo) * m + (last acc 0 - lo) * (1 - m)).
      { apply Qle_trans with (0 + 0); [lra |].
        apply Qplus_le_compat; apply Qmult_le_0_compat; lra. }
      assert (H2 : 0 <= (hi - p) * m + (hi - last acc 0) * (1 - m)).
      { apply Qle_trans with (0 + 0); [lra |].
        apply Qplus_le_compat; apply Qmult_le_0_compat; lra. }
      assert (E1 : p * m + last acc 0 * (1 - m) - lo
                   == (p - lo) * m + (last acc 0 - lo) * (1 - m)) by ring.
      assert (E2 : hi - (p * m + last acc 0 * (1 - m))
                   == (hi - p) * m + (hi - last acc 0) * (1 - m)) by ring.
      lra.
Qed.

Lemma ema_multiplier_range (period : Z) :
  (1 <= period)%Z -> 0 < ema_multiplier period <= 1.
Proof.
  intro H. unfold ema_multiplier.
  assert (Hp : 2 <= inject_Z period + 1).
  { assert (H1 : inject_Z 1 <= inject_Z period) by (rewrite <- Zle_Qle; exact H).
    change (inject_Z 1) with 1 in H1. lra. }
  split.
  - apply Qlt_shift_div_l; lra.
  - apply Qle_shift_div_r; lra.
Qed.

Lemma calculate_ema_inv (prices : list Q) (period : Z) (e : list Q) :
  calculate_ema prices period = Ok e ->
  exists p0 rest,
    prices = p0 :: rest
    /\ e = fold_left
             (fun ema price =>
                ema ++ [price * ema_multiplier period
                        + last ema 0 * (1 - ema_multiplier period)])
             rest [p0].
Proof.
  unfold calculate_ema. intro H.
  destruct prices as [| p0 rest]; [discriminate |].
  simpl py_first in H. rewrite bind_Ok in H.
  unfold py_div in H.
  destruct (Qeq_bool (inject_Z period + 1) 0); [discriminate |].
  rewrite bind_Ok in H. injection H as <-.
  exists p0, rest. split; reflexivity.
Qed.

(** X1: [calculate_ema] raises [IndexError] on an empty series and
    [ZeroDivisionError] for the period -1; in every other case it returns a
    series as long as its input whose first value is the first price. *)
Theorem X1_ema_shape (prices : list Q) (period : Z) :
  (prices = [] -> calculate_ema prices period = Raise IndexError)
  /\ (prices <> [] -> period = (-1)%Z ->
      calculate_ema prices period = Raise ZeroDivisionError)
  /\ (prices <> [] -> period <> (-1)%Z ->
      exists e,
        calculate_ema prices period = Ok e
        /\ length e = length prices
        /\ nth 0 e 0 = nth 0 prices 0).
Proof.
  split; [| split].
  - intros ->. reflexivity.
  - intros Hne ->. destruct prices as [| p0 rest]; [contradiction | reflexivity].
  - intros Hne Hp.
    destruct (calculate_ema_ok prices period Hne Hp) as [e [He Hlen]].
    exists e. split; [exact He |]. split; [exact Hlen |].
    destruct (calculate_ema_inv prices period e He) as [p0 [rest [-> ->]]].
    destruct (ema_loop_prefix (ema_multiplier period) rest [p0]) as [t [-> _]].
    reflexivity.
Qed.

Lemma X1_ema_shape_witness :
  [100; 102; 101] <> []
  /\ (20 <> -1)%Z
  /\ exists e, calculate_ema [100; 102; 101] 20 = Ok e /\ length e = 3%nat.
Proof.
  split; [discriminate |]. split; [lia |].
  destruct (proj2 (proj2 (X1_ema_shape [100; 102; 101] 20)))
    as [e [He [Hl _]]]; [discriminate | lia |].
  exists e. split; assumption.
Defined.

(** X2: every value of the EMA after the first is the price of its step
    times k plus the previous EMA value times 1 - k, with
    k = 2 / (period + 1). *)
Theorem X2_ema_recurrence (prices : list Q) (period : Z) (e : list Q) (k : nat) :
  calculate_ema prices period = Ok e ->
  (S k < length prices)%nat ->
  nth (S k) e 0
  = nth (S k) prices 0 * ema_multiplier period
    + nth k e 0 * (1 - ema_multiplier period).
Proof.
  intros He Hk.
  destruct (calculate_ema_inv prices period e He) as [p0 [rest [-> ->]]].
  change (p0 :: rest) with ([p0] ++ rest).
  apply ema_loop_recurrence; try exact Hk.
  - reflexivity.
  - discriminate.
  - intros j Hj. simpl in Hj. lia.
Qed.

Lemma X2_ema_recurrence_witness :
  exists e,
    calculate_ema [100; 102; 101] 20 = Ok e
    /\ nth 1 e 0 = 102 * ema_multiplier 20 + nth 0 e 0 * (1 - ema_multiplier 20).
Proof.
  eexists. split; [reflexivity |].
  apply (X2_ema_recurrence [100; 102; 101] 20 _ 0); [reflexivity | simpl; lia].
Defined.

(** X3: for a period of at least 1 the EMA never leaves the range of the
    prices: if every price lies between two bounds, so does every EMA
    value; in particular the EMA of a constant series is that constant. *)
Theorem X3_ema_within_price_range (prices : list Q) (period : Z) (lo hi : Q)
        (e : list Q) :
  (1 <= period)%Z ->
  within lo hi prices ->
  calculate_ema prices period = Ok e ->
  within lo hi e
  /\ (lo == hi -> Forall (fun x => x == lo) e).
Proof.
  intros Hp Hw He.
  assert (Hin : within lo hi e).
  { destruct (calculate_ema_inv prices period e He) as [p0 [rest [-> ->]]].
    inversion Hw as [| x l Hx Hl]; subst.
    apply ema_loop_within.
    - destruct (ema_multiplier_range period Hp). split; lra.
    - discriminate.
    - constructor; [exact Hx | constructor].
    - exact Hl. }
  split; [exact Hin |].
  intro Heq. unfold within in Hin. rewrite Forall_forall in *.
  intros x Hx. specialize (Hin x Hx). lra.
Qed.

Lemma X3_ema_within_price_range_witness :
  exists e,
    calculate_ema [100; 102; 101] 20 = Ok e /\ within 100 102 e.
Proof.
  eexists. split; [reflexivity |].
  apply (X3_ema_within_price_range [100; 102; 101] 20 100 102).
  - lia.
  - repeat constructor; lra.
  - reflexivity.
Defined.

(** ** MACD *)

Lemma ema_loop_last (m : Q) (l acc : list Q) :
  acc <> [] ->
  last (fold_left (fun ema price => ema ++ [price * m + last ema 0 * (1 - m)])
                  l acc) 0
  = ema_run m (last acc 0) l.
Proof.
  revert acc. induction l as [| p l IH]; intros acc Hne; simpl.
  - reflexivity.
  - rewrite IH.
    + now rewrite last_last.
    + intro E. apply app_eq_nil in E. destruct E as [_ E]. discriminate.
Qed.

Lemma calculate_ema_last (p0 : Q) (rest : list Q) (period : Z) :
  (period <> -1)%Z ->
  exists e,
    calculate_ema (p0 :: rest) period = Ok e
    /\ py_last e = Ok (ema_run (ema_multiplier period) p0 rest).
Proof.
  intro Hp.
  destruct (calculate_ema_last_ok (p0 :: rest) period) as [e [x [He Hx]]];
    [discriminate | exact Hp |].
  exists e. split; [exact He |].
  rewrite Hx. f_equal. rewrite (py_last_last e x Hx).
  destruct (calculate_ema_inv _ _ _ He) as [q0 [r [E ->]]].
  injection E as <- <-. now rewrite ema_loop_last by discriminate.
Qed.

(** On a non-empty series MACD is the last fast EMA minus the last slow
    one. *)
Lemma calculate_macd_value (p0 : Q) (rest : list Q) :
  calculate_macd (p0 :: rest)
  = Ok (ema_run (ema_multiplier 12) p0 rest - ema_run (ema_multiplier 26) p0 rest).
Proof.
  unfold calculate_macd.
  destruct (calculate_ema_last p0 rest 12) as [e12 [H12 L12]]; [lia |].
  destruct (calculate_ema_last p0 rest 26) as [e26 [H26 L26]]; [lia |].
  now rewrite H12, bind_Ok, L12, bind_Ok, H26, bind_Ok, L26, bind_Ok.
Qed.

(** On rising prices the faster average runs above the slower one and
    below the price. *)
Lemma ema_run_rising (m_fast m_slow : Q) (l : list Q) (p fast slow : Q) :
  0 <= m_slow -> m_slow <= m_fast -> m_fast <= 1 ->
  slow <= fast -> fast <= p ->
  nondecreasing (p :: l) ->
  ema_run m_slow slow l <= ema_run m_fast fast l.
Proof.
  intros H0 H1 H2. revert p fast slow.
  induction l as [| q l IH]; intros p fast slow Hsf Hfp Hmono.
  - exact Hsf.
  - unfold ema_run. simpl fold_left.
    destruct Hmono as [Hpq Hmono].
    apply (IH q); [| | exact Hmono]; unfold ema_step.
    + assert (E : q * m_fast + fast * (1 - m_fast)
                  - (q * m_slow + slow * (1 - m_slow))
                  == (q - fast) * (m_fast - m_slow)
                     + (fast - slow) * (1 - m_slow)) by ring.
      assert (H : 0 <= (q - fast) * (m_fast - m_slow)
                       + (fast - slow) * (1 - m_slow)).
      { apply Qle_trans with (0 + 0); [lra |].
        apply Qplus_le_compat; apply Qmult_le_0_compat; lra. }
      lra.
    + assert (E : q - (q * m_fast + fast * (1 - m_fast))
                  == (q - fast) * (1 - m_fast)) by ring.
      assert (H : 0 <= (q - fast) * (1 - m_fast))
        by (apply Qmult_le_0_compat; lra).
      lra.
Qed.

Lemma ema_run_falling (m_fast m_slow : Q) (l : list Q) (p fast slow : Q) :
  0 <= m_slow -> m_slow <= m_fast -> m_fast <= 1 ->
  fast <= slow -> p <= fast ->
  nonincreasing (p :: l) ->
  ema_run m_fast fast l <= ema_run m_slow slow l.
Proof.
  intros H0 H1 H2. revert p fast slow.
  induction l as [| q l IH]; intros p fast slow Hsf Hfp Hmono.
  - exact Hsf.
  - unfold ema_run. simpl fold_left.
    destruct Hmono as [Hpq Hmono].
    apply (IH q); [| | exact Hmono]; unfold ema_step.
    + assert (E : q * m_slow + slow * (1 - m_slow)
                  - (q * m_fast + fast * (1 - m_fast))
                  == (fast - q) * (m_fast - m_slow)
                     + (slow - fast) * (1 - m_slow)) by ring.
      assert (H : 0 <= (fast - q) * (m_fast - m_slow)
                       + (slow - fast) * (1 - m_slow)).
      { apply Qle_trans with (0 + 0); [lra |].
        apply Qplus_le_compat; apply Qmult_le_0_compat; lra. }
      lra.
    + assert (E : q * m_fast + fast * (1 - m_fast) - q
                  == (fast - q) * (1 - m_fast)) by ring.
      assert (H : 0 <= (fast - q) * (1 - m_fast))
        by (apply Qmult_le_0_compat; lra).
      lra.
Qed.

Lemma macd_multipliers :
  0 <= ema_multiplier 26
  /\ ema_multiplier 26 <= ema_multiplier 12
  /\ ema_multiplier 12 <= 1.
Proof.
  repeat split; apply Qle_bool_iff; reflexivity.
Qed.

Lemma constant_monotone (c : Q) (l : list Q) :
  Forall (fun x => x == c) l -> nondecreasing l /\ nonincreasing l.
Proof.
  induction 1 as [| x l Hx Hl [IH1 IH2]]; [split; exact I |].
  destruct l as [| y l]; [split; exact I |].
  inversion Hl as [| y' l' Hy _]; subst.
  simpl. repeat split; try assumption; lra.
Qed.

(** X4: [calculate_macd] raises [IndexError] on the empty series and
    returns a value on every other one; on rising prices (each at least
    the one before) that value is non-negative, on falling prices it is
    non-positive. *)
Theorem X4_macd_sign (prices : list Q) :
  (prices = [] -> calculate_macd prices = Raise IndexError)
  /\ (prices <> [] ->
      exists v,
        calculate_macd prices = Ok v
        /\ (nondecreasing prices -> 0 <= v)
        /\ (nonincreasing prices -> v <= 0)).
Proof.
  split; [intros ->; reflexivity |].
  intro Hne. destruct prices as [| p0 rest]; [contradiction |].
  destruct macd_multipliers as [M0 [M1 M2]].
  eexists. split; [apply calculate_macd_value |].
  split; intro Hmono.
  - assert (H : ema_run (ema_multiplier 26) p0 rest
                <= ema_run (ema_multiplier 12) p0 rest)
      by (apply (ema_run_rising _ _ rest p0); try assumption; lra).
    lra.
  - assert (H : ema_run (ema_multiplier 12) p0 rest
                <= ema_run (ema_multiplier 26) p0 rest)
      by (apply (ema_run_falling _ _ rest p0); try assumption; lra).
    lra.
Qed.

Lemma X4_macd_sign_witness :
  scenario_prices <> []
  /\ nondecreasing scenario_prices
  /\ exists v, calculate_macd scenario_prices = Ok v /\ 0 <= v.
Proof.
  assert (Hmono : nondecreasing scenario_prices)
    by (simpl; repeat split; lra).
  split; [discriminate |]. split; [exact Hmono |].
  destruct (proj2 (X4_macd_sign scenario_prices)) as [v [Hv [Hup _]]];
    [discriminate |].
  exists v. split; [exact Hv | exact (Hup Hmono)].
Defined.

(** X5: the MACD of a constant series is 0. *)
Theorem X5_macd_constant (prices : list Q) (c v : Q) :
  Forall (fun x => x == c) prices ->
  calculate_macd prices = Ok v ->
  v == 0.
Proof.
  intros Hc Hv.
  destruct prices as [| p0 rest]; [discriminate |].
  destruct (constant_monotone c _ Hc) as [Hup Hdown].
  destruct macd_multipliers as [M0 [M1 M2]].
  rewrite calculate_macd_value in Hv. injection Hv as <-.
  assert (H1 : ema_run (ema_multiplier 26) p0 rest
               <= ema_run (ema_multiplier 12) p0 rest)
    by (apply (ema_run_rising _ _ rest p0); try assumption; lra).
  assert (H2 : ema_run (ema_multiplier 12) p0 rest
               <= ema_run (ema_multiplier 26) p0 rest)
    by (apply (ema_run_falling _ _ rest p0); try assumption; lra).
  lra.
Qed.

Lemma X5_macd_constant_witness :
  exists v, calculate_macd (repeat 60000 10) = Ok v /\ v == 0.
Proof.
  eexists. split; [reflexivity |].
  apply (X5_macd_constant (repeat 60000 10) 60000).
  - repeat constructor.
  - reflexivity.
Defined.

(** ** Relative strength index, further *)

Lemma deltas_of_cons (a b : Q) (t : list Q) :
  deltas_of (a :: b :: t) = (b - a) :: deltas_of (b :: t).
Proof.
  unfold deltas_of, py_range. cbn [length].
  replace (S (S (length t)) - 1)%nat with (S (length t)) by lia.
  replace (S (length t) - 1)%nat with (length t) by lia.
  cbn [seq map nth Nat.sub]. f_equal.
  rewrite <- seq_shift, map_map.
  apply map_ext_in. intros i Hi. apply in_seq in Hi.
  destruct i as [| j]; [lia |].
  replace (S (S j) - 1)%nat with (S j) by lia.
  replace (S j - 1)%nat with j by lia. reflexivity.
Qed.

Lemma deltas_of_short (l : list Q) : (length l <= 1)%nat -> deltas_of l = [].
Proof.
  intro H. destruct l as [| a [| b t]]; try reflexivity. simpl in H. lia.
Qed.

Lemma deltas_of_length (l : list Q) : length (deltas_of l) = (length l - 1)%nat.
Proof.
  unfold deltas_of, py_range. now rewrite length_map, length_seq.
Qed.

(** The differences of a suffix are the matching suffix of the
    differences. *)
Lemma deltas_of_skipn (k : nat) (l : list Q) :
  deltas_of (skipn k l) = skipn k (deltas_of l).
Proof.
  revert l. induction k as [| k IH]; intro l; [reflexivity |].
  destruct l as [| a [| b t]].
  - reflexivity.
  - simpl skipn. rewrite skipn_nil. reflexivity.
  - rewrite deltas_of_cons. change (skipn (S k) (a :: b :: t)) with (skipn k (b :: t)).
    change (skipn (S k) ((b - a) :: deltas_of (b :: t)))
      with (skipn k (deltas_of (b :: t))).
    apply IH.
Qed.

(** The differences of a series add up to its last price minus its
    first. *)
Lemma deltas_of_sum (a : Q) (l : list Q) :
  py_sum (deltas_of (a :: l)) == last (a :: l) 0 - a.
Proof.
  revert a. induction l as [| b t IH]; intro a.
  - unfold py_sum. simpl. lra.
  - rewrite deltas_of_cons, py_sum_cons, IH.
    change (last (a :: b :: t) 0) with (last (b :: t) 0). lra.
Qed.


(** The value of [calculate_rsi] once the series is long enough. *)
Lemma calculate_rsi_value (prices : list Q) (period : nat) :
  (0 < period)%nat -> (period + 1 <= length prices)%nat ->
  exists avg_loss,
    0 < avg_loss
    /\ (py_sum (rsi_losses prices period) == 0 -> avg_loss = 1)
    /\ calculate_rsi prices period
       = Ok (100 - 100 / (1 + py_sum (rsi_gains prices period)
                               / inject_Z (Z.of_nat period) / avg_loss)).
Proof.
  intros Hp Hlen. unfold calculate_rsi.
  destruct (length prices <? period + 1)%nat eqn:E;
    [apply Nat.ltb_lt in E; lia |].
  cbv zeta. fold (rsi_gains prices period). fold (rsi_losses prices period).
  assert (Hper : 0 < inject_Z (Z.of_nat period)).
  { change 0 with (inject_Z 0). rewrite <- Zlt_Qlt. lia. }
  assert (Hg : 0 <= py_sum (rsi_gains prices period))
    by (apply py_sum_nonneg, gains_nonneg).
  assert (Havg : 0 <= py_sum (rsi_gains prices period) / inject_Z (Z.of_nat period)).
  { apply Qle_shift_div_l; lra. }
  rewrite py_div_ok, bind_Ok by lra.
  destruct (Qltb 0 (py_sum (rsi_losses prices period))) eqn:El.
  - apply Qltb_true in El.
    exists (py_sum (rsi_losses prices period) / inject_Z (Z.of_nat period)).
    assert (Hl : 0 < py_sum (rsi_losses prices period) / inject_Z (Z.of_nat period))
      by (apply Qlt_shift_div_l; lra).
    split; [exact Hl |]. split; [intro H; lra |].
    assert (Hrs : 0 <= py_sum (rsi_gains prices period)
                       / inject_Z (Z.of_nat period)
                       / (py_sum (rsi_losses prices period)
                          / inject_Z (Z.of_nat period)))
      by (apply Qle_shift_div_l; lra).
    rewrite py_div_ok, bind_Ok by lra.
    rewrite py_div_ok, bind_Ok by lra.
    rewrite py_div_ok, bind_Ok by lra. reflexivity.
  - exists 1. split; [lra |]. split; [reflexivity |].
    assert (Hrs : 0 <= py_sum (rsi_gains prices period)
                       / inject_Z (Z.of_nat period) / 1)
      by (apply Qle_shift_div_l; lra).
    rewrite bind_Ok.
    rewrite py_div_ok, bind_Ok by lra.
    rewrite py_div_ok, bind_Ok by lra. reflexivity.
Qed.




Lemma rsi_window_deltas (prices : list Q) :
  py_tail_slice 7 (deltas_of (py_tail_slice 8 prices))
  = py_tail_slice 7 (deltas_of prices).
Proof.
  unfold py_tail_slice.
  rewrite deltas_of_skipn, length_skipn, !deltas_of_length, skipn_skipn.
  f_equal. lia.
Qed.

(** X7: with period 7 [calculate_rsi] looks at the last 8 prices only:
    dropping everything before them leaves its result unchanged. *)
Theorem X7_rsi_depends_on_last_8 (prices : list Q) :
  calculate_rsi (py_tail_slice 8 prices) 7 = calculate_rsi prices 7.
Proof.
  destruct (le_lt_dec 8 (length prices)) as [Hlen | Hlen].
  - unfold calculate_rsi. cbv zeta. rewrite rsi_window_deltas.
    assert (E1 : (length (py_tail_slice 8 prices) <? 7 + 1)%nat = false).
    { apply Nat.ltb_ge. unfold py_tail_slice. rewrite length_skipn. lia. }
    assert (E2 : (length prices <? 7 + 1)%nat = false)
      by (apply Nat.ltb_ge; simpl; lia).
    now rewrite E1, E2.
  - unfold py_tail_slice.
    replace (length prices - 8)%nat with 0%nat by lia. reflexivity.
Qed.

(** X8: [calculate_rsi] with period 0 raises [ZeroDivisionError] on every
    non-empty series (and answers 50 on the empty one); with any positive
    period it returns, in exact arithmetic, a value from 0 up to, but not
    including, 100. *)
Theorem X8_rsi_periods (prices : list Q) (period : nat) :
  (period = 0%nat -> prices = [] -> calculate_rsi prices period = Ok 50)
  /\ (period = 0%nat -> prices <> [] ->
      calculate_rsi prices period = Raise ZeroDivisionError)
  /\ ((0 < period)%nat ->
      exists r, calculate_rsi prices period = Ok r /\ 0 <= r < 100).
Proof.
  split; [| split].
  - intros -> ->. reflexivity.
  - intros -> Hne. unfold calculate_rsi.
    destruct prices as [| p t]; [contradiction |]. reflexivity.
  - intro Hp.
    destruct (calculate_rsi_bounds prices period Hp) as [r [Hr [H0 _]]].
    exists r. split; [exact Hr |]. split; [exact H0 |].
    destruct (le_lt_dec (period + 1) (length prices)) as [Hlen | Hlen].
    + destruct (calculate_rsi_value prices period Hp Hlen)
        as [avg_loss [Hl [_ Hv]]].
      rewrite Hv in Hr. injection Hr as <-.
      assert (Hper : 0 < inject_Z (Z.of_nat period)).
      { change 0 with (inject_Z 0). rewrite <- Zlt_Qlt. lia. }
      assert (HG : 0 <= py_sum (rsi_gains prices period))
        by (apply py_sum_nonneg, gains_nonneg).
      set (rs := py_sum (rsi_gains prices period)
                 / inject_Z (Z.of_nat period) / avg_loss).
      assert (Hrs : 0 <= rs).
      { unfold rs. apply Qle_shift_div_l; [exact Hl |].
        assert (0 <= py_sum (rsi_gains prices period)
                     / inject_Z (Z.of_nat period))
          by (apply Qle_shift_div_l; lra).
        lra. }
      assert (Hq0 : 0 < 100 / (1 + rs)) by (apply Qlt_shift_div_l; lra).
      lra.
    + rewrite (calculate_rsi_short prices period Hlen) in Hr.
      injection Hr as <-. lra.
Qed.

Lemma X8_rsi_periods_witness :
  [100; 101] <> []
  /\ calculate_rsi [100; 101] 0 = Raise ZeroDivisionError.
Proof.
  split; [discriminate |].
  apply (proj1 (proj2 (X8_rsi_periods [100; 101] 0))); [reflexivity | discriminate].
Defined.

Lemma nondecreasing_deltas (l : list Q) :
  nondecreasing l -> Forall (fun d => 0 <= d) (deltas_of l).
Proof.
  induction l as [| a l IH]; intro H; [constructor |].
  destruct l as [| b t]; [constructor |].
  destruct H as [Hab Ht]. rewrite deltas_of_cons.
  constructor; [lra | apply IH; exact Ht].
Qed.

Lemma gains_of_rises (l : list Q) :
  Forall (fun d => 0 <= d) l ->
  py_sum (map (fun d => if Qltb 0 d then d else 0) l) == py_sum l
  /\ py_sum (map (fun d => if Qltb d 0 then - d else 0) l) == 0.
Proof.
  induction 1 as [| d l Hd Hl [IH1 IH2]]; simpl map.
  - split; [reflexivity | unfold py_sum; simpl; lra].
  - rewrite !py_sum_cons, IH1, IH2. split.
    + destruct (Qltb 0 d) eqn:E; [lra | apply Qltb_false in E; lra].
    + destruct (Qltb d 0) eqn:E; [apply Qltb_true in E; lra | lra].
Qed.

Lemma last_skipn {A : Type} (k : nat) (l : list A) (d : A) :
  (k < length l)%nat -> last (skipn k l) d = last l d.
Proof.
  intro H. rewrite !last_as_nth, nth_skipn, length_skipn. f_equal. lia.
Qed.

(** X9: in exact arithmetic, when none of the last 7 differences is a
    fall, the loss average is floored at 1 and the RSI is
    100 - 100 / (1 + rise / 7), where rise is the last price minus the
    price 7 steps before it; rise is not negative and the value is below
    100, however steep the rise. *)
Theorem X9_rsi_of_rising_window (prices : list Q) :
  (8 <= length prices)%nat ->
  nondecreasing (py_tail_slice 8 prices) ->
  exists r,
    calculate_rsi prices 7 = Ok r
    /\ r == 100 - 100 / (1 + (last prices 0
                               - nth (length prices - 8) prices 0) / 7)
    /\ 0 <= last prices 0 - nth (length prices - 8) prices 0
    /\ r < 100.
Proof.
  intros Hlen Hmono.
  assert (Htail : py_tail_slice 7 (deltas_of prices)
                  = deltas_of (py_tail_slice 8 prices)).
  { rewrite <- rsi_window_deltas. unfold py_tail_slice at 1.
    rewrite deltas_of_length. unfold py_tail_slice. rewrite length_skipn.
    replace (length prices - (length prices - 8) - 1 - 7)%nat with 0%nat by lia.
    reflexivity. }
  pose proof (nondecreasing_deltas _ Hmono) as Hrise.
  destruct (gains_of_rises _ Hrise) as [Hg Hl0].
  rewrite <- Htail in Hg, Hl0.
  fold (rsi_gains prices 7) in Hg. fold (rsi_losses prices 7) in Hl0.
  destruct (calculate_rsi_value prices 7) as [avg_loss [_ [H1 Hv]]];
    [lia | simpl; lia |].
  rewrite (H1 Hl0) in Hv. rewrite Hv.
  eexists. split; [reflexivity |].
  change (inject_Z (Z.of_nat 7)) with 7.
  assert (Hsum : py_sum (rsi_gains prices 7)
                 == last prices 0 - nth (length prices - 8) prices 0).
  { rewrite Hg, Htail. unfold py_tail_slice.
    destruct (skipn (length prices - 8) prices) as [| a w] eqn:Ew.
    - apply (f_equal (@length Q)) in Ew. rewrite length_skipn in Ew.
      simpl in Ew. lia.
    - rewrite deltas_of_sum, <- Ew, last_skipn by lia.
      assert (Ea : a = nth (length prices - 8) prices 0).
      { replace (length prices - 8)%nat with (length prices - 8 + 0)%nat at 1
          by lia.
        rewrite <- nth_skipn, Ew. reflexivity. }
      rewrite Ea. reflexivity. }
  assert (Hnn : 0 <= py_sum (rsi_gains prices 7))
    by (apply py_sum_nonneg, gains_nonneg).
  split; [| split].
  - rewrite Hsum. field. rewrite Hsum in Hnn. lra.
  - rewrite <- Hsum. exact Hnn.
  - set (G := py_sum (rsi_gains prices 7)) in *.
    assert (Hrs : 0 <= G / 7 / 1).
    { apply Qle_shift_div_l; [lra |].
      assert (0 <= G / 7) by (apply Qle_shift_div_l; lra). lra. }
    assert (Hq : 0 < 100 / (1 + G / 7 / 1)) by (apply Qlt_shift_div_l; lra).
    lra.
Qed.

Lemma X9_rsi_of_rising_window_witness :
  (8 <= length scenario_prices)%nat
  /\ nondecreasing (py_tail_slice 8 scenario_prices)
  /\ exists r, calculate_rsi scenario_prices 7 = Ok r
               /\ r == 100 - 100 / (1 + (109 - 102) / 7)
               /\ r < 100.
Proof.
  assert (Hmono : nondecreasing (py_tail_slice 8 scenario_prices))
    by (simpl; repeat split; lra).
  split; [simpl; lia |]. split; [exact Hmono |].
  destruct (X9_rsi_of_rising_window scenario_prices) as [r [Hr [Hv [_ Hlt]]]];
    [simpl; lia | exact Hmono |].
  exists r. split; [exact Hr |]. split; [exact Hv | exact Hlt].
Defined.

(** ** Average true range and regime, further *)

Lemma high_low_step (x y lo hi : Q) :
  lo <= x <= hi -> lo <= y <= hi ->
  0 <= py_max x y - py_min x y <= hi - lo.
Proof.
  intros Hx Hy. unfold py_max, py_min.
  destruct (Qltb x y) eqn:E1; destruct (Qltb y x) eqn:E2;
    try apply Qltb_true in E1; try apply Qltb_true in E2;
    try apply Qltb_false in E1; try apply Qltb_false in E2; lra.
Qed.

Lemma within_nth (lo hi : Q) (l : list Q) (i : nat) :
  within lo hi l -> (i < length l)%nat -> lo <= nth i l 0 <= hi.
Proof.
  intros Hw Hi. unfold within in Hw. rewrite Forall_forall in Hw.
  apply Hw. apply nth_In. exact Hi.
Qed.

Lemma high_low_within (lo hi : Q) (prices : list Q) :
  within lo hi prices -> within 0 (hi - lo) (high_low_of prices).
Proof.
  intro Hw. unfold within, high_low_of, py_range.
  rewrite Forall_forall. intros h Hh.
  apply in_map_iff in Hh. destruct Hh as [i [<- Hi]].
  apply in_seq in Hi.
  apply high_low_step; apply (within_nth lo hi); try exact Hw; lia.
Qed.

Lemma within_skipn (lo hi : Q) (k : nat) (l : list Q) :
  within lo hi l -> within lo hi (skipn k l).
Proof.
  intro Hw. unfold within in *. rewrite Forall_forall in *.
  intros x Hx. apply Hw.
  rewrite <- (firstn_skipn k l). apply in_or_app. right. exact Hx.
Qed.

Lemma py_sum_within (c : Q) (l : list Q) :
  within 0 c l -> 0 <= py_sum l <= inject_Z (Z.of_nat (length l)) * c.
Proof.
  induction 1 as [| x l Hx Hl IH].
  - unfold py_sum. cbn [fold_left length].
    change (inject_Z (Z.of_nat 0)) with 0. lra.
  - rewrite py_sum_cons. cbn [length].
    rewrite Nat2Z.inj_succ, <- Z.add_1_r, inject_Z_plus.
    change (inject_Z 1) with 1. lra.
Qed.

(** X10: the ATR of [main] is never negative, and it is at most the
    spread of the series: if every price of a non-empty series lies between
    two bounds, the ATR is at most their distance (so it is 0 on a constant
    series). *)
Theorem X10_atr_bounds (prices : list Q) (lo hi : Q) :
  prices <> [] ->
  within lo hi prices ->
  exists atr, atr14_of prices = Ok atr /\ 0 <= atr <= hi - lo.
Proof.
  intros Hne Hw.
  assert (Hlohi : lo <= hi).
  { destruct prices as [| p t]; [contradiction |].
    inversion Hw as [| x l Hx _]. lra. }
  unfold atr14_of. cbv zeta.
  destruct (14 <=? length (high_low_of prices))%nat eqn:E.
  - apply Nat.leb_le in E. rewrite py_div_ok by lra.
    eexists. split; [reflexivity |].
    assert (Hs : within 0 (hi - lo) (py_tail_slice 14 (high_low_of prices)))
      by (apply within_skipn, high_low_within; exact Hw).
    pose proof (py_sum_within _ _ Hs) as Hsum.
    assert (Hl : length (py_tail_slice 14 (high_low_of prices)) = 14%nat).
    { unfold py_tail_slice. rewrite length_skipn. lia. }
    rewrite Hl in Hsum. change (inject_Z (Z.of_nat 14)) with 14 in Hsum.
    split; [apply Qle_shift_div_l; lra | apply Qle_shift_div_r; lra].
  - exists 0. split; [reflexivity | lra].
Qed.

Lemma X10_atr_bounds_witness :
  map inject_Z [1; 3; 2; 3; 1; 3; 2; 3; 1; 3; 2; 3; 1; 3; 2; 3]%Z <> []
  /\ within 1 3 (map inject_Z [1; 3; 2; 3; 1; 3; 2; 3; 1; 3; 2; 3; 1; 3; 2; 3]%Z)
  /\ exists atr,
      atr14_of (map inject_Z [1; 3; 2; 3; 1; 3; 2; 3; 1; 3; 2; 3; 1; 3; 2; 3]%Z)
      = Ok atr
      /\ 0 <= atr <= 3 - 1.
Proof.
  assert (Hw : within 1 3
                 (map inject_Z [1; 3; 2; 3; 1; 3; 2; 3; 1; 3; 2; 3; 1; 3; 2; 3]%Z)).
  { simpl. repeat constructor; apply Qle_bool_iff; reflexivity. }
  split; [discriminate |]. split; [exact Hw |].
  apply X10_atr_bounds; [discriminate | exact Hw].
Defined.

Lemma div_lt_iff (d s c : Q) : 0 < s -> (d / s < c <-> d < c * s).
Proof.
  intro Hs. split; intro H.
  - apply Qnot_le_lt. intro Hc. apply (proj2 (le_div_iff d s c Hs)) in Hc. lra.
  - apply Qnot_le_lt. intro Hc. apply (proj1 (le_div_iff d s c Hs)) in Hc. lra.
Qed.

Lemma lt_div_iff (d s c : Q) : 0 < s -> (c < d / s <-> c * s < d).
Proof.
  intro Hs. split; intro H.
  - apply Qnot_le_lt. intro Hc. apply (proj2 (div_le_iff d s c Hs)) in Hc. lra.
  - apply Qnot_le_lt. intro Hc. apply (proj1 (div_le_iff d s c Hs)) in Hc. lra.
Qed.

(** X11: in exact arithmetic, for a positive price the label of the
    regime compares the ATR with fixed fractions of the price: it is
    "high" exactly when the ATR exceeds 0.5 % of the price, "low" exactly
    when it is below 0.2 % of it, and "normal" in between. *)
Theorem X11_regime_thresholds (atr price : Q) :
  0 < price ->
  (regime_label (classify_regime (atr / price)) = "high"%string
   <-> (5 # 1000) * price < atr)
  /\ (regime_label (classify_regime (atr / price)) = "low"%string
      <-> atr < (2 # 1000) * price)
  /\ (regime_label (classify_regime (atr / price)) = "normal"%string
      <-> (2 # 1000) * price <= atr <= (5 # 1000) * price).
Proof.
  intro Hp.
  assert (Hlabel : forall r g, regime_label r = regime_label g <-> r = g)
    by (intros r g; split; [apply regime_label_inj | intros ->; reflexivity]).
  change "high"%string with (regime_label High).
  change "low"%string with (regime_label Low).
  change "normal"%string with (regime_label Normal).
  rewrite !Hlabel.
  rewrite classify_regime_high, classify_regime_low, classify_regime_normal.
  split; [apply lt_div_iff; exact Hp |].
  split; [apply div_lt_iff; exact Hp |].
  split; intros [H1 H2]; split.
  - apply (proj1 (le_div_iff atr price _ Hp)). exact H1.
  - apply (proj1 (div_le_iff atr price _ Hp)). exact H2.
  - apply (proj2 (le_div_iff atr price _ Hp)). exact H1.
  - apply (proj2 (div_le_iff atr price _ Hp)). exact H2.
Qed.

Lemma X11_regime_thresholds_witness :
  0 < 60000
  /\ regime_label (classify_regime (400 / 60000)) = "high"%string.
Proof.
  split; [lra |].
  destruct (X11_regime_thresholds 400 60000) as [H _]; [lra |].
  apply H. lra.
Defined.

(** ** The exchange-A adapter, further *)

Lemma mapM_raises {A B : Type} (f : A -> result B) (l : list A) (x : A) (e : exn) :
  In x l -> f x = Raise e -> exists e', mapM f l = Raise e'.
Proof.
  induction l as [| y l IH]; intros Hin Hf; [destruct Hin |].
  simpl. destruct Hin as [-> | Hin].
  - rewrite Hf. exists e. reflexivity.
  - destruct (f y) as [b |]; [| eexists; reflexivity].
    rewrite bind_Ok. destruct (IH Hin Hf) as [e' ->].
    exists e'. reflexivity.
Qed.

(** The guard of line 37 keeps the division from ever failing. *)
Lemma imbalance_of_total (bid ask : Q) :
  exists i, imbalance_of bid ask = Ok i
            /\ (bid + ask <= 0 -> i == 0).
Proof.
  unfold imbalance_of, raw_imbalance.
  destruct (Qltb 0 (bid + ask)) eqn:E.
  - apply Qltb_true in E. rewrite py_div_ok, bind_Ok by lra.
    eexists. split; [reflexivity | intro H; lra].
  - rewrite bind_Ok. eexists. split; [reflexivity | intros _; reflexivity].
Qed.

(** X12: whatever the exchange answers, the bag the exchange-A adapter
    returns is coherent: its three series are non-empty and of one length,
    and its imbalance is the one computed from its own bid and ask volumes
    (the fallback bag included). *)
Theorem X12_binance_bag_coherent (float_of_str : string -> result Q) (w : world) :
  mid_prices (get_binance_data float_of_str w) <> []
  /\ length (volumes (get_binance_data float_of_str w))
     = length (mid_prices (get_binance_data float_of_str w))
  /\ length (taker_buy_volumes (get_binance_data float_of_str w))
     = length (mid_prices (get_binance_data float_of_str w))
  /\ exists i,
      imbalance_of (bid_vol_top5 (get_binance_data float_of_str w))
                   (ask_vol_top5 (get_binance_data float_of_str w)) = Ok i
      /\ i == order_book_imbalance (get_binance_data float_of_str w).
Proof.
  destruct (get_binance_data_series float_of_str w) as [H1 [H2 H3]].
  repeat (split; [assumption |]).
  destruct (get_binance_data_cases float_of_str w) as [[e [_ ->]] | [_ Hreal]].
  - eexists. split; reflexivity.
  - destruct Hreal as [r [rows [dr [d [bids [asks Hreal]]]]]].
    decompose [and] Hreal.
    eexists. split; [eassumption | reflexivity].
Qed.

(** X13: one bad candle discards them all: if any row of the candle list
    cannot be read at index 4, 5 or 9 (in particular if it is a list of
    fewer than 10 fields), the adapter returns the fallback bag. *)
Theorem X13_bad_candle_falls_back (float_of_str : string -> result Q)
        (w : world) (r : response) (rows : list value) (row : value) :
  w_klines_1m w = Ok r ->
  json r = Ok (VList rows) ->
  In row rows ->
  ((exists i e, (i = 4 \/ i = 5 \/ i = 9)%nat
                /\ (x <- py_index row i ;; py_float float_of_str x) = Raise e)
   \/ (exists fields, row = VList fields /\ (length fields < 10)%nat)) ->
  get_binance_data float_of_str w = binance_fallback.
Proof.
  intros Hr Hj Hin Hbad.
  assert (Hcol : exists i e, (i = 4 \/ i = 5 \/ i = 9)%nat
                             /\ column float_of_str i rows = Raise e).
  { destruct Hbad as [[i [e [Hi He]]] | [fields [-> Hlen]]].
    - destruct (mapM_raises
                  (fun k => x <- py_index k i ;; py_float float_of_str x)
                  rows row e Hin He) as [e' He'].
      exists i, e'. split; [exact Hi | exact He'].
    - destruct (mapM_raises
                  (fun k => x <- py_index k 9 ;; py_float float_of_str x)
                  rows (VList fields) IndexError Hin) as [e' He'].
      + cbn [py_index]. destruct (nth_error fields 9) eqn:E; [| reflexivity].
        assert (Hlt : (9 < length fields)%nat)
          by (apply nth_error_Some; rewrite E; discriminate).
        lia.
      + exists 9%nat, e'. split; [right; right; reflexivity | exact He']. }
  destruct Hcol as [i [e [Hi He]]].
  destruct (get_binance_data_cases float_of_str w) as [[e0 [_ Hf]] | [_ Hreal]];
    [exact Hf |].
  destruct Hreal as [r' [rows' [dr [d [bids [asks Hreal]]]]]].
  decompose [and] Hreal.
  assert (Er : r' = r) by congruence. subst r'.
  assert (Erows : rows' = rows) by congruence. subst rows'.
  destruct Hi as [-> | [-> | ->]]; congruence.
Qed.

Lemma X13_bad_candle_falls_back_witness :
  get_binance_data decimal_literal
    (exchange_a_world 200
       (VList [kline "61000.5" "2.5" "1.0"; VList [VInt 1; VStr "61000.5"]])
       (book "1.5" "0.5"))
  = binance_fallback.
Proof.
  apply (X13_bad_candle_falls_back decimal_literal _
           {| status_code := 200;
              json := Ok (VList [kline "61000.5" "2.5" "1.0";
                                 VList [VInt 1; VStr "61000.5"]]) |}
           [kline "61000.5" "2.5" "1.0"; VList [VInt 1; VStr "61000.5"]]
           (VList [VInt 1; VStr "61000.5"])).
  - reflexivity.
  - reflexivity.
  - right. left. reflexivity.
  - right. exists [VInt 1; VStr "61000.5"]. split; [reflexivity | simpl; lia].
Defined.

(** The bound of [py_float] is where the conversion of an integer leaves
    the finite binary64 numbers. *)
Lemma max_float_int_boundary :
  Binary64.of_int (max_float_int - 1) = Binary64.max_float
  /\ Binary64.of_int max_float_int = S754_infinity false
  /\ Binary64.of_int (- max_float_int) = S754_infinity true.
Proof.
  repeat split; vm_compute; reflexivity.
Qed.

Lemma py_float_int (float_of_str : string -> result Q) (z : Z) :
  ((Z.abs z < max_float_int)%Z ->
   py_float float_of_str (VInt z) = Ok (inject_Z z))
  /\ ((max_float_int <= Z.abs z)%Z ->
      py_float float_of_str (VInt z) = Raise OverflowError).
Proof.
  cbn [py_float]. split; intro H.
  - apply Z.ltb_lt in H. now rewrite H.
  - apply Z.ltb_ge in H. now rewrite H.
Qed.

(** X14: when both responses are well-formed, every number in them being
    one that [float] accepts (an integer beyond the binary64 range is not),
    the adapter returns the data read, not the fallback: the closes,
    volumes and taker-buy volumes of the candles, the two side volumes of
    the book, and the imbalance of those two volumes (which is always
    defined). *)
Theorem X14_binance_reads_well_formed_data
        (float_of_str : string -> result Q) (w : world)
        (r dr : response) (rows : list value) (depth bids asks : value)
        (closes vols taker : list Q) (bid_vol ask_vol : Q) :
  w_klines_1m w = Ok r -> (status_code r < 400 \/ 600 <= status_code r)%Z ->
  json r = Ok (VList rows) -> rows <> [] ->
  column float_of_str 4 rows = Ok closes ->
  column float_of_str 5 rows = Ok vols ->
  column float_of_str 9 rows = Ok taker ->
  w_depth w = Ok dr -> (status_code dr < 400 \/ 600 <= status_code dr)%Z ->
  json dr = Ok depth ->
  py_contains "bids" depth = Ok true ->
  py_contains "asks" depth = Ok true ->
  py_getitem depth "bids" = Ok bids ->
  side_volume float_of_str bids = Ok bid_vol ->
  py_getitem depth "asks" = Ok asks ->
  side_volume float_of_str asks = Ok ask_vol ->
  exists i,
    imbalance_of bid_vol ask_vol = Ok i
    /\ get_binance_data float_of_str w
       = {| mid_prices := closes;
            volumes := vols;
            taker_buy_volumes := taker;
            order_book_imbalance := i;
            bid_vol_top5 := bid_vol;
            ask_vol_top5 := ask_vol |}.
Proof.
  intros Hr Hs Hj Hrows Hc Hv Ht Hd Hds Hdj Hb Ha Hgb Hsb Hga Hsa.
  destruct (imbalance_of_total bid_vol ask_vol) as [i [Hi _]].
  exists i. split; [exact Hi |].
  assert (Hst : forall x, (status_code x < 400 \/ 600 <= status_code x)%Z ->
                          raise_for_status x = Ok tt).
  { intros x Hx. unfold raise_for_status.
    destruct (400 <=? status_code x)%Z eqn:E1;
      destruct (status_code x <? 600)%Z eqn:E2; try reflexivity.
    apply Z.leb_le in E1. apply Z.ltb_lt in E2. lia. }
  unfold get_binance_data, binance_body.
  rewrite Hr, bind_Ok, (Hst r Hs), bind_Ok, Hj, bind_Ok.
  destruct rows as [| row rows']; [contradiction |].
  rewrite bind_Ok, Hc, bind_Ok, Hv, bind_Ok, Ht, bind_Ok.
  rewrite Hd, bind_Ok, (Hst dr Hds), bind_Ok, Hdj, bind_Ok.
  rewrite Hb, bind_Ok. cbv iota. rewrite Ha, bind_Ok.
  cbn [andb]. cbv iota. rewrite bind_Ok.
  rewrite Hgb, bind_Ok, Hsb, bind_Ok, Hga, bind_Ok, Hsa, bind_Ok.
  rewrite Hi, bind_Ok. reflexivity.
Qed.

Lemma X14_binance_reads_well_formed_data_witness :
  exists i,
    imbalance_of (15 / 10) (5 / 10) = Ok i
    /\ get_binance_data decimal_literal status_300_world
       = {| mid_prices := [610005 / 10];
            volumes := [25 / 10];
            taker_buy_volumes := [10 / 10];
            order_book_imbalance := i;
            bid_vol_top5 := 0 + 15 / 10;
            ask_vol_top5 := 0 + 5 / 10 |}.
Proof.
  destruct (X14_binance_reads_well_formed_data decimal_literal status_300_world
              {| status_code := 300;
                 json := Ok (VList [kline "61000.5" "2.5" "1.0"]) |}
              {| status_code := 200; json := Ok (book "1.5" "0.5") |}
              [kline "61000.5" "2.5" "1.0"] (book "1.5" "0.5")
              (VList [VList [VStr "60000.0"; VStr "1.5"]])
              (VList [VList [VStr "60001.0"; VStr "0.5"]])
              [610005 / 10] [25 / 10] [10 / 10] (0 + 15 / 10) (0 + 5 / 10))
    as [i [Hi Hb]]; try reflexivity; try (simpl; lia); try discriminate.
  exists i. split; [| exact Hb].
  rewrite <- Hi. reflexivity.
Defined.

(** X15: the imbalance never fails, for any two volumes: the division is
    only made when bid + ask is positive, and the imbalance is 0
    otherwise. *)
Theorem X15_imbalance_never_raises (bid ask : Q) :
  exists i,
    imbalance_of bid ask = Ok i
    /\ (bid + ask <= 0 -> i == 0)
    /\ (0 < bid + ask -> i = py_round ((bid - ask) / (bid + ask)) 4).
Proof.
  destruct (imbalance_of_total bid ask) as [i [Hi Hz]].
  exists i. split; [exact Hi |]. split; [exact Hz |].
  intro Hpos. unfold imbalance_of, raw_imbalance in Hi.
  apply Qltb_true in Hpos as Hb. rewrite Hb in Hi.
  rewrite py_div_ok, bind_Ok in Hi by lra. now injection Hi as <-.
Qed.

Lemma X15_imbalance_never_raises_witness :
  -(3) + 1 <= 0 /\ exists i, imbalance_of (-(3)) 1 = Ok i /\ i == 0.
Proof.
  split; [lra |].
  destruct (X15_imbalance_never_raises (-(3)) 1) as [i [Hi [Hz _]]].
  exists i. split; [exact Hi | apply Hz; lra].
Defined.

(** ** The exchange-B adapter *)

Section Bybit.

Variable float_of_str : string -> result Q.

Lemma bybit_body_same (a a' b b' : http) :
  same_body a a' -> same_body b b' ->
  try_except (bybit_body float_of_str a b) bybit_fallback
  = try_except (bybit_body float_of_str a' b') bybit_fallback.
Proof.
  unfold bybit_body, same_body. intros Ha Hb.
  destruct a as [r |], a' as [r' |]; try contradiction; [| reflexivity].
  rewrite !bind_Ok, Ha.
  destruct (json r') as [oi |]; [| reflexivity].
  rewrite !bind_Ok.
  destruct b as [q |], b' as [q' |]; try contradiction; [| reflexivity].
  rewrite !bind_Ok, Hb. reflexivity.
Qed.

Lemma bybit_body_inv (a b : http) (bag : bybit_bag) :
  bybit_body float_of_str a b = Ok bag ->
  exists r q oi funding oi_result funding_result oi_field funding_field,
    a = Ok r /\ json r = Ok oi
    /\ b = Ok q /\ json q = Ok funding
    /\ py_getitem oi "result" = Ok oi_result
    /\ py_getitem oi_result "open_interest" = Ok oi_field
    /\ py_float float_of_str oi_field = Ok (oi_latest bag)
    /\ py_getitem funding "result" = Ok funding_result
    /\ py_getitem funding_result "funding_rate" = Ok funding_field
    /\ py_float float_of_str funding_field = Ok (funding_rate bag).
Proof.
  unfold bybit_body. intro H.
  bind_ok H r E1. bind_ok H oi E2. bind_ok H q E3. bind_ok H funding E4.
  bind_ok H has_oi E5. bind_ok H has_funding E6. bind_ok H u E7.
  bind_ok H oi_result E8. bind_ok H oi_field E9. bind_ok H oi_value E10.
  bind_ok H funding_result E11. bind_ok H funding_field E12.
  bind_ok H funding_value E13.
  injection H as <-.
  exists r, q, oi, funding, oi_result, funding_result, oi_field, funding_field.
  simpl. repeat (split; [first [assumption | reflexivity] |]). assumption.
Qed.

End Bybit.

(** X16: the exchange-B adapter never looks at a status code: two worlds
    whose open-interest and funding answers carry the same bodies give the
    same result, whatever their status codes (an error status with a
    well-formed body is read like a success). *)
Theorem X16_bybit_ignores_status (float_of_str : string -> result Q)
        (w w' : world) :
  same_body (w_open_interest w) (w_open_interest w') ->
  same_body (w_funding w) (w_funding w') ->
  get_bybit_data float_of_str w = get_bybit_data float_of_str w'.
Proof.
  intros Ha Hb. unfold get_bybit_data. now apply bybit_body_same.
Qed.

Lemma X16_bybit_ignores_status_witness :
  same_body (w_open_interest (exchange_b_world 500))
            (w_open_interest (exchange_b_world 200))
  /\ same_body (w_funding (exchange_b_world 500))
               (w_funding (exchange_b_world 200))
  /\ get_bybit_data decimal_literal (exchange_b_world 500)
     = get_bybit_data decimal_literal (exchange_b_world 200)
  /\ oi_latest (get_bybit_data decimal_literal (exchange_b_world 500)) == 29500.
Proof.
  split; [reflexivity |]. split; [reflexivity |].
  split; [| reflexivity].
  apply (X16_bybit_ignores_status decimal_literal); reflexivity.
Defined.

(** X17: the exchange-B adapter is all or nothing: it returns either the
    fallback pair (open interest 29000, funding rate 0.00001) or a pair
    whose two values were both read under the ["result"] entries of the
    two responses; it falls back whenever a request raises, a body is not
    JSON, or a ["result"] entry is missing. *)
Theorem X17_bybit_all_or_nothing (float_of_str : string -> result Q) (w : world) :
  (get_bybit_data float_of_str w
   = {| oi_latest := 29000; funding_rate := 1 # 100000 |}
   \/ exists r q oi funding oi_result funding_result oi_field funding_field,
       w_open_interest w = Ok r /\ json r = Ok oi
       /\ w_funding w = Ok q /\ json q = Ok funding
       /\ py_getitem oi "result" = Ok oi_result
       /\ py_getitem oi_result "open_interest" = Ok oi_field
       /\ py_float float_of_str oi_field
          = Ok (oi_latest (get_bybit_data float_of_str w))
       /\ py_getitem funding "result" = Ok funding_result
       /\ py_getitem funding_result "funding_rate" = Ok funding_field
       /\ py_float float_of_str funding_field
          = Ok (funding_rate (get_bybit_data float_of_str w)))
  /\ ((forall r, w_open_interest w = Ok r ->
                 forall oi, json r = Ok oi ->
                            py_contains "result" oi <> Ok true) ->
      get_bybit_data float_of_str w = bybit_fallback)
  /\ ((forall q, w_funding w = Ok q ->
                 forall funding, json q = Ok funding ->
                                 py_contains "result" funding <> Ok true) ->
      get_bybit_data float_of_str w = bybit_fallback).
Proof.
  unfold get_bybit_data.
  destruct (bybit_body float_of_str (w_open_interest w) (w_funding w))
    as [bag | e] eqn:E; simpl.
  - split; [right; apply bybit_body_inv; exact E |].
    unfold bybit_body in E.
    bind_ok E r E1. bind_ok E oi E2. bind_ok E q E3. bind_ok E funding E4.
    bind_ok E has_oi E5. bind_ok E has_funding E6. bind_ok E u E7.
    destruct has_oi; [| discriminate E7].
    destruct has_funding; [| discriminate E7].
    split; intro Hno; exfalso.
    + exact (Hno r eq_refl oi E2 E5).
    + exact (Hno q eq_refl funding E4 E6).
  - split; [left; reflexivity |]. split; intros _; reflexivity.
Qed.

Lemma X17_bybit_all_or_nothing_witness :
  (forall r, w_open_interest quiet_minute_world = Ok r ->
             forall oi, json r = Ok oi -> py_contains "result" oi <> Ok true)
  /\ get_bybit_data decimal_literal quiet_minute_world = bybit_fallback.
Proof.
  assert (H : forall r, w_open_interest quiet_minute_world = Ok r ->
                        forall oi, json r = Ok oi ->
                                   py_contains "result" oi <> Ok true)
    by (intros r Hr; discriminate Hr).
  split; [exact H |].
  apply (proj1 (proj2 (X17_bybit_all_or_nothing decimal_literal quiet_minute_world))).
  exact H.
Defined.

(** ** The liquidation adapter, further *)

(** X18: a side of the liquidation result holds the prices of the first
    two entries of its list, in order; what comes after the second entry
    is never looked at, so it may even be malformed. *)
Theorem X18_liquidation_takes_first_two (w : world) (res : response)
        (d inner e1 e2 : list (string * value)) (rest : list value)
        (p1 p2 : value) (ss : list value) :
  key_missing (w_api_key w) = false ->
  w_liquidation w = Ok res -> status_code res = 200%Z ->
  json res = Ok (VDict d) ->
  dict_get d "data" = Some (VDict inner) ->
  dict_get inner "longLiquidationList"
  = Some (VList (VDict e1 :: VDict e2 :: rest)) ->
  dict_get e1 "price" = Some p1 ->
  dict_get e2 "price" = Some p2 ->
  liquidation_side (VDict d) "shortLiquidationList" = Ok ss ->
  fst (get_coinglass_liquidations w) = [p1; p2].
Proof.
  intros Hk Hr Hs Hj Hd Hl H1 H2 Hss.
  unfold get_coinglass_liquidations, coinglass_body.
  apply Z.eqb_eq in Hs.
  rewrite Hk, bind_Ok, Hr, bind_Ok, Hs, Hj, bind_Ok.
  assert (Hlong : liquidation_side (VDict d) "longLiquidationList"
                  = Ok [p1; p2]).
  { unfold liquidation_side. simpl. rewrite Hd. simpl. rewrite Hl. simpl.
    rewrite H1. simpl. rewrite H2. reflexivity. }
  rewrite Hlong, bind_Ok, Hss, bind_Ok. reflexivity.
Qed.

Lemma X18_liquidation_takes_first_two_witness :
  fst (get_coinglass_liquidations
         (liquidation_world
            (liquidation_payload
               (VList [priced 61000; priced 60500; VStr "truncated"])
               (VList []))))
  = [VInt 61000; VInt 60500].
Proof.
  apply (X18_liquidation_takes_first_two _
           {| status_code := 200;
              json := Ok (liquidation_payload
                            (VList [priced 61000; priced 60500;
                                    VStr "truncated"])
                            (VList [])) |}
           [("data"%string,
             VDict [("longLiquidationList"%string,
                     VList [priced 61000; priced 60500; VStr "truncated"]);
                    ("shortLiquidationList"%string, VList [])])]
           [("longLiquidationList"%string,
             VList [priced 61000; priced 60500; VStr "truncated"]);
            ("shortLiquidationList"%string, VList [])]
           [("price"%string, VInt 61000)] [("price"%string, VInt 60500)]
           [VStr "truncated"] (VInt 61000) (VInt 60500) []);
    reflexivity.
Defined.

(** X19: the two sides are not independent when an entry is malformed: if
    reading either list raises (an entry among the first two without a
    ["price"], a list that is no list), both sides are [0, 0], even when
    the other list was read. *)
Theorem X19_liquidation_bad_entry_clears_both (w : world) (res : response)
        (data : value) (e : exn) :
  w_liquidation w = Ok res ->
  json res = Ok data ->
  (liquidation_side data "longLiquidationList" = Raise e
   \/ liquidation_side data "shortLiquidationList" = Raise e) ->
  get_coinglass_liquidations w = ([VInt 0; VInt 0], [VInt 0; VInt 0]).
Proof.
  intros Hr Hj Hbad.
  unfold get_coinglass_liquidations, coinglass_body.
  destruct (key_missing (w_api_key w)); [reflexivity |].
  rewrite bind_Ok, Hr, bind_Ok.
  destruct (status_code res =? 200)%Z; [| reflexivity].
  rewrite Hj, bind_Ok.
  destruct Hbad as [Hl | Hs].
  - rewrite Hl. reflexivity.
  - destruct (liquidation_side data "longLiquidationList");
      [rewrite bind_Ok, Hs |]; reflexivity.
Qed.

Lemma X19_liquidation_bad_entry_clears_both_witness :
  liquidation_side
    (liquidation_payload (VList [priced 61000; priced 60500])
                         (VList [VDict [("qty"%string, VInt 3)]]))
    "longLiquidationList"
  = Ok [VInt 61000; VInt 60500]
  /\ get_coinglass_liquidations
       (liquidation_world
          (liquidation_payload (VList [priced 61000; priced 60500])
                               (VList [VDict [("qty"%string, VInt 3)]])))
     = ([VInt 0; VInt 0], [VInt 0; VInt 0]).
Proof.
  split; [reflexivity |].
  apply (X19_liquidation_bad_entry_clears_both _
           {| status_code := 200;
              json := Ok (liquidation_payload
                            (VList [priced 61000; priced 60500])
                            (VList [VDict [("qty"%string, VInt 3)]])) |}
           (liquidation_payload (VList [priced 61000; priced 60500])
                                (VList [VDict [("qty"%string, VInt 3)]]))
           KeyError).
  - reflexivity.
  - reflexivity.
  - right. reflexivity.
Defined.

(** ** The long-horizon block of [main] *)

Lemma ema_run_within (m lo hi : Q) (l : list Q) (prev : Q) :
  0 <= m <= 1 -> lo <= prev <= hi -> within lo hi l ->
  lo <= ema_run m prev l <= hi.
Proof.
  intro Hm. revert prev. induction l as [| p l IH]; intros prev Hprev Hl.
  - exact Hprev.
  - inversion Hl as [| p' l' Hp Hl']; subst.
    unfold ema_run. simpl fold_left. apply IH; [| exact Hl'].
    unfold ema_step.
    assert (H1 : 0 <= (p - lo) * m + (prev - lo) * (1 - m)).
    { apply Qle_trans with (0 + 0); [lra |].
      apply Qplus_le_compat; apply Qmult_le_0_compat; lra. }
    assert (H2 : 0 <= (hi - p) * m + (hi - prev) * (1 - m)).
    { apply Qle_trans with (0 + 0); [lra |].
      apply Qplus_le_compat; apply Qmult_le_0_compat; lra. }
    assert (E1 : p * m + prev * (1 - m) - lo
                 == (p - lo) * m + (prev - lo) * (1 - m)) by ring.
    assert (E2 : hi - (p * m + prev * (1 - m))
                 == (hi - p) * m + (hi - prev) * (1 - m)) by ring.
    lra.
Qed.

Section LongHorizon.

Variable float_of_str : string -> result Q.

Lemma long_horizon_value (resp : http) (r : response) (klines : value)
      (rows : list value) (p0 : Q) (rest : list Q) :
  resp = Ok r -> json r = Ok klines -> py_iter klines = Ok rows ->
  column float_of_str 4 rows = Ok (p0 :: rest) ->
  long_horizon float_of_str resp
  = (ema_run (ema_multiplier 20) p0 rest, ema_run (ema_multiplier 50) p0 rest).
Proof.
  intros Hr Hj Hi Hc. unfold long_horizon, long_horizon_body.
  rewrite Hr, bind_Ok, Hj, bind_Ok, Hi, bind_Ok, Hc, bind_Ok.
  destruct (calculate_ema_last p0 rest 20) as [e20 [H20 L20]]; [lia |].
  destruct (calculate_ema_last p0 rest 50) as [e50 [H50 L50]]; [lia |].
  rewrite H20, bind_Ok, L20, bind_Ok, H50, bind_Ok, L50, bind_Ok.
  reflexivity.
Qed.

Lemma long_horizon_cases (resp : http) :
  long_horizon float_of_str resp = (60000, 59000)
  \/ exists r klines rows p0 rest,
      resp = Ok r /\ json r = Ok klines /\ py_iter klines = Ok rows
      /\ column float_of_str 4 rows = Ok (p0 :: rest).
Proof.
  unfold long_horizon.
  destruct (long_horizon_body float_of_str resp) as [v |] eqn:E;
    [| left; reflexivity].
  right. unfold long_horizon_body in E.
  bind_ok E r E1. bind_ok E klines E2. bind_ok E rows E3. bind_ok E closes E4.
  bind_ok E e20 E5.
  destruct closes as [| p0 rest]; [discriminate E5 |].
  exists r, klines, rows, p0, rest. repeat split; assumption.
Qed.

End LongHorizon.

(** X20: the 4-hour block of [main] is all or nothing and never looks at
    the status code: it yields the pair (60000, 59000) on any failure, an
    empty list of candles included, and otherwise the last values of the
    20-period and 50-period EMAs of the closes, both of which lie within
    the range of those closes. *)
Theorem X20_long_horizon (float_of_str : string -> result Q) (resp : http) :
  (long_horizon float_of_str resp = (60000, 59000)
   \/ exists r klines rows closes e20 e50,
       resp = Ok r /\ json r = Ok klines /\ py_iter klines = Ok rows
       /\ column float_of_str 4 rows = Ok closes
       /\ calculate_ema closes 20 = Ok e20
       /\ py_last e20 = Ok (fst (long_horizon float_of_str resp))
       /\ calculate_ema closes 50 = Ok e50
       /\ py_last e50 = Ok (snd (long_horizon float_of_str resp)))
  /\ (forall e, resp = Raise e ->
                long_horizon float_of_str resp = (60000, 59000))
  /\ (forall r, resp = Ok r -> json r = Ok (VList []) ->
                long_horizon float_of_str resp = (60000, 59000))
  /\ (forall r klines rows closes lo hi,
        resp = Ok r -> json r = Ok klines -> py_iter klines = Ok rows ->
        column float_of_str 4 rows = Ok closes -> closes <> [] ->
        within lo hi closes ->
        lo <= fst (long_horizon float_of_str resp) <= hi
        /\ lo <= snd (long_horizon float_of_str resp) <= hi).
Proof.
  split; [| split; [| split]].
  - destruct (long_horizon_cases float_of_str resp)
      as [H | [r [klines [rows [p0 [rest [Hr [Hj [Hi Hc]]]]]]]]];
      [left; exact H | right].
    rewrite (long_horizon_value float_of_str resp r klines rows p0 rest Hr Hj Hi Hc).
    destruct (calculate_ema_last p0 rest 20) as [e20 [H20 L20]]; [lia |].
    destruct (calculate_ema_last p0 rest 50) as [e50 [H50 L50]]; [lia |].
    exists r, klines, rows, (p0 :: rest), e20, e50.
    repeat (split; [assumption |]). assumption.
  - intros e ->. reflexivity.
  - intros r -> Hj. unfold long_horizon, long_horizon_body.
    rewrite bind_Ok, Hj. reflexivity.
  - intros r klines rows closes lo hi Hr Hj Hi Hc Hne Hw.
    destruct closes as [| p0 rest]; [contradiction |].
    rewrite (long_horizon_value float_of_str resp r klines rows p0 rest Hr Hj Hi Hc).
    inversion Hw as [| x l Hp Hrest]; subst.
    simpl fst. simpl snd.
    split; apply ema_run_within; try assumption.
    + destruct (ema_multiplier_range 20); [lia | lra].
    + destruct (ema_multiplier_range 50); [lia | lra].
Qed.

Lemma X20_long_horizon_witness :
  within 60000 61000 [600000 / 10; 610000 / 10]
  /\ 60000 <= fst (long_horizon decimal_literal
                      (answer 503 (VList [kline "60000.0" "1" "1";
                                          kline "61000.0" "1" "1"])))
     <= 61000.
Proof.
  assert (Hw : within 60000 61000 [600000 / 10; 610000 / 10])
    by (repeat constructor; apply Qle_bool_iff; reflexivity).
  split; [exact Hw |].
  destruct (X20_long_horizon decimal_literal
              (answer 503 (VList [kline "60000.0" "1" "1";
                                  kline "61000.0" "1" "1"])))
    as [_ [_ [_ H]]].
  apply (H {| status_code := 503;
              json := Ok (VList [kline "60000.0" "1" "1";
                                 kline "61000.0" "1" "1"]) |}
           (VList [kline "60000.0" "1" "1"; kline "61000.0" "1" "1"])
           [kline "60000.0" "1" "1"; kline "61000.0" "1" "1"]
           [600000 / 10; 610000 / 10] 60000 61000);
    try reflexivity; [discriminate | exact Hw].
Defined.

(** ** The outcome of [main] *)

Lemma volume_fields_ok (b : binance_bag) (v : Q) :
  taker_buy_volumes b <> [] ->
  py_last (volumes b) = Ok v ->
  ~ v == 0 ->
  exists vf, volume_fields_of b = Ok vf /\ cur_vol vf = v.
Proof.
  intros Ht Hv Hnz. unfold volume_fields_of.
  destruct (py_last_ok _ Ht) as [t Hlast].
  rewrite Hv, bind_Ok, py_div_ok, bind_Ok.
  - rewrite Hlast, !bind_Ok, py_div_ok, bind_Ok by exact Hnz.
    eexists. split; reflexivity.
  - apply length_pos_inject.
    destruct (volumes b); [discriminate Hv | simpl; lia].
Qed.

Lemma compute_indicators_zero_price (float_of_str : string -> result Q)
      (b : binance_bag) (resp : http) (price : Q) :
  py_last (mid_prices b) = Ok price -> price == 0 ->
  compute_indicators float_of_str b resp = Raise ZeroDivisionError.
Proof.
  intros Hlast Hz.
  destruct (compute_indicators_shape float_of_str b resp) as
    [price' [e [ema_now [macds [rsis [atr [H1 [_ [_ [_ [_ [_ H]]]]]]]]]]]].
  { intro E. rewrite E in Hlast. discriminate. }
  rewrite Hlast in H1. injection H1 as <-.
  now rewrite H, (py_div_zero atr price Hz).
Qed.

(** X21: the report is written only when neither the last price nor the
    last volume the exchange-A adapter returned is 0 (both always exist):
    if either is 0 [main] ends with [ZeroDivisionError] and the file
    system is left as it was; if neither is 0 then, in exact arithmetic and
    on a file system that accepts the write, the report is written and
    [main] returns. *)
Theorem X21_main_outcome (float_of_str : string -> result Q)
        (w : world) (fs : fs_state) :
  exists price vol,
    py_last (mid_prices (get_binance_data float_of_str w)) = Ok price
    /\ py_last (volumes (get_binance_data float_of_str w)) = Ok vol
    /\ (~ price == 0 -> ~ vol == 0 ->
        exists out,
          main float_of_str w fs = (write_report fs out, Ok tt)
          /\ btc_data_txt (fst (main float_of_str w fs)) = Some out
          /\ public_dir (fst (main float_of_str w fs)) = true)
    /\ (price == 0 \/ vol == 0 ->
        main float_of_str w fs = (fs, Raise ZeroDivisionError)).
Proof.
  destruct (get_binance_data_series float_of_str w) as [Hp [Hlv Hlt]].
  set (b := get_binance_data float_of_str w) in *.
  assert (Hv : volumes b <> []).
  { intro E. rewrite E in Hlv. destruct (mid_prices b); [contradiction | discriminate]. }
  assert (Ht : taker_buy_volumes b <> []).
  { intro E. rewrite E in Hlt. destruct (mid_prices b); [contradiction | discriminate]. }
  destruct (py_last_ok _ Hp) as [price Hprice].
  destruct (py_last_ok _ Hv) as [vol Hvol].
  exists price, vol. split; [exact Hprice |]. split; [exact Hvol |].
  split.
  - intros Hnp Hnv.
    destruct (compute_indicators_nonzero float_of_str b (w_klines_4h w)
                price Hprice Hnp) as [ind Hc].
    destruct (volume_fields_ok b vol Ht Hvol Hnv) as [vf [Hvf _]].
    exists (template (w_now w) b (get_bybit_data float_of_str w)
                     (fst (get_coinglass_liquidations w))
                     (snd (get_coinglass_liquidations w)) ind vf).
    assert (Hrun : main float_of_str w fs
                   = (write_report fs
                        (template (w_now w) b (get_bybit_data float_of_str w)
                                  (fst (get_coinglass_liquidations w))
                                  (snd (get_coinglass_liquidations w)) ind vf),
                      Ok tt))
      by (unfold main; fold b; apply run_ok; assumption).
    rewrite Hrun. repeat split.
  - intros [Hz | Hz]; unfold main, run; fold b.
    + now rewrite (compute_indicators_zero_price float_of_str b _ price Hprice Hz).
    + unfold build_report. rewrite (volume_fields_zero b vol Ht Hvol Hz).
      destruct (compute_indicators_outcome float_of_str b (w_klines_4h w) Hp)
        as [[ind ->] | ->]; reflexivity.
Qed.

Lemma X21_main_outcome_witness :
  exists out,
    main decimal_literal status_300_world fs_empty
    = (write_report fs_empty out, Ok tt).
Proof.
  destruct (X21_main_outcome decimal_literal status_300_world fs_empty)
    as [price [vol [Hp [Hv [Hok _]]]]].
  assert (Ep : price = 610005 / 10).
  { assert (E : py_last (mid_prices (get_binance_data decimal_literal
                                                       status_300_world))
                = Ok (610005 / 10)) by reflexivity.
    rewrite E in Hp. now injection Hp. }
  assert (Ev : vol = 25 / 10).
  { assert (E : py_last (volumes (get_binance_data decimal_literal
                                                     status_300_world))
                = Ok (25 / 10)) by reflexivity.
    rewrite E in Hv. now injection Hv. }
  destruct Hok as [out [Hrun _]].
  - rewrite Ep. intro H. discriminate H.
  - rewrite Ev. intro H. discriminate H.
  - exists out. exact Hrun.
Defined.

(** ** The indicators of a run, further *)

Section IndicatorFields.

Variable float_of_str : string -> result Q.

Lemma compute_indicators_fields (b : binance_bag) (resp : http) (ind : indicators) :
  compute_indicators float_of_str b resp = Ok ind ->
  exists e,
    calculate_ema (mid_prices b) 20 = Ok e
    /\ ema20_list ind = py_tail_slice 10 e
    /\ py_last (ema20_list ind) = Ok (ema20 ind)
    /\ rolling_macd (mid_prices b) = Ok (macd_list ind)
    /\ current_macd ind = last_or (macd_list ind) 0
    /\ rolling_rsi7 (mid_prices b) = Ok (rsi7_list ind)
    /\ current_rsi7 ind = last_or (rsi7_list ind) 50
    /\ atr14_of (mid_prices b) = Ok (atr14 ind)
    /\ py_last (mid_prices b) = Ok (current_price ind)
    /\ (ema20_4h ind, ema50_4h ind) = long_horizon float_of_str resp.
Proof.
  intro H.
  destruct (mid_prices b) as [| p0 rest] eqn:Eb.
  { unfold compute_indicators in H. rewrite Eb in H. discriminate. }
  destruct (compute_indicators_shape float_of_str b resp) as
    [price [e [ema_now [macds [rsis [atr [H1 [H2 [H3 [H4 [H5 [H6 H7]]]]]]]]]]]].
  { rewrite Eb. discriminate. }
  rewrite Eb in *. rewrite H7 in H. unfold py_div in H.
  destruct (Qeq_bool price 0); [discriminate |].
  rewrite bind_Ok in H. injection H as <-. simpl.
  exists e. repeat (split; [assumption || reflexivity |]).
  now destruct (long_horizon float_of_str resp).
Qed.

End IndicatorFields.

(** X22: the defaults of short series: when the primary series has fewer
    than 10 prices the MACD list is empty and current_macd is 0; when it
    has fewer than 8 the RSI list is empty and current_rsi7 is 50; and in
    general the lists have [len + 1 - 10] and [len + 1 - 8] entries and
    the EMA list the last [min 10 len] EMA values. *)
Theorem X22_short_series_defaults (float_of_str : string -> result Q)
        (b : binance_bag) (resp : http) (ind : indicators) :
  compute_indicators float_of_str b resp = Ok ind ->
  ((length (mid_prices b) < 10)%nat ->
   macd_list ind = [] /\ current_macd ind = 0)
  /\ ((length (mid_prices b) < 8)%nat ->
      rsi7_list ind = [] /\ current_rsi7 ind = 50)
  /\ length (macd_list ind) = (length (mid_prices b) + 1 - 10)%nat
  /\ length (rsi7_list ind) = (length (mid_prices b) + 1 - 8)%nat
  /\ length (ema20_list ind) = Nat.min 10 (length (mid_prices b)).
Proof.
  intro H.
  destruct (compute_indicators_fields float_of_str b resp ind H)
    as [e [He [Hl [_ [Hm [Hcm [Hr [Hcr _]]]]]]]].
  destruct (rolling_macd_ok (mid_prices b)) as [macds [Hm' Lm]].
  destruct (rolling_rsi7_ok (mid_prices b)) as [rsis [Hr' Lr]].
  rewrite Hm in Hm'. injection Hm' as <-.
  rewrite Hr in Hr'. injection Hr' as <-.
  assert (Hne : mid_prices b <> []).
  { intro E. rewrite E in He. discriminate. }
  destruct (calculate_ema_ok (mid_prices b) 20 Hne) as [e' [He' Le]]; [lia |].
  rewrite He in He'. injection He' as <-.
  split; [| split; [| split; [| split]]].
  - intro Hlen. assert (E : macd_list ind = []).
    { destruct (macd_list ind); [reflexivity | simpl in Lm; lia]. }
    split; [exact E | now rewrite Hcm, E].
  - intro Hlen. assert (E : rsi7_list ind = []).
    { destruct (rsi7_list ind); [reflexivity | simpl in Lr; lia]. }
    split; [exact E | now rewrite Hcr, E].
  - exact Lm.
  - exact Lr.
  - rewrite Hl. unfold py_tail_slice. rewrite length_skipn. lia.
Qed.

Lemma X22_short_series_defaults_witness :
  exists ind,
    compute_indicators decimal_literal
      {| mid_prices := [100; 101; 102]; volumes := [1; 1; 1];
         taker_buy_volumes := [1; 1; 1]; order_book_imbalance := 0;
         bid_vol_top5 := 1; ask_vol_top5 := 1 |}
      (Raise ConnectionError) = Ok ind
    /\ macd_list ind = [] /\ current_macd ind = 0
    /\ rsi7_list ind = [] /\ current_rsi7 ind = 50.
Proof.
  destruct (compute_indicators_nonzero decimal_literal
              {| mid_prices := [100; 101; 102]; volumes := [1; 1; 1];
                 taker_buy_volumes := [1; 1; 1]; order_book_imbalance := 0;
                 bid_vol_top5 := 1; ask_vol_top5 := 1 |}
              (Raise ConnectionError) 102) as [ind Hc];
    [reflexivity | lra |].
  exists ind. split; [exact Hc |].
  destruct (X22_short_series_defaults decimal_literal _ _ ind Hc)
    as [Hm [Hr _]].
  destruct Hm as [Hm1 Hm2]; [simpl; lia |].
  destruct Hr as [Hr1 Hr2]; [simpl; lia |].
  repeat split; assumption.
Defined.

Lemma mapM_Forall {A B : Type} (f : A -> result B) (P : B -> Prop)
      (l : list A) (ys : list B) :
  (forall x y, f x = Ok y -> P y) -> mapM f l = Ok ys -> Forall P ys.
Proof.
  intro Hf. revert ys. induction l as [| x l IH]; intros ys H; simpl in H.
  - injection H as <-. constructor.
  - destruct (f x) as [y |] eqn:Ex; [| discriminate].
    rewrite bind_Ok in H.
    destruct (mapM f l) as [zs |]; [| discriminate].
    rewrite bind_Ok in H. injection H as <-.
    constructor; [exact (Hf x y Ex) | apply IH; reflexivity].
Qed.

Lemma high_low_nonneg (x y : Q) : 0 <= py_max x y - py_min x y.
Proof.
  unfold py_max, py_min.
  destruct (Qltb x y) eqn:E1; destruct (Qltb y x) eqn:E2;
    try apply Qltb_true in E1; try apply Qltb_true in E2;
    try apply Qltb_false in E1; try apply Qltb_false in E2; lra.
Qed.

Lemma atr14_nonneg (prices : list Q) (atr : Q) :
  atr14_of prices = Ok atr -> 0 <= atr.
Proof.
  unfold atr14_of. cbv zeta.
  destruct (14 <=? length (high_low_of prices))%nat.
  - rewrite py_div_ok by lra. intro H. injection H as <-.
    apply Qle_shift_div_l; [lra |].
    assert (Hs : 0 <= py_sum (py_tail_slice 14 (high_low_of prices))).
    { apply py_sum_nonneg. rewrite Forall_forall. intros h Hh.
      unfold py_tail_slice in Hh.
      assert (Hin : In h (high_low_of prices)).
      { rewrite <- (firstn_skipn (length (high_low_of prices) - 14)
                                 (high_low_of prices)).
        apply in_or_app. right. exact Hh. }
      unfold high_low_of in Hin. apply in_map_iff in Hin.
      destruct Hin as [i [<- _]]. apply high_low_nonneg. }
    unfold py_tail_slice in Hs. lra.
  - intro H. injection H as <-. lra.
Qed.

Lemma within_skipn_tail (lo hi : Q) (n : nat) (l : list Q) :
  within lo hi l -> within lo hi (py_tail_slice n l).
Proof.
  intro H. unfold py_tail_slice. destruct n; [exact H |].
  apply within_skipn. exact H.
Qed.

Lemma calculate_ema_within (prices : list Q) (period : Z) (lo hi : Q)
      (e : list Q) :
  (1 <= period)%Z -> within lo hi prices ->
  calculate_ema prices period = Ok e -> within lo hi e.
Proof.
  intros Hp Hw He.
  destruct (calculate_ema_inv prices period e He) as [p0 [rest [-> ->]]].
  inversion Hw as [| x l Hx Hl]; subst.
  apply ema_loop_within.
  - destruct (ema_multiplier_range period Hp). split; lra.
  - discriminate.
  - constructor; [exact Hx | constructor].
  - exact Hl.
Qed.

(** X23: the indicators of a run are in range: every value of the RSI
    list and current_rsi7 lie between 0 and 100, the ATR is not negative,
    and if every price lies between two bounds then so do the current
    price, current_ema20 and every value of the EMA list. *)
Theorem X23_indicator_ranges (float_of_str : string -> result Q)
        (b : binance_bag) (resp : http) (ind : indicators) :
  compute_indicators float_of_str b resp = Ok ind ->
  Forall (fun r => 0 <= r <= 100) (rsi7_list ind)
  /\ 0 <= current_rsi7 ind <= 100
  /\ 0 <= atr14 ind
  /\ (forall lo hi,
        within lo hi (mid_prices b) ->
        lo <= current_price ind <= hi
        /\ lo <= ema20 ind <= hi
        /\ within lo hi (ema20_list ind)).
Proof.
  intro H.
  destruct (compute_indicators_fields float_of_str b resp ind H)
    as [e [He [Hl [Hlast [_ [_ [Hr [Hcr [Ha [Hp _]]]]]]]]]].
  assert (Hrsi : Forall (fun r => 0 <= r <= 100) (rsi7_list ind)).
  { unfold rolling_rsi7 in Hr.
    apply (mapM_Forall _ (fun r => 0 <= r <= 100) _ _) in Hr; [exact Hr |].
    intros i y Hy.
    destruct (calculate_rsi_bounds (firstn i (mid_prices b)) 7) as [v [Hv Hb]];
      [lia |].
    rewrite Hv, bind_Ok in Hy. injection Hy as <-.
    apply (py_round_bounds 3 v 0 100). exact Hb. }
  split; [exact Hrsi |].
  split.
  { rewrite Hcr. unfold last_or.
    destruct (rsi7_list ind) as [| r0 rs] eqn:E; [lra |].
    rewrite Forall_forall in Hrsi. apply Hrsi. apply last_in. discriminate. }
  split; [exact (atr14_nonneg _ _ Ha) |].
  intros lo hi Hw.
  assert (Hwe : within lo hi (ema20_list ind)).
  { rewrite Hl. apply within_skipn_tail.
    apply (calculate_ema_within (mid_prices b) 20 lo hi e);
      [lia | exact Hw | exact He]. }
  split; [| split; [| exact Hwe]].
  - rewrite (py_last_last _ _ Hp).
    unfold within in Hw. rewrite Forall_forall in Hw. apply Hw.
    apply last_in. intro E. rewrite E in Hp. discriminate.
  - rewrite (py_last_last _ _ Hlast).
    unfold within in Hwe. rewrite Forall_forall in Hwe. apply Hwe.
    apply last_in. intro E. rewrite E in Hlast. discriminate.
Qed.

Lemma X23_indicator_ranges_witness :
  exists ind,
    compute_indicators decimal_literal scenario_bag (Raise ConnectionError) = Ok ind
    /\ 0 <= current_rsi7 ind <= 100
    /\ 100 <= ema20 ind <= 109.
Proof.
  destruct (compute_indicators_nonzero decimal_literal scenario_bag
              (Raise ConnectionError) 109) as [ind Hc];
    [reflexivity | lra |].
  exists ind. split; [exact Hc |].
  destruct (X23_indicator_ranges decimal_literal _ _ ind Hc)
    as [_ [Hr [_ Hw]]].
  split; [exact Hr |].
  destruct (Hw 100 109) as [_ [He _]]; [| exact He].
  repeat constructor; apply Qle_bool_iff; reflexivity.
Defined.

(** ** A complete outage *)

(** X24: when every source is down (the candle, open-interest and 4-hour
    requests raise, and the liquidation request raises or the credential
    is missing), [main] still writes a report, made of fallback values
    only: price 60000, open interest 29000, funding rate 0.00001,
    liquidation levels [0, 0], 4-hour EMAs 60000 and 59000, regime
    "low". *)
Theorem X24_report_under_full_outage (float_of_str : string -> result Q)
        (w : world) (fs : fs_state) :
  (exists e, w_klines_1m w = Raise e) ->
  (exists e, w_open_interest w = Raise e) ->
  (key_missing (w_api_key w) = true \/ exists e, w_liquidation w = Raise e) ->
  (exists e, w_klines_4h w = Raise e) ->
  exists ind vf,
    main float_of_str w fs
    = (write_report fs
         (template (w_now w) binance_fallback bybit_fallback
                   [VInt 0; VInt 0] [VInt 0; VInt 0] ind vf),
       Ok tt)
    /\ current_price ind = 60000
    /\ ema20_4h ind = 60000
    /\ ema50_4h ind = 59000
    /\ atr14 ind = 0
    /\ vol_regime ind = Low.
Proof.
  intros [e1 H1] [e2 H2] H3 [e4 H4].
  assert (Hb : get_binance_data float_of_str w = binance_fallback)
    by (unfold get_binance_data, binance_body; now rewrite H1).
  assert (Hy : get_bybit_data float_of_str w = bybit_fallback)
    by (unfold get_bybit_data, bybit_body; now rewrite H2).
  assert (Hl : get_coinglass_liquidations w
               = ([VInt 0; VInt 0], [VInt 0; VInt 0])).
  { unfold get_coinglass_liquidations, coinglass_body.
    destruct H3 as [Hk | [e3 Hk]].
    - now rewrite Hk.
    - rewrite Hk. now destruct (key_missing (w_api_key w)). }
  destruct (short_series_indicators float_of_str binance_fallback
              (w_klines_4h w) 60000)
    as [ind [Hc [Hp [Ha [Hr _]]]]]; [simpl; lia | reflexivity | lra |].
  destruct (compute_indicators_fields float_of_str _ _ ind Hc)
    as [_ [_ [_ [_ [_ [_ [_ [_ [_ [_ Hlh]]]]]]]]]].
  rewrite H4 in Hlh. injection Hlh as H20 H50.
  assert (Hvf : exists vf, volume_fields_of binance_fallback = Ok vf)
    by (eexists; reflexivity).
  destruct Hvf as [vf Hvf].
  exists ind, vf.
  split.
  - unfold main. rewrite Hb, Hy, Hl.
    rewrite (run_ok float_of_str binance_fallback bybit_fallback _ _ _ fs
                    ind vf Hc Hvf).
    reflexivity.
  - repeat split; assumption.
Qed.

Lemma X24_report_under_full_outage_witness :
  exists out,
    main decimal_literal outage_world fs_empty = (write_report fs_empty out, Ok tt).
Proof.
  destruct (X24_report_under_full_outage decimal_literal outage_world fs_empty)
    as [ind [vf [Hrun _]]].
  - exists ConnectionError. reflexivity.
  - exists ConnectionError. reflexivity.
  - right. exists ConnectionError. reflexivity.
  - exists ConnectionError. reflexivity.
  - eexists. exact Hrun.
Defined.

(** ** Current values and volume fields *)

Lemma mapM_last {A : Type} (f : A -> result Q) (l : list A) (ys : list Q) (d : A) :
  mapM f l = Ok ys -> l <> [] -> f (last l d) = Ok (last ys 0).
Proof.
  intros H Hne.
  pose proof (mapM_length f l ys H) as Hlen.
  assert (Hk : (length ys - 1 < length ys)%nat).
  { destruct l; [contradiction | simpl in Hlen; lia]. }
  destruct (mapM_nth f l ys H (length ys - 1) (last ys 0)) as [x [Hx Hf]].
  - rewrite last_as_nth. apply nth_error_nth'. exact Hk.
  - rewrite (last_as_nth l d), <- Hlen.
    rewrite (nth_error_nth _ _ d Hx). exact Hf.
Qed.

Lemma py_range_last (a b : nat) :
  (a < b)%nat -> last (py_range a b) 0%nat = (b - 1)%nat.
Proof.
  intro H. unfold py_range.
  replace (b - a)%nat with (S (b - a - 1)) by lia.
  rewrite seq_S, last_last. lia.
Qed.

(** X25: the current values of a run are the indicators of the whole
    primary series: with at least 10 prices current_macd is the MACD of
    the series rounded to 3 decimals, with at least 8 prices current_rsi7
    is its RSI rounded to 3 decimals, and current_ema20 is the last value
    of its 20-period EMA. *)
Theorem X25_current_values (float_of_str : string -> result Q)
        (b : binance_bag) (resp : http) (ind : indicators) :
  compute_indicators float_of_str b resp = Ok ind ->
  ((10 <= length (mid_prices b))%nat ->
   exists v, calculate_macd (mid_prices b) = Ok v
             /\ current_macd ind = py_round v 3)
  /\ ((8 <= length (mid_prices b))%nat ->
      exists v, calculate_rsi (mid_prices b) 7 = Ok v
                /\ current_rsi7 ind = py_round v 3)
  /\ exists e, calculate_ema (mid_prices b) 20 = Ok e
               /\ py_last e = Ok (ema20 ind).
Proof.
  intro H.
  destruct (compute_indicators_fields float_of_str b resp ind H)
    as [e [He [Hl [Hlast [Hm [Hcm [Hr [Hcr _]]]]]]]].
  split; [| split].
  - intro Hlen. unfold rolling_macd in Hm.
    assert (Hne : py_range 10 (length (mid_prices b) + 1) <> []).
    { unfold py_range.
      replace (length (mid_prices b) + 1 - 10)%nat
        with (S (length (mid_prices b) - 10)) by lia.
      discriminate. }
    pose proof (mapM_last _ _ _ 0%nat Hm Hne) as Hf.
    rewrite py_range_last in Hf by lia.
    replace (length (mid_prices b) + 1 - 1)%nat with (length (mid_prices b))
      in Hf by lia.
    rewrite firstn_all in Hf.
    destruct (calculate_macd (mid_prices b)) as [v |]; [| discriminate].
    rewrite bind_Ok in Hf. injection Hf as Hf.
    exists v. split; [reflexivity |].
    rewrite Hcm, Hf. unfold last_or.
    destruct (macd_list ind); reflexivity.
  - intro Hlen. unfold rolling_rsi7 in Hr.
    assert (Hne : py_range 8 (length (mid_prices b) + 1) <> []).
    { unfold py_range.
      replace (length (mid_prices b) + 1 - 8)%nat
        with (S (length (mid_prices b) - 8)) by lia.
      discriminate. }
    pose proof (mapM_last _ _ _ 0%nat Hr Hne) as Hf.
    rewrite py_range_last in Hf by lia.
    replace (length (mid_prices b) + 1 - 1)%nat with (length (mid_prices b))
      in Hf by lia.
    rewrite firstn_all in Hf.
    destruct (calculate_rsi (mid_prices b) 7) as [v |]; [| discriminate].
    rewrite bind_Ok in Hf. injection Hf as Hf.
    exists v. split; [reflexivity |].
    rewrite Hcr, Hf. unfold last_or.
    destruct (rsi7_list ind) as [| r0 rs] eqn:E.
    + pose proof (mapM_length _ _ _ Hr) as Hlen'.
      unfold py_range in Hlen'. rewrite length_seq in Hlen'.
      simpl in Hlen'. lia.
    + rewrite !last_as_nth. apply nth_indep. simpl. lia.
  - exists e. split; [exact He |].
    assert (Hne : e <> []).
    { intro E. rewrite E in Hl. unfold py_tail_slice in Hl. simpl in Hl.
      rewrite Hl in Hlast. discriminate. }
    destruct (py_last_ok e Hne) as [x Hx].
    rewrite Hx. f_equal.
    rewrite (py_last_last _ _ Hx), (py_last_last _ _ Hlast), Hl.
    unfold py_tail_slice. symmetry. apply last_skipn.
    destruct e; [contradiction | simpl; lia].
Qed.

Lemma X25_current_values_witness :
  exists ind v,
    compute_indicators decimal_literal scenario_bag (Raise ConnectionError) = Ok ind
    /\ calculate_rsi scenario_prices 7 = Ok v
    /\ current_rsi7 ind = py_round v 3.
Proof.
  destruct (compute_indicators_nonzero decimal_literal scenario_bag
              (Raise ConnectionError) 109) as [ind Hc];
    [reflexivity | lra |].
  destruct (X25_current_values decimal_literal _ _ ind Hc) as [_ [Hr _]].
  destruct Hr as [v [Hv Hcur]]; [simpl; lia |].
  exists ind, v. repeat split; assumption.
Defined.

Lemma py_sum_between (lo hi : Q) (l : list Q) :
  within lo hi l ->
  inject_Z (Z.of_nat (length l)) * lo <= py_sum l
  /\ py_sum l <= inject_Z (Z.of_nat (length l)) * hi.
Proof.
  induction 1 as [| x l Hx Hl IH].
  - unfold py_sum. cbn [fold_left length].
    change (inject_Z (Z.of_nat 0)) with 0. lra.
  - rewrite py_sum_cons. cbn [length].
    rewrite Nat2Z.inj_succ, <- Z.add_1_r, inject_Z_plus.
    change (inject_Z 1) with 1. lra.
Qed.

(** X26: the volume figures of the report: the current volume is the last
    volume and is not 0, the average volume lies within the range of the
    volumes, and the taker-buy share is 100 times the last taker-buy
    volume over the last volume, hence between 0 and 100 whenever the
    taker-buy volume is between 0 and the volume. *)
Theorem X26_volume_fields (b : binance_bag) (vf : volume_fields) :
  volume_fields_of b = Ok vf ->
  py_last (volumes b) = Ok (cur_vol vf)
  /\ py_last (taker_buy_volumes b) = Ok (taker_now vf)
  /\ ~ cur_vol vf == 0
  /\ taker_share vf = taker_now vf / cur_vol vf * 100
  /\ (forall lo hi, within lo hi (volumes b) -> lo <= avg_vol vf <= hi)
  /\ (0 <= taker_now vf <= cur_vol vf -> 0 <= taker_share vf <= 100).
Proof.
  unfold volume_fields_of. intro H.
  bind_ok H v_last E1. bind_ok H v_avg E2. bind_ok H t_last E3.
  bind_ok H t_num E4. bind_ok H v_den E5. bind_ok H ratio E6.
  injection H as <-. cbn [cur_vol avg_vol taker_now taker_share].
  assert (Et : t_num = t_last) by congruence. subst t_num.
  assert (Ev : v_den = v_last) by congruence. subst v_den.
  unfold py_div in E2, E6.
  destruct (Qeq_bool (inject_Z (Z.of_nat (length (volumes b)))) 0) eqn:Z2;
    [discriminate |].
  destruct (Qeq_bool v_last 0) eqn:Z6; [discriminate |].
  injection E2 as <-. injection E6 as <-.
  assert (Hnz : ~ v_last == 0).
  { intro Hz. apply Qeq_bool_iff in Hz. congruence. }
  assert (Hn : 0 < inject_Z (Z.of_nat (length (volumes b)))).
  { assert (Hne : ~ inject_Z (Z.of_nat (length (volumes b))) == 0).
    { intro Hz. apply Qeq_bool_iff in Hz. congruence. }
    assert (H0 : inject_Z 0 <= inject_Z (Z.of_nat (length (volumes b))))
      by (rewrite <- Zle_Qle; lia).
    change (inject_Z 0) with 0 in H0.
    apply Qnot_le_lt. intro Hle. apply Hne. lra. }
  split; [reflexivity |]. split; [assumption |]. split; [exact Hnz |].
  split; [reflexivity |]. split.
  - intros lo hi Hw. destruct (py_sum_between lo hi _ Hw) as [H1 H2].
    split; [apply le_div_iff | apply div_le_iff]; try exact Hn; lra.
  - intros [H0 H1].
    assert (Hpos : 0 < v_last).
    { apply Qnot_le_lt. intro Hle. apply Hnz. lra. }
    assert (Hr0 : 0 <= t_last / v_last) by (apply le_div_iff; lra).
    assert (Hr1 : t_last / v_last <= 1) by (apply div_le_iff; lra).
    lra.
Qed.

Lemma X26_volume_fields_witness :
  exists vf,
    volume_fields_of scenario_bag = Ok vf
    /\ taker_share vf = taker_now vf / cur_vol vf * 100
    /\ 0 <= taker_share vf <= 100.
Proof.
  eexists. split; [reflexivity |].
  destruct (X26_volume_fields scenario_bag _ eq_refl)
    as [_ [_ [_ [Hs [_ Hr]]]]].
  split; [exact Hs |].
  apply Hr. simpl. split; apply Qle_bool_iff; reflexivity.
Defined.
